(** * stack-packet: the Device controller, the spot-market mock client and
      the generated deep copies of the VLAN API types

    A shallow embedding of

    - [pkg/controller/server/device/managed.go] (package [device]):
      [Connect], [Observe], [resolveUserDataRefs], [Create], [Update],
      [Delete];
    - the hand-written mock of the spot-market client (package [fake]);
    - [apis/vlan/v1alpha1/zz_generated.deepcopy.go] (package [v1alpha1]).

    Go pointers to objects that the code shares and mutates are locations of
    an explicit store; calls that leave the process (the provider's REST
    client, the Kubernetes API client) thread an abstract [World] and are
    recorded in a call log.  What the three files import and do not define
    is a parameter: for the controller, the types are the fields of
    [Imported] and the functions are the fields of [device.Packages] and of
    the two interface records; for the deep copies, both are the fields of
    [v1alpha1.Imports].  The exceptions are the few library functions whose
    whole behaviour is written out where they are used: [errors.New],
    [errors.Wrap], [fmt.Errorf] and [resource.Ignore]. *)

From Stdlib.Strings Require Import String Ascii Byte.
From Stdlib Require Import List Bool.
From stdpp Require Import base option list strings gmap.

Local Open Scope string_scope.
Local Open Scope list_scope.

(** ** Go error values *)

(** [error] is Go's interface type: [None] is [nil].  A non-nil error is
    either produced by imported code ([Foreign]) or built in this package with
    [errors.New], [fmt.Errorf] or [errors.Wrap]. *)
Module errors.

Inductive Err (F : Type) : Type :=
| Foreign (e : F)
| Fresh (msg : string)
| Formatted (msg : string)
| Wrapped (cause : Err F) (msg : string).

Arguments Foreign {F} e.
Arguments Fresh {F} msg.
Arguments Formatted {F} msg.
Arguments Wrapped {F} cause msg.

(** [errors.New(msg)]. *)
Definition New {F} (msg : string) : option (Err F) := Some (Fresh msg).

(** [fmt.Errorf(msg)] for a format without verbs. *)
Definition Errorf {F} (msg : string) : option (Err F) := Some (Formatted msg).

(** [errors.Wrap(err, msg)]: [nil] stays [nil]. *)
Definition Wrap {F} (err : option (Err F)) (msg : string) : option (Err F) :=
  match err with
  | None => None
  | Some cause => Some (Wrapped cause msg)
  end.

(** The outermost context message of an error, when it has one. *)
Definition context {F} (err : Err F) : option string :=
  match err with
  | Wrapped _ msg => Some msg
  | _ => None
  end.

End errors.

(** ** Imported types *)

Class Imported := {
  (** the state of everything outside the process: the API server and the
      provider's REST service *)
  World : Type;
  (** error values built by imported code *)
  ForeignError : Type;
  (** [packngo.Device], [packngo.DeviceCreateRequest],
      [packngo.DeviceUpdateRequest] *)
  packngo_Device : Type;
  packngo_DeviceCreateRequest : Type;
  packngo_DeviceUpdateRequest : Type;
  (** [clients.Credentials] *)
  Credentials : Type;
  (** [metav1.ObjectMeta] (with the [TypeMeta]) of a Device *)
  ObjectMeta : Type;
  (** [xpv1.ResourceSpec] and [xpv1.ResourceStatus] *)
  ResourceSpec : Type;
  ResourceStatus : Type;
  (** the fields of [v1alpha2.DeviceParameters] and
      [v1alpha2.DeviceObservation] that managed.go never names *)
  ParametersRest : Type;
  ObservationRest : Type;
  (** managed resources of any other kind *)
  OtherManaged : Type;
  ParametersRest_eq_dec :: EqDecision ParametersRest;
}.

Definition loc := positive.

Module device.

Section Types.
Context `{Imported}.

Definition error := option (errors.Err ForeignError).

(** The type of [Spec.ForProvider.UserDataRef]: the fields that
    [resolveUserDataRefs] reads. *)
Record UserDataReference := {
  Name : string;
  Namespace : string;
  Key : string;
  Kind : string;
  Optional : bool;
}.

(** [v1alpha2.DeviceParameters]. *)
Record DeviceParameters := {
  UserData : option string;
  UserDataRef : option UserDataReference;
  NetworkType : option string;
  parametersRest : ParametersRest;
}.

(** [v1alpha2.DeviceObservation]. *)
Record DeviceObservation := {
  ID : string;
  State : string;
  observationRest : ObservationRest;
}.

Record DeviceSpec := {
  specResourceSpec : ResourceSpec;
  ForProvider : DeviceParameters;
}.

Record DeviceStatus := {
  statusResourceStatus : ResourceStatus;
  AtProvider : DeviceObservation;
}.

(** [v1alpha2.Device]. *)
Record Device := {
  objectMeta : ObjectMeta;
  Spec : DeviceSpec;
  Status : DeviceStatus;
}.

#[export] Instance UserDataReference_eq_dec : EqDecision UserDataReference.
Proof. solve_decision. Defined.

#[export] Instance DeviceParameters_eq_dec : EqDecision DeviceParameters.
Proof. solve_decision. Defined.

(** [resource.Managed]: an interface value holding a pointer. *)
Inductive Managed :=
| IsDevice (d : loc)
| IsOther (o : OtherManaged).

(** The conditions of [xpv1] that the controller sets, named after their
    constructors. *)
Inductive Condition := Available | Creating | Unavailable | Deleting.

(** [types.NamespacedName]. *)
Record NamespacedName := {
  nsnName : string;
  nsnNamespace : string;
}.

(** [managed.ConnectionDetails] is a map from names to bytes; [None] is the
    nil map. *)
Definition ConnectionDetails := option (gmap string (list byte)).

Record ExternalObservation := {
  ResourceExists : bool;
  ResourceUpToDate : bool;
  observationDetails : ConnectionDetails;
}.

Record ExternalCreation := { creationDetails : ConnectionDetails }.

Record ExternalUpdate := { updateDetails : ConnectionDetails }.

(** A pointer to a [packngo.Device]; [None] is nil. *)
Definition DevicePtr := option packngo_Device.

(** [devicesclient.ClientWithDefaults], as far as managed.go calls it.  The
    [*packngo.Response] results are dropped by every caller, and [Get] is
    always given nil options. *)
Record ClientWithDefaults := {
  client_Get : string -> World -> (DevicePtr * error) * World;
  client_Create : packngo_DeviceCreateRequest -> World -> (DevicePtr * error) * World;
  client_Update : string -> packngo_DeviceUpdateRequest -> World -> (DevicePtr * error) * World;
  client_Delete : string -> bool -> World -> error * World;
  client_DeviceToNetworkType : string -> string -> World -> (DevicePtr * error) * World;
  client_GetProjectID : string -> string;
}.

(** [client.Client] of controller-runtime, as far as managed.go calls it.
    [Get] fills the object it is handed: the model returns the [Data] of that
    object after the call (empty when nothing was written).  [Update] may
    write the server's answer back into the object it is handed. *)
Record KubeClient := {
  kube_GetConfigMap : NamespacedName -> World -> (gmap string string * error) * World;
  kube_GetSecret : NamespacedName -> World -> (gmap string (list byte) * error) * World;
  kube_Update : Device -> World -> (Device * error) * World;
}.

(** What imported packages provide besides the two interfaces. *)
Record Packages := {
  (** crossplane-runtime, [meta] *)
  meta_GetExternalName : ObjectMeta -> string;
  meta_SetExternalName : ObjectMeta -> string -> ObjectMeta;
  (** [xpv1.ConditionedStatus.SetConditions] with one condition *)
  SetConditions : ResourceStatus -> Condition -> ResourceStatus;
  (** the device states of [v1alpha2] *)
  StateActive : string;
  StateProvisioning : string;
  StateQueued : string;
  StateDeprovisioning : string;
  StateFailed : string;
  StateInactive : string;
  StatePoweringOff : string;
  StateReinstalling : string;
  (** [pkg/clients] *)
  IsNotFound : error -> bool;
  CredentialProjectID : string;
  GetAuthInfo : KubeClient -> Device -> World -> (option Credentials * error) * World;
  (** [pkg/clients/device] *)
  NewClient : option Credentials -> World -> (ClientWithDefaults * error) * World;
  LateInitialize : DeviceParameters -> DevicePtr -> DeviceParameters;
  GenerateObservation : DevicePtr -> DeviceObservation * error;
  IsUpToDate : Device -> DevicePtr -> bool * bool;
  GetConnectionDetails : DevicePtr -> ConnectionDetails;
  CreateFromDevice : Device -> string -> packngo_DeviceCreateRequest;
  NewUpdateDeviceRequest : Device -> packngo_DeviceUpdateRequest;
  (** the field [ID] of a [packngo.Device] *)
  packngo_ID : packngo_Device -> string;
  (** [strconv.Quote], which [%q] applies to a string *)
  Quote : string -> string;
}.

End Types.

(** ** The store, the world and the call log *)

Section Controller.
Context `{Imported}.
Variable pkg : Packages.

(** Calls made through the two interfaces of [external]. *)
Inductive Call :=
| ClientGet (deviceID : string)
| ClientCreate (req : packngo_DeviceCreateRequest)
| ClientUpdate (deviceID : string) (req : packngo_DeviceUpdateRequest)
| ClientDelete (deviceID : string) (force : bool)
| ClientDeviceToNetworkType (deviceID networkType : string)
| ClientGetProjectID (id : string)
| KubeGet (kind : string) (nsn : NamespacedName)
| KubeUpdate (obj : Device).

Record Machine := {
  world : World;
  objects : gmap loc Device;
  calls : list Call;
}.

(** A computation either stops on a run-time panic (a nil dereference) or
    yields a value and the next machine state. *)
Definition M (A : Type) : Type := Machine -> option (A * Machine).

#[export] Instance M_ret : MRet M := fun A a s => Some (a, s).

#[export] Instance M_bind : MBind M := fun A B f m s =>
  match m s with
  | Some (a, s') => f a s'
  | None => None
  end.

Definition panic {A} : M A := fun _ => None.

(** Reading and writing through a [*v1alpha2.Device]. *)
Definition load (l : loc) : M Device := fun s =>
  match objects s !! l with
  | Some v => Some (v, s)
  | None => None
  end.

Definition store (l : loc) (v : Device) : M unit := fun s =>
  Some (tt, {| world := world s; objects := <[l := v]> (objects s); calls := calls s |}).

Definition modify (l : loc) (f : Device -> Device) : M unit :=
  v ← load l; store l (f v).

(** A new object: the location is one the store does not hold yet. *)
Definition alloc (v : Device) : M loc := fun s =>
  let l := fresh (dom (objects s)) in
  Some (l, {| world := world s; objects := <[l := v]> (objects s); calls := calls s |}).

(** Modelled from the spec: the generated deep copies of [v1alpha2.Device]
    and [v1alpha2.DeviceParameters], whose file is not among the sources.
    They are "generated boilerplate (deepcopy methods)" like those of package
    [v1alpha1] below: the copy is a new object that holds an equal value.
    The copy of the parameters never leaves [Observe], so it is kept as a
    value. *)
Definition Device_DeepCopy (d : loc) : M loc :=
  v ← load d; alloc v.

Definition DeviceParameters_DeepCopy (p : DeviceParameters) : DeviceParameters := p.

(** A call that leaves the process, without and with an entry in the log. *)
Definition lift {A} (f : World -> A * World) : M A := fun s =>
  let '(a, w) := f (world s) in
  Some (a, {| world := w; objects := objects s; calls := calls s |}).

Definition call {A} (c : Call) (f : World -> A * World) : M A := fun s =>
  let '(a, w) := f (world s) in
  Some (a, {| world := w; objects := objects s; calls := calls s ++ [c] |}).

(** ** Field updates *)

Definition setForProvider (p : DeviceParameters) (v : Device) : Device :=
  {| objectMeta := objectMeta v;
     Spec := {| specResourceSpec := specResourceSpec (Spec v); ForProvider := p |};
     Status := Status v |}.

Definition setUserData (u : option string) (v : Device) : Device :=
  setForProvider
    {| UserData := u;
       UserDataRef := UserDataRef (ForProvider (Spec v));
       NetworkType := NetworkType (ForProvider (Spec v));
       parametersRest := parametersRest (ForProvider (Spec v)) |} v.

Definition setAtProvider (o : DeviceObservation) (v : Device) : Device :=
  {| objectMeta := objectMeta v;
     Spec := Spec v;
     Status := {| statusResourceStatus := statusResourceStatus (Status v); AtProvider := o |} |}.

Definition setAtProviderID (id : string) (v : Device) : Device :=
  setAtProvider
    {| ID := id;
       State := State (AtProvider (Status v));
       observationRest := observationRest (AtProvider (Status v)) |} v.

(** [d.Status.SetConditions(c)]. *)
Definition setCondition (c : Condition) (v : Device) : Device :=
  {| objectMeta := objectMeta v;
     Spec := Spec v;
     Status := {| statusResourceStatus := SetConditions pkg (statusResourceStatus (Status v)) c;
                  AtProvider := AtProvider (Status v) |} |}.

(** [meta.SetExternalName(d, name)] and [meta.GetExternalName(d)]. *)
Definition setExternalName (name : string) (v : Device) : Device :=
  {| objectMeta := meta_SetExternalName pkg (objectMeta v) name;
     Spec := Spec v;
     Status := Status v |}.

Definition GetExternalName (d : loc) : M string :=
  v ← load d; mret (meta_GetExternalName pkg (objectMeta v)).

(** ** managed.go *)

(** Error strings. *)
Definition errManagedUpdateFailed := "cannot update Device custom resource".
Definition errTrackPCUsage := "cannot track ProviderConfig usage".
Definition errGetProviderConfigSecret := "cannot get ProviderConfig Secret".
Definition errGenObservation := "cannot generate observation".
Definition errNewClient := "cannot create new Device client".
Definition errNotDevice := "managed resource is not a Device".
Definition errGetDevice := "cannot get Device".
Definition errCreateDevice := "cannot create Device".
Definition errUpdateDevice := "cannot modify Device".
Definition errDeleteDevice := "cannot delete Device".

Definition userdataMapKey := "cloud-init".

Record connecter := {
  connecter_kube : KubeClient;
  usage_Track : Device -> World -> error * World;
  newClientFn : option (option Credentials -> World -> (ClientWithDefaults * error) * World);
}.

Record external := {
  kube : KubeClient;
  client : ClientWithDefaults;
}.

Definition Connect (c : connecter) (mg : Managed) : M (option external * error) :=
  match mg with
  | IsOther _ => mret (None, errors.New errNotDevice)
  | IsDevice d =>
    v ← load d;
    err ← lift (usage_Track c v);
    match err with
    | Some _ => mret (None, errors.Wrap err errTrackPCUsage)
    | None =>
      let newClient :=
        match newClientFn c with
        | Some f => f
        | None => NewClient pkg
        end in
      '(cfg, err) ← lift (GetAuthInfo pkg (connecter_kube c) v);
      match err with
      | Some _ => mret (None, errors.Wrap err errGetProviderConfigSecret)
      | None =>
        '(cl, err) ← lift (newClient cfg);
        mret (Some {| kube := connecter_kube c; client := cl |}, errors.Wrap err errNewClient)
      end
    end
  end.

(** [e.kube.Update(ctx, d)]: the object as the client leaves it is written
    back through the pointer. *)
Definition kubeUpdate (e : external) (d : loc) : M error :=
  v ← load d;
  '(v', err) ← call (KubeUpdate v) (kube_Update (kube e) v);
  store d v';;
  mret err.

Definition noObservation : ExternalObservation :=
  {| ResourceExists := false; ResourceUpToDate := false; observationDetails := None |}.

Definition Observe (e : external) (mg : Managed) : M (ExternalObservation * error) :=
  match mg with
  | IsOther _ => mret (noObservation, errors.New errNotDevice)
  | IsDevice d =>
    (* Observe device *)
    name ← GetExternalName d;
    '(device, err) ← call (ClientGet name) (client_Get (client e) name);
    if IsNotFound pkg err then
      mret ({| ResourceExists := false; ResourceUpToDate := false; observationDetails := None |}, None)
    else
    match err with
    | Some _ => mret (noObservation, errors.Wrap err errGetDevice)
    | None =>
      v ← load d;
      let current := DeviceParameters_DeepCopy (ForProvider (Spec v)) in
      modify d (fun v => setForProvider (LateInitialize pkg (ForProvider (Spec v)) device) v);;
      v ← load d;
      err ← (if negb (bool_decide (current = ForProvider (Spec v)))
             then kubeUpdate e d
             else mret None);
      match err with
      | Some _ => mret (noObservation, errors.Wrap err errManagedUpdateFailed)
      | None =>
        let '(o, err) := GenerateObservation pkg device in
        modify d (setAtProvider o);;
        match err with
        | Some _ => mret (noObservation, errors.Wrap err errGenObservation)
        | None =>
          (* Set Device status and bindable *)
          v ← load d;
          let st := State (AtProvider (Status v)) in
          (if String.eqb st (StateActive pkg) then
             modify d (setCondition Available)
           else if String.eqb st (StateProvisioning pkg) then
             modify d (setCondition Creating)
           else if existsb (String.eqb st)
                     [StateQueued pkg; StateDeprovisioning pkg; StateFailed pkg;
                      StateInactive pkg; StatePoweringOff pkg; StateReinstalling pkg] then
             modify d (setCondition Unavailable)
           else mret tt);;
          v ← load d;
          let '(upToDate, networkTypeUpToDate) := IsUpToDate pkg v device in
          mret ({| ResourceExists := true;
                   ResourceUpToDate := upToDate && networkTypeUpToDate;
                   observationDetails := GetConnectionDetails pkg device |}, None)
        end
      end
    end
  end.

(** The three strings that [resolveUserDataRefs] declares locally;
    [errRefKeyNotFound key] is [fmt.Sprintf(errRefKeyNotFoundFmt, key)] for
    the format ["could not find UserDataRef key %q"]. *)
Definition errGetUserDataRef := "cannot get required resource for UserDataRef".
Definition errInvalidRefKind := "invalid resource kind".
Definition errRefKeyNotFound (key : string) : string :=
  "could not find UserDataRef key " +:+ Quote pkg key.

Definition notNil (err : error) : bool :=
  match err with
  | Some _ => true
  | None => false
  end.

(** resolveUserDataRefs returns a userdata string fetched from the referenced
    userdata resource. *)
Definition resolveUserDataRefs (e : external) (d : loc) : M (string * error) :=
  v ← load d;
  match UserDataRef (ForProvider (Spec v)) with
  | None => panic
  | Some ref =>
    let nsn := {| nsnName := Name ref; nsnNamespace := Namespace ref |} in
    let key := if String.eqb (Key ref) "" then userdataMapKey else Key ref in
    let afterSwitch (userdata : string) (ok : bool) : M (string * error) :=
      if negb ok && negb (Optional ref) then
        mret ("", errors.Wrap (errors.Errorf errGetUserDataRef) (errRefKeyNotFound key))
      else mret (userdata, None) in
    if String.eqb (Kind ref) "ConfigMap" then
      '(data, err) ← call (KubeGet "ConfigMap" nsn) (kube_GetConfigMap (kube e) nsn);
      if notNil err && negb (Optional ref) then
        mret ("", errors.Wrap err errGetUserDataRef)
      else
        match data !! key with
        | Some userdata => afterSwitch userdata true
        | None => afterSwitch "" false
        end
    else if String.eqb (Kind ref) "Secret" then
      '(data, err) ← call (KubeGet "Secret" nsn) (kube_GetSecret (kube e) nsn);
      if notNil err && negb (Optional ref) then
        mret ("", errors.Wrap err errGetUserDataRef)
      else
        match data !! key with
        | Some bytes => afterSwitch (string_of_list_byte bytes) true
        | None => afterSwitch (string_of_list_byte []) false
        end
    else
      mret ("", errors.Wrap (errors.New errGetUserDataRef) errInvalidRefKind)
  end.

Definition noCreation : ExternalCreation := {| creationDetails := None |}.

Definition Create (e : external) (mg : Managed) : M (ExternalCreation * error) :=
  match mg with
  | IsOther _ => mret (noCreation, errors.New errNotDevice)
  | IsDevice d =>
    modify d (setCondition Creating);;
    createDev ← Device_DeepCopy d;
    let afterResolve : M (ExternalCreation * error) :=
      cv ← load createDev;
      projectID ← call (ClientGetProjectID (CredentialProjectID pkg))
                       (fun w => (client_GetProjectID (client e) (CredentialProjectID pkg), w));
      let create := CreateFromDevice pkg cv projectID in
      '(device, err) ← call (ClientCreate create) (client_Create (client e) create);
      match err with
      | Some _ => mret (noCreation, errors.Wrap err errCreateDevice)
      | None =>
        match device with
        | None => panic
        | Some dev =>
          modify d (setAtProviderID (packngo_ID pkg dev));;
          modify d (setExternalName (packngo_ID pkg dev));;
          err ← kubeUpdate e d;
          match err with
          | Some _ => mret (noCreation, errors.Wrap err errManagedUpdateFailed)
          | None => mret ({| creationDetails := GetConnectionDetails pkg device |}, None)
          end
        end
      end in
    v ← load d;
    match UserDataRef (ForProvider (Spec v)) with
    | Some _ =>
      '(userdata, err) ← resolveUserDataRefs e d;
      match err with
      | Some _ => mret (noCreation, err)
      | None =>
        modify createDev (setUserData (Some userdata));;
        afterResolve
      end
    | None => afterResolve
    end
  end.

Definition noUpdate : ExternalUpdate := {| updateDetails := None |}.

Definition Update (e : external) (mg : Managed) : M (ExternalUpdate * error) :=
  match mg with
  | IsOther _ => mret (noUpdate, errors.New errNotDevice)
  | IsDevice d =>
    name ← GetExternalName d;
    '(device, err) ← call (ClientGet name) (client_Get (client e) name);
    match err with
    | Some _ => mret (noUpdate, errors.Wrap err errGetDevice)
    | None =>
      v ← load d;
      let '(_, n) := IsUpToDate pkg v device in
      match negb n, NetworkType (ForProvider (Spec v)) with
      | true, Some networkType =>
        name ← GetExternalName d;
        '(_, err) ← call (ClientDeviceToNetworkType name networkType)
                         (client_DeviceToNetworkType (client e) name networkType);
        mret (noUpdate, errors.Wrap err errUpdateDevice)
      | _, _ =>
        name ← GetExternalName d;
        v ← load d;
        let req := NewUpdateDeviceRequest pkg v in
        '(_, err) ← call (ClientUpdate name req) (client_Update (client e) name req);
        mret (noUpdate, errors.Wrap err errUpdateDevice)
      end
    end
  end.

(** [resource.Ignore(is, err)] of crossplane-runtime: nil for the errors that
    the predicate accepts, the error itself otherwise. *)
Definition resource_Ignore (accepts : error -> bool) (err : error) : error :=
  if accepts err then None else err.

Definition Delete (e : external) (mg : Managed) : M error :=
  match mg with
  | IsOther _ => mret (errors.New errNotDevice)
  | IsDevice d =>
    modify d (setCondition Deleting);;
    name ← GetExternalName d;
    err ← call (ClientDelete name false) (client_Delete (client e) name false);
    mret (errors.Wrap (resource_Ignore (IsNotFound pkg) err) errDeleteDevice)
  end.

End Controller.

End device.

(** * The mock of the spot-market client *)

Module fake.

Section MockClient.

(** The types of packngo that the mock mentions, pointers included, the Go
    error type, and the state that a function value may read and change. *)
Context {CreateRequest SpotMarketRequest Response GetOptions GoError World : Type}.

(** A Go function value of one parameter: [None] is the nil function, whose
    call panics. *)
Definition Func (A R : Type) : Type := option (A -> World -> R * World).

(** Calling a function value. *)
Definition invoke {A R} (f : Func A R) (a : A) (w : World) : option (R * World) :=
  match f with
  | Some g => Some (g a w)
  | None => None
  end.

(** MockClient is a fake implementation of packngo.Client.  [MockCreate] and
    [MockGet] take two parameters: they are functions of the first that
    yield a function of the second. *)
Record MockClient := {
  MockCreate : option (CreateRequest -> string -> World ->
                       (SpotMarketRequest * Response * GoError) * World);
  MockDelete : Func string (Response * GoError);
  MockGet : option (string -> GetOptions -> World ->
                    (SpotMarketRequest * Response * GoError) * World);
  MockGetProjectID : Func string string;
  MockGetFacilityID : Func string string;
}.

(** Create calls the MockClient's MockCreate function.  The source hands
    [MockCreate] the create request alone, although the field is declared
    with a second parameter, the project ID: what the call denotes still
    waits for that argument. *)
Definition Create (c : MockClient) (createRequest : CreateRequest)
    : option (string -> World -> (SpotMarketRequest * Response * GoError) * World) :=
  match MockCreate c with
  | Some g => Some (g createRequest)
  | None => None
  end.

(** Delete calls the MockClient's MockDelete function. *)
Definition Delete (c : MockClient) (requestID : string) (w : World)
    : option ((Response * GoError) * World) :=
  invoke (MockDelete c) requestID w.

(** Get calls the MockClient's MockGet function. *)
Definition Get (c : MockClient) (requestID : string) (options : GetOptions) (w : World)
    : option ((SpotMarketRequest * Response * GoError) * World) :=
  match MockGet c with
  | Some g => Some (g requestID options w)
  | None => None
  end.

(** GetFacilityID calls the MockClient's MockGetFacilityID function. *)
Definition GetFacilityID (c : MockClient) (id : string) (w : World) : option (string * World) :=
  invoke (MockGetFacilityID c) id w.

(** GetProjectID calls the MockClient's MockGetProjectID function. *)
Definition GetProjectID (c : MockClient) (id : string) (w : World) : option (string * World) :=
  invoke (MockGetProjectID c) id w.

End MockClient.

End fake.

(** * The generated deep copies of the VLAN API types *)

Module v1alpha1.

(** What zz_generated.deepcopy.go takes from other packages: the types it
    embeds, with the zero value of each, and their own deep copies.  Values
    of these types are opaque here; a [*metav1.Time] that is not nil is
    given by the [Time] it points to. *)
Class Imports := {
  TypeMeta : Type;
  ObjectMeta : Type;
  ListMeta : Type;
  ResourceSpec : Type;
  ResourceStatus : Type;
  Time : Type;
  (** the fields of [VirtualNetworkParameters] and [VirtualNetworkObservation]
      that are copied by [*out = *in] alone *)
  ParametersRest : Type;
  ObservationRest : Type;
  TypeMeta_zero :: Inhabited TypeMeta;
  ObjectMeta_zero :: Inhabited ObjectMeta;
  ListMeta_zero :: Inhabited ListMeta;
  ResourceSpec_zero :: Inhabited ResourceSpec;
  ResourceStatus_zero :: Inhabited ResourceStatus;
  ParametersRest_zero :: Inhabited ParametersRest;
  ObservationRest_zero :: Inhabited ObservationRest;
  ObjectMeta_DeepCopyInto : ObjectMeta -> ObjectMeta;
  ListMeta_DeepCopyInto : ListMeta -> ListMeta;
  ResourceSpec_DeepCopyInto : ResourceSpec -> ResourceSpec;
  ResourceStatus_DeepCopyInto : ResourceStatus -> ResourceStatus;
  Time_DeepCopy : Time -> Time;
}.

Section DeepCopy.
Context `{imports : Imports}.

(** ** The types *)

Record VirtualNetworkParameters := {
  parametersRest : ParametersRest;
  Description : option loc;   (* *string *)
}.

Record VirtualNetworkObservation := {
  observationRest : ObservationRest;
  CreatedAt : option Time;    (* *metav1.Time *)
}.

Record VirtualNetworkSpec := {
  specResourceSpec : ResourceSpec;
  ForProvider : VirtualNetworkParameters;
}.

Record VirtualNetworkStatus := {
  statusResourceStatus : ResourceStatus;
  AtProvider : VirtualNetworkObservation;
}.

Record VirtualNetwork := {
  typeMeta : TypeMeta;
  objectMeta : ObjectMeta;
  Spec : VirtualNetworkSpec;
  Status : VirtualNetworkStatus;
}.

(** A slice: the backing array, where the slice starts in it, and its
    length. *)
Record Slice := {
  array : loc;
  offset : nat;
  len : nat;
}.

Record VirtualNetworkList := {
  listTypeMeta : TypeMeta;
  listMeta : ListMeta;
  Items : option Slice;       (* []VirtualNetwork, [None] is the nil slice *)
}.

(** ** The heap *)

Inductive Cell :=
| StringCell (s : string)
| ArrayCell (elements : list VirtualNetwork)
| NetworkCell (v : VirtualNetwork)
| ListCell (v : VirtualNetworkList)
| ObservationCell (v : VirtualNetworkObservation)
| ParametersCell (v : VirtualNetworkParameters)
| SpecCell (v : VirtualNetworkSpec)
| StatusCell (v : VirtualNetworkStatus).

Abbreviation Heap := (gmap loc Cell).

(** A computation on the heap; [None] is a run-time panic. *)
Definition Op (A : Type) : Type := Heap -> option (A * Heap).

#[export] Instance Op_ret : MRet Op := fun A a h => Some (a, h).

#[export] Instance Op_bind : MBind Op := fun A B f m h =>
  match m h with
  | Some (a, h') => f a h'
  | None => None
  end.

Definition panic {A} : Op A := fun _ => None.

(** [new(T)] and [make([]T, n)]: a cell at a location the heap does not
    hold yet. *)
Definition new (c : Cell) : Op loc := fun h =>
  let l := fresh (dom h) in Some (l, <[l := c]> h).

Definition read (l : loc) : Op Cell := fun h =>
  match h !! l with
  | Some c => Some (c, h)
  | None => None
  end.

Definition write (l : loc) (c : Cell) : Op unit := fun h => Some (tt, <[l := c]> h).

Definition readString (l : loc) : Op string :=
  c ← read l; match c with StringCell s => mret s | _ => panic end.

Definition readArray (l : loc) : Op (list VirtualNetwork) :=
  c ← read l; match c with ArrayCell xs => mret xs | _ => panic end.

(** Reading and writing the element [i] of a slice; an index out of range
    panics. *)
Definition index (sl : Slice) (i : nat) : Op VirtualNetwork :=
  xs ← readArray (array sl);
  if decide (i < len sl)%nat then
    match xs !! (offset sl + i)%nat with
    | Some v => mret v
    | None => panic
    end
  else panic.

Definition setIndex (sl : Slice) (i : nat) (v : VirtualNetwork) : Op unit :=
  xs ← readArray (array sl);
  if decide (i < len sl)%nat then
    if decide (offset sl + i < length xs)%nat then
      write (array sl) (ArrayCell (<[(offset sl + i)%nat := v]> xs))
    else panic
  else panic.

(** ** Zero values *)

Definition zeroParameters : VirtualNetworkParameters :=
  {| parametersRest := inhabitant; Description := None |}.

Definition zeroObservation : VirtualNetworkObservation :=
  {| observationRest := inhabitant; CreatedAt := None |}.

Definition zeroSpec : VirtualNetworkSpec :=
  {| specResourceSpec := inhabitant; ForProvider := zeroParameters |}.

Definition zeroStatus : VirtualNetworkStatus :=
  {| statusResourceStatus := inhabitant; AtProvider := zeroObservation |}.

Definition zeroNetwork : VirtualNetwork :=
  {| typeMeta := inhabitant; objectMeta := inhabitant; Spec := zeroSpec; Status := zeroStatus |}.

Definition zeroList : VirtualNetworkList :=
  {| listTypeMeta := inhabitant; listMeta := inhabitant; Items := None |}.

(** ** zz_generated.deepcopy.go *)

(** Each [DeepCopyInto] is given the value of [*in] and yields the value it
    leaves in [*out]: the first statement, [*out = *in], overwrites whatever
    [out] held.  The two must not overlap, which holds for the fresh [out] of
    every [DeepCopy]. *)

Definition VirtualNetworkParameters_DeepCopyInto (in_ : VirtualNetworkParameters)
    : Op VirtualNetworkParameters :=
  let out := in_ in
  match Description in_ with
  | Some p =>
    q ← new (StringCell "");
    s ← readString p;
    write q (StringCell s);;
    mret {| parametersRest := parametersRest out; Description := Some q |}
  | None => mret out
  end.

Definition VirtualNetworkParameters_DeepCopy (in_ : option loc) : Op (option loc) :=
  match in_ with
  | None => mret None
  | Some p =>
    out ← new (ParametersCell zeroParameters);
    c ← read p;
    match c with
    | ParametersCell v =>
      v' ← VirtualNetworkParameters_DeepCopyInto v;
      write out (ParametersCell v');;
      mret (Some out)
    | _ => panic
    end
  end.

Definition VirtualNetworkObservation_DeepCopyInto (in_ : VirtualNetworkObservation)
    : Op VirtualNetworkObservation :=
  let out := in_ in
  match CreatedAt in_ with
  | Some t =>
    mret {| observationRest := observationRest out; CreatedAt := Some (Time_DeepCopy t) |}
  | None => mret out
  end.

Definition VirtualNetworkObservation_DeepCopy (in_ : option loc) : Op (option loc) :=
  match in_ with
  | None => mret None
  | Some p =>
    out ← new (ObservationCell zeroObservation);
    c ← read p;
    match c with
    | ObservationCell v =>
      v' ← VirtualNetworkObservation_DeepCopyInto v;
      write out (ObservationCell v');;
      mret (Some out)
    | _ => panic
    end
  end.

Definition VirtualNetworkSpec_DeepCopyInto (in_ : VirtualNetworkSpec) : Op VirtualNetworkSpec :=
  let out := in_ in
  let rs := ResourceSpec_DeepCopyInto (specResourceSpec in_) in
  fp ← VirtualNetworkParameters_DeepCopyInto (ForProvider in_);
  mret {| specResourceSpec := rs; ForProvider := fp |}.

Definition VirtualNetworkSpec_DeepCopy (in_ : option loc) : Op (option loc) :=
  match in_ with
  | None => mret None
  | Some p =>
    out ← new (SpecCell zeroSpec);
    c ← read p;
    match c with
    | SpecCell v =>
      v' ← VirtualNetworkSpec_DeepCopyInto v;
      write out (SpecCell v');;
      mret (Some out)
    | _ => panic
    end
  end.

Definition VirtualNetworkStatus_DeepCopyInto (in_ : VirtualNetworkStatus) : Op VirtualNetworkStatus :=
  let out := in_ in
  let rs := ResourceStatus_DeepCopyInto (statusResourceStatus in_) in
  ap ← VirtualNetworkObservation_DeepCopyInto (AtProvider in_);
  mret {| statusResourceStatus := rs; AtProvider := ap |}.

Definition VirtualNetworkStatus_DeepCopy (in_ : option loc) : Op (option loc) :=
  match in_ with
  | None => mret None
  | Some p =>
    out ← new (StatusCell zeroStatus);
    c ← read p;
    match c with
    | StatusCell v =>
      v' ← VirtualNetworkStatus_DeepCopyInto v;
      write out (StatusCell v');;
      mret (Some out)
    | _ => panic
    end
  end.

Definition VirtualNetwork_DeepCopyInto (in_ : VirtualNetwork) : Op VirtualNetwork :=
  let out := in_ in
  let tm := typeMeta in_ in
  let om := ObjectMeta_DeepCopyInto (objectMeta in_) in
  spec ← VirtualNetworkSpec_DeepCopyInto (Spec in_);
  status ← VirtualNetworkStatus_DeepCopyInto (Status in_);
  mret {| typeMeta := tm; objectMeta := om; Spec := spec; Status := status |}.

Definition VirtualNetwork_DeepCopy (in_ : option loc) : Op (option loc) :=
  match in_ with
  | None => mret None
  | Some p =>
    out ← new (NetworkCell zeroNetwork);
    c ← read p;
    match c with
    | NetworkCell v =>
      v' ← VirtualNetwork_DeepCopyInto v;
      write out (NetworkCell v');;
      mret (Some out)
    | _ => panic
    end
  end.

(** The loop [for i := range *in] that deep-copies element [i] of [in] into
    element [i] of [out]: from index [i] on, with [n] rounds left. *)
Fixpoint copyItems (in_ out : Slice) (i n : nat) : Op unit :=
  match n with
  | O => mret tt
  | S n' =>
    v ← index in_ i;
    v' ← VirtualNetwork_DeepCopyInto v;
    setIndex out i v';;
    copyItems in_ out (S i) n'
  end.

Definition VirtualNetworkList_DeepCopyInto (in_ : VirtualNetworkList) : Op VirtualNetworkList :=
  let out := in_ in
  let tm := listTypeMeta in_ in
  let lm := ListMeta_DeepCopyInto (listMeta in_) in
  match Items in_ with
  | Some sl =>
    a ← new (ArrayCell (replicate (len sl) zeroNetwork));
    let sl' := {| array := a; offset := 0; len := len sl |} in
    copyItems sl sl' 0 (len sl);;
    mret {| listTypeMeta := tm; listMeta := lm; Items := Some sl' |}
  | None => mret {| listTypeMeta := tm; listMeta := lm; Items := Items out |}
  end.

Definition VirtualNetworkList_DeepCopy (in_ : option loc) : Op (option loc) :=
  match in_ with
  | None => mret None
  | Some p =>
    out ← new (ListCell zeroList);
    c ← read p;
    match c with
    | ListCell v =>
      v' ← VirtualNetworkList_DeepCopyInto v;
      write out (ListCell v');;
      mret (Some out)
    | _ => panic
    end
  end.

(** ** runtime.Object *)

(** A value of the interface type [runtime.Object], as far as this file
    builds one: the nil interface, or an interface value that holds a
    pointer to a VirtualNetwork or to a VirtualNetworkList.  An interface
    value that holds a pointer is not nil, even when the pointer is. *)
Inductive Object :=
| nilObject
| NetworkObject (p : option loc)
| ListObject (p : option loc).

(** DeepCopyObject is an autogenerated deepcopy function, copying the
    receiver, creating a new runtime.Object. *)
Definition VirtualNetwork_DeepCopyObject (in_ : option loc) : Op Object :=
  c ← VirtualNetwork_DeepCopy in_;
  match c with
  | Some _ => mret (NetworkObject c)
  | None => mret nilObject
  end.

Definition VirtualNetworkList_DeepCopyObject (in_ : option loc) : Op Object :=
  c ← VirtualNetworkList_DeepCopy in_;
  match c with
  | Some _ => mret (ListObject c)
  | None => mret nilObject
  end.

End DeepCopy.

End v1alpha1.

(** * Concrete scenarios *)

Module scenario.
Import device.

(** A small instance of the imported types: the world counts the calls made
    so far, a provider device is its ID with its state, a create request
    carries the user data and the project, an update request the external
    name of the object it was built from. *)
#[export] Instance types : Imported := {|
  World := nat;
  ForeignError := nat;
  packngo_Device := string * string;
  packngo_DeviceCreateRequest := option string * string;
  packngo_DeviceUpdateRequest := string;
  Credentials := unit;
  ObjectMeta := string;
  ResourceSpec := unit;
  ResourceStatus := list Condition;
  ParametersRest := nat;
  ObservationRest := unit;
  OtherManaged := unit;
|}.

(** Foreign errors are HTTP status codes. *)
Definition status (code : nat) : error := Some (errors.Foreign code).

(** [strconv.Quote] on strings of printable ASCII without quotes and
    backslashes. *)
Definition quote (s : string) : string :=
  String (ascii_of_nat 34) (s +:+ String (ascii_of_nat 34) EmptyString).

(** What the outside answers in one scenario. *)
Record Script := {
  onGet : DevicePtr * error;
  onCreate : DevicePtr * error;
  onUpdate : DevicePtr * error;
  onDelete : error;
  onNetworkType : DevicePtr * error;
  onKubeUpdate : error;
  onConfigMap : gmap string string * error;
  onSecret : gmap string (list byte) * error;
  lateInitialized : nat;
}.

Definition scripted (sc : Script) : external := {|
  kube := {|
    kube_GetConfigMap := fun _ w => (onConfigMap sc, S w);
    kube_GetSecret := fun _ w => (onSecret sc, S w);
    kube_Update := fun v w => ((v, onKubeUpdate sc), S w);
  |};
  client := {|
    client_Get := fun _ w => (onGet sc, S w);
    client_Create := fun _ w => (onCreate sc, S w);
    client_Update := fun _ _ w => (onUpdate sc, S w);
    client_Delete := fun _ _ w => (onDelete sc, S w);
    client_DeviceToNetworkType := fun _ _ w => (onNetworkType sc, S w);
    client_GetProjectID := fun id => if String.eqb id "" then "default-project" else id;
  |};
|}.

Definition pkg (sc : Script) : Packages := {|
  meta_GetExternalName := fun m => m;
  meta_SetExternalName := fun _ name => name;
  SetConditions := fun _ c => [c];
  StateActive := "active";
  StateProvisioning := "provisioning";
  StateQueued := "queued";
  StateDeprovisioning := "deprovisioning";
  StateFailed := "failed";
  StateInactive := "inactive";
  StatePoweringOff := "powering_off";
  StateReinstalling := "reinstalling";
  IsNotFound := fun err =>
    match err with
    | Some (errors.Foreign 404) => true
    | _ => false
    end;
  CredentialProjectID := "projectID";
  GetAuthInfo := fun _ _ w => ((Some tt, None), S w);
  NewClient := fun _ w => ((client (scripted sc), None), S w);
  LateInitialize := fun p _ =>
    {| UserData := UserData p; UserDataRef := UserDataRef p;
       NetworkType := NetworkType p; parametersRest := lateInitialized sc |};
  GenerateObservation := fun dev =>
    match dev with
    | Some (id, st) => ({| ID := id; State := st; observationRest := tt |}, None)
    | None => ({| ID := ""; State := ""; observationRest := tt |}, status 0)
    end;
  IsUpToDate := fun v dev =>
    (true,
     match NetworkType (ForProvider (Spec v)) with
     | Some _ => false
     | None => true
     end);
  GetConnectionDetails := fun _ => None;
  CreateFromDevice := fun v projectID => (UserData (ForProvider (Spec v)), projectID);
  NewUpdateDeviceRequest := fun v => objectMeta v;
  packngo_ID := fst;
  Quote := quote;
|}.

(** The quiet script: every call succeeds, the device is active, there is
    nothing to late-initialize, and the ConfigMap holds cloud-init data. *)
Definition quiet : Script := {|
  onGet := (Some ("dev-1", "active"), None);
  onCreate := (Some ("dev-1", "queued"), None);
  onUpdate := (Some ("dev-1", "active"), None);
  onDelete := None;
  onNetworkType := (Some ("dev-1", "active"), None);
  onKubeUpdate := None;
  onConfigMap := ({[ "cloud-init" := "#cloud-config" ]}, None);
  onSecret := (∅, None);
  lateInitialized := 0;
|}.

(** A Device that points at a ConfigMap for its user data. *)
Definition userDataRef (kind key : string) (optional : bool) : UserDataReference :=
  {| Name := "boot"; Namespace := "default"; Key := key; Kind := kind; Optional := optional |}.

Definition aDevice (ref : option UserDataReference) (networkType : option string) : Device := {|
  objectMeta := "dev-1";
  Spec := {| specResourceSpec := tt;
             ForProvider := {| UserData := None; UserDataRef := ref;
                               NetworkType := networkType; parametersRest := 0 |} |};
  Status := {| statusResourceStatus := [];
               AtProvider := {| ID := ""; State := ""; observationRest := tt |} |};
|}.

(** The machine that holds [v] at location [here] and has made no call yet. *)
Definition here : loc := 1%positive.

Definition holding (v : Device) : Machine :=
  {| world := 0; objects := {[ here := v ]}; calls := [] |}.

Definition plain : Device := aDevice None None.

(** Variations of the quiet script. *)
Definition withGet (r : DevicePtr * error) (sc : Script) : Script :=
  {| onGet := r; onCreate := onCreate sc; onUpdate := onUpdate sc; onDelete := onDelete sc;
     onNetworkType := onNetworkType sc; onKubeUpdate := onKubeUpdate sc;
     onConfigMap := onConfigMap sc; onSecret := onSecret sc;
     lateInitialized := lateInitialized sc |}.

Definition withDelete (r : error) (sc : Script) : Script :=
  {| onGet := onGet sc; onCreate := onCreate sc; onUpdate := onUpdate sc; onDelete := r;
     onNetworkType := onNetworkType sc; onKubeUpdate := onKubeUpdate sc;
     onConfigMap := onConfigMap sc; onSecret := onSecret sc;
     lateInitialized := lateInitialized sc |}.

Definition withConfigMap (r : gmap string string * error) (sc : Script) : Script :=
  {| onGet := onGet sc; onCreate := onCreate sc; onUpdate := onUpdate sc; onDelete := onDelete sc;
     onNetworkType := onNetworkType sc; onKubeUpdate := onKubeUpdate sc;
     onConfigMap := r; onSecret := onSecret sc;
     lateInitialized := lateInitialized sc |}.

(** The provider knows a setting that the Device does not carry yet, and the
    API server refuses the write that would record it. *)
Definition conflict : Script :=
  {| onGet := onGet quiet; onCreate := onCreate quiet; onUpdate := onUpdate quiet;
     onDelete := onDelete quiet; onNetworkType := onNetworkType quiet;
     onKubeUpdate := status 409;
     onConfigMap := onConfigMap quiet; onSecret := onSecret quiet;
     lateInitialized := 1 |}.

(** Further variations of a script. *)
Definition withCreate (r : DevicePtr * error) (sc : Script) : Script :=
  {| onGet := onGet sc; onCreate := r; onUpdate := onUpdate sc; onDelete := onDelete sc;
     onNetworkType := onNetworkType sc; onKubeUpdate := onKubeUpdate sc;
     onConfigMap := onConfigMap sc; onSecret := onSecret sc;
     lateInitialized := lateInitialized sc |}.

Definition withSecret (r : gmap string (list byte) * error) (sc : Script) : Script :=
  {| onGet := onGet sc; onCreate := onCreate sc; onUpdate := onUpdate sc; onDelete := onDelete sc;
     onNetworkType := onNetworkType sc; onKubeUpdate := onKubeUpdate sc;
     onConfigMap := onConfigMap sc; onSecret := r;
     lateInitialized := lateInitialized sc |}.

Definition withLateInitialized (n : nat) (sc : Script) : Script :=
  {| onGet := onGet sc; onCreate := onCreate sc; onUpdate := onUpdate sc; onDelete := onDelete sc;
     onNetworkType := onNetworkType sc; onKubeUpdate := onKubeUpdate sc;
     onConfigMap := onConfigMap sc; onSecret := onSecret sc;
     lateInitialized := n |}.

(** A connecter over the scripted kube client: tracking the usage answers
    [track]; with [injected], the connecter carries a constructor of its
    own, which returns the scripted client next to that error. *)
Definition aConnecter (sc : Script) (track : error) (injected : option error) : connecter := {|
  connecter_kube := kube (scripted sc);
  usage_Track := fun _ w => (track, S w);
  newClientFn :=
    match injected with
    | Some err => Some (fun _ w => ((client (scripted sc), err), S w))
    | None => None
    end;
|}.


End scenario.

Module vlan_scenario.
Import v1alpha1.

(** Metadata as plain strings; imported deep copies that return their
    receiver. *)
#[export] Instance types : Imports := {|
  TypeMeta := string;
  ObjectMeta := string;
  ListMeta := string;
  ResourceSpec := string;
  ResourceStatus := list string;
  Time := nat;
  ParametersRest := string;
  ObservationRest := nat;
  TypeMeta_zero := populate "";
  ObjectMeta_zero := populate "";
  ListMeta_zero := populate "";
  ResourceSpec_zero := populate "";
  ResourceStatus_zero := populate [];
  ParametersRest_zero := populate "";
  ObservationRest_zero := populate 0;
  ObjectMeta_DeepCopyInto := fun x => x;
  ListMeta_DeepCopyInto := fun x => x;
  ResourceSpec_DeepCopyInto := fun x => x;
  ResourceStatus_DeepCopyInto := fun x => x;
  Time_DeepCopy := fun t => t;
|}.

(** A network on facility [facility], with or without a description. *)
Definition network (name facility : string) (description : option loc) : VirtualNetwork := {|
  typeMeta := "VirtualNetwork";
  objectMeta := name;
  Spec := {| specResourceSpec := "default";
             ForProvider := {| parametersRest := facility; Description := description |} |};
  Status := {| statusResourceStatus := ["Ready"];
               AtProvider := {| observationRest := 1001; CreatedAt := Some 2020 |} |};
|}.

Definition networks : VirtualNetworkList := {|
  listTypeMeta := "VirtualNetworkList";
  listMeta := "42";
  Items := Some {| array := 2%positive; offset := 0; len := 2 |};
|}.

(** A heap with a description, an array of two networks of which the first
    points to the description, and the list over that array. *)
Definition heap : gmap loc Cell :=
  {[ 1%positive := StringCell "uplink";
     2%positive := ArrayCell [network "a" "ewr1" (Some 1%positive); network "b" "sjc1" None];
     3%positive := ListCell networks ]}.

(** The second network alone, as a window of the array of two. *)
Definition window : VirtualNetworkList := {|
  listTypeMeta := "VirtualNetworkList";
  listMeta := "43";
  Items := Some {| array := 2%positive; offset := 1; len := 1 |};
|}.

(** A list whose Items are empty and not nil. *)
Definition noNetworks : VirtualNetworkList := {|
  listTypeMeta := "VirtualNetworkList";
  listMeta := "44";
  Items := Some {| array := 2%positive; offset := 2; len := 0 |};
|}.

End vlan_scenario.

Module fake_scenario.
Import fake.

(** A mock whose MockCreate answers with the project it was asked for; the
    world counts the calls. *)
Definition mock : @MockClient string string nat unit (option string) nat := {|
  MockCreate := Some (fun createRequest projectID w => ((projectID, 201, None), S w));
  MockDelete := Some (fun requestID w => ((204, None), S w));
  MockGet := Some (fun requestID _ w => ((requestID, 200, None), S w));
  MockGetProjectID := Some (fun id w => (id, w));
  MockGetFacilityID := None;
|}.

End fake_scenario.

(** * Vocabulary of the statements *)

Import device.

Section Vocabulary.
Context `{Imported}.
Variable pkg : Packages.

Import errors.

(** The six states that share the last case of the switch in Observe. *)
Definition unavailableStates : list string :=
  [StateQueued pkg; StateDeprovisioning pkg; StateFailed pkg;
   StateInactive pkg; StatePoweringOff pkg; StateReinstalling pkg].

(** The string constants that managed.go declares at package level. *)
Definition packageConstants : list string :=
  [errManagedUpdateFailed; errTrackPCUsage; errGetProviderConfigSecret; errGenObservation;
   errNewClient; errNotDevice; errGetDevice; errCreateDevice; errUpdateDevice; errDeleteDevice].

(** An error that is some cause wrapped with one of the package's constants. *)
Definition staticallyWrapped (err : Err ForeignError) : Prop :=
  exists cause msg, err = Wrapped cause msg /\ In msg packageConstants.

(** The errors that the methods of [external] hand back, each with the call
    whose failure it reports. *)
Inductive returnedBy (e : external) : Err ForeignError -> Prop :=
| notDevice :
    returnedBy e (Fresh errNotDevice)
| getFailed n w r w' cause :
    client_Get (client e) n w = ((r, Some cause), w') ->
    returnedBy e (Wrapped cause errGetDevice)
| kubeUpdateFailed x w x' w' cause :
    kube_Update (kube e) x w = ((x', Some cause), w') ->
    returnedBy e (Wrapped cause errManagedUpdateFailed)
| observationFailed dev o cause :
    GenerateObservation pkg dev = (o, Some cause) ->
    returnedBy e (Wrapped cause errGenObservation)
| createFailed req w r w' cause :
    client_Create (client e) req w = ((r, Some cause), w') ->
    returnedBy e (Wrapped cause errCreateDevice)
| updateFailed n req w r w' cause :
    client_Update (client e) n req w = ((r, Some cause), w') ->
    returnedBy e (Wrapped cause errUpdateDevice)
| networkTypeFailed n t w r w' cause :
    client_DeviceToNetworkType (client e) n t w = ((r, Some cause), w') ->
    returnedBy e (Wrapped cause errUpdateDevice)
| deleteFailed n f w w' cause :
    client_Delete (client e) n f w = (Some cause, w') ->
    IsNotFound pkg (Some cause) = false ->
    returnedBy e (Wrapped cause errDeleteDevice)
| configMapFailed nsn w data w' cause :
    kube_GetConfigMap (kube e) nsn w = ((data, Some cause), w') ->
    returnedBy e (Wrapped cause errGetUserDataRef)
| secretFailed nsn w data w' cause :
    kube_GetSecret (kube e) nsn w = ((data, Some cause), w') ->
    returnedBy e (Wrapped cause errGetUserDataRef)
| invalidKind :
    returnedBy e (Wrapped (Fresh errGetUserDataRef) errInvalidRefKind)
| keyNotFound key :
    returnedBy e (Wrapped (Formatted errGetUserDataRef) (errRefKeyNotFound pkg key)).

(** The errors that [Connect] hands back. *)
Inductive returnedByConnect (c : connecter) : Err ForeignError -> Prop :=
| connectNotDevice :
    returnedByConnect c (Fresh errNotDevice)
| trackFailed v w w' cause :
    usage_Track c v w = (Some cause, w') ->
    returnedByConnect c (Wrapped cause errTrackPCUsage)
| authInfoFailed v w cfg w' cause :
    GetAuthInfo pkg (connecter_kube c) v w = ((cfg, Some cause), w') ->
    returnedByConnect c (Wrapped cause errGetProviderConfigSecret)
| newClientFailed (f : option Credentials -> World -> (ClientWithDefaults * error) * World)
    cfg w cl w' cause :
    f cfg w = ((cl, Some cause), w') ->
    (newClientFn c = Some f \/ newClientFn c = None /\ f = NewClient pkg) ->
    returnedByConnect c (Wrapped cause errNewClient).

End Vocabulary.

Section VocabularyVLAN.
Import v1alpha1.
Context `{imports : Imports}.

Local Abbreviation Heap := (gmap loc Cell).

(** The imported deep copies return values equal to their receivers. *)
Definition faithfulImports : Prop :=
  (forall x, ObjectMeta_DeepCopyInto x = x) /\
  (forall x, ListMeta_DeepCopyInto x = x) /\
  (forall x, ResourceSpec_DeepCopyInto x = x) /\
  (forall x, ResourceStatus_DeepCopyInto x = x) /\
  (forall t, Time_DeepCopy t = t).

(** ** Values up to the locations they are stored at

    A snapshot of a value replaces every pointer by what it points to; it is
    undefined when a pointer dangles.  Two values are structurally equal when
    their snapshots are: nil stays apart from non-nil, a nil slice from an
    empty one. *)

Definition stringAt (h : Heap) (p : option loc) : option (option string) :=
  match p with
  | None => Some None
  | Some l =>
    match h !! l with
    | Some (StringCell s) => Some (Some s)
    | _ => None
    end
  end.

Definition snapshotParameters (h : Heap) (a : VirtualNetworkParameters)
    : option (ParametersRest * option string) :=
  t ← stringAt h (Description a); Some (parametersRest a, t).

Definition snapshotSpec (h : Heap) (a : VirtualNetworkSpec)
    : option (ResourceSpec * (ParametersRest * option string)) :=
  fp ← snapshotParameters h (ForProvider a); Some (specResourceSpec a, fp).

Definition NetworkSnapshot : Type :=
  TypeMeta * ObjectMeta * (ResourceSpec * (ParametersRest * option string)) * VirtualNetworkStatus.

Definition snapshotNetwork (h : Heap) (v : VirtualNetwork) : option NetworkSnapshot :=
  sp ← snapshotSpec h (Spec v); Some (typeMeta v, objectMeta v, sp, Status v).

(** The elements of a slice. *)
Definition elements (h : Heap) (sl : Slice) : option (list VirtualNetwork) :=
  match h !! array sl with
  | Some (ArrayCell xs) =>
    if decide (offset sl + len sl <= length xs)%nat
    then Some (take (len sl) (drop (offset sl) xs))
    else None
  | _ => None
  end.

Definition snapshotItems (h : Heap) (items : option Slice) : option (option (list NetworkSnapshot)) :=
  match items with
  | None => Some None
  | Some sl => xs ← elements h sl; ys ← mapM (snapshotNetwork h) xs; Some (Some ys)
  end.

Definition snapshotList (h : Heap) (v : VirtualNetworkList)
    : option (TypeMeta * ListMeta * option (list NetworkSnapshot)) :=
  its ← snapshotItems h (Items v); Some (listTypeMeta v, listMeta v, its).

(** ** The locations a value points to *)

Definition pointersParameters (a : VirtualNetworkParameters) : list loc :=
  match Description a with
  | Some l => [l]
  | None => []
  end.

Definition pointersNetwork (v : VirtualNetwork) : list loc :=
  pointersParameters (ForProvider (Spec v)).

Definition pointersList (h : Heap) (v : VirtualNetworkList) : list loc :=
  match Items v with
  | Some sl => array sl :: (default [] (elements h sl) ≫= pointersNetwork)
  | None => []
  end.

(** ** What a deep copy is

    [deepCopy] copies the values stored in cells of kind [cell]: nil gives
    nil and leaves the heap alone; a pointer to a value all of whose pointers
    resolve gives a pointer [q] that was not in use before, to a value with
    the same snapshot whose own pointers were not in use before either, and
    every cell that was there before is still there unchanged. *)
Definition deepCopies {V S : Type} (cell : V -> Cell) (snapshot : Heap -> V -> option S)
    (pointers : Heap -> V -> list loc) (deepCopy : option loc -> Op (option loc)) : Prop :=
  (forall h, deepCopy None h = Some (None, h)) /\
  (forall h p v,
     h !! p = Some (cell v) ->
     is_Some (snapshot h v) ->
     exists q h' v',
       deepCopy (Some p) h = Some (Some q, h') /\
       h !! q = None /\
       h ⊆ h' /\
       h' !! q = Some (cell v') /\
       snapshot h' v' = snapshot h v /\
       (forall l, l ∈ pointers h' v' -> h !! l = None)).

End VocabularyVLAN.

(** * Runs of Observe and Create, piece by piece *)

Section Outcomes.
Context `{Imported}.
Variable pkg : Packages.

(** What a run leaves outside the store: its result, the world and the
    call log; nothing when it panics. *)
Definition outcome {A} (r : option (A * Machine)) : option (A * World * list Call) :=
  match r with
  | Some (a, m) => Some (a, world m, calls m)
  | None => None
  end.

(** The switch on the observed state in Observe: the Device with the
    condition of its state set, or as it is for a state that the switch
    does not name. *)
Definition withConditionOfState (v : Device) : Device :=
  let st := State (AtProvider (Status v)) in
  if String.eqb st (StateActive pkg) then setCondition pkg Available v
  else if String.eqb st (StateProvisioning pkg) then setCondition pkg Creating v
  else if existsb (String.eqb st)
            [StateQueued pkg; StateDeprovisioning pkg; StateFailed pkg;
             StateInactive pkg; StatePoweringOff pkg; StateReinstalling pkg]
  then setCondition pkg Unavailable v
  else v.

(** The statements of Create that follow the resolution of the user data
    (from the call of CreateFromDevice on), for the Device at [d] and its
    copy at [createDev]. *)
Definition createFromCopy (e : external) (d createDev : loc) : M (ExternalCreation * error) :=
  cv ← load createDev;
  projectID ← call (ClientGetProjectID (CredentialProjectID pkg))
                   (fun w => (client_GetProjectID (client e) (CredentialProjectID pkg), w));
  let create := CreateFromDevice pkg cv projectID in
  '(device, err) ← call (ClientCreate create) (client_Create (client e) create);
  match err with
  | Some _ => mret (noCreation, errors.Wrap err errCreateDevice)
  | None =>
    match device with
    | None => panic
    | Some dev =>
      modify d (setAtProviderID (packngo_ID pkg dev));;
      modify d (setExternalName pkg (packngo_ID pkg dev));;
      err ← kubeUpdate e d;
      match err with
      | Some _ => mret (noCreation, errors.Wrap err errManagedUpdateFailed)
      | None => mret ({| creationDetails := GetConnectionDetails pkg device |}, None)
      end
    end
  end.

End Outcomes.

(** * What of a copy lies in cells of the heap *)

Section VocabularySpecs.
Import v1alpha1.
Context `{imports : Imports}.

Local Abbreviation Heap := (gmap loc Cell).

(** The Spec of a snapshot. *)
Definition specOf (x : NetworkSnapshot) : ResourceSpec * (ParametersRest * option string) :=
  x.1.2.

(** The Specs of the Items of a list, every Description replaced by the
    string it points to: what of a list lies in the cells that the deep
    copies of this package allocate themselves. *)
Definition snapshotSpecs (h : Heap) (v : VirtualNetworkList)
    : option (option (list (ResourceSpec * (ParametersRest * option string)))) :=
  match Items v with
  | None => Some None
  | Some sl =>
    xs ← elements h sl;
    ys ← mapM (fun x => snapshotSpec h (Spec x)) xs;
    Some (Some ys)
  end.

End VocabularySpecs.

(** * Properties of the Device controller *)

Section DeviceFacts.
Context `{Imported}.
Variable pkg : Packages.

(** ** Running the store operations *)

Lemma run_bind {A B} (m : M A) (f : A -> M B) (s : Machine) :
  (m ≫= f) s = match m s with Some (a, s') => f a s' | None => None end.
Proof. reflexivity. Qed.

Lemma run_ret {A} (a : A) (s : Machine) : (mret a : M A) s = Some (a, s).
Proof. reflexivity. Qed.

Lemma run_load d v (s : Machine) :
  objects s !! d = Some v -> load d s = Some (v, s).
Proof. intros Hd. unfold load. now rewrite Hd. Qed.

Lemma run_modify d v f (s : Machine) :
  objects s !! d = Some v ->
  modify d f s =
  Some (tt, {| world := world s; objects := <[d := f v]> (objects s); calls := calls s |}).
Proof. intros Hd. unfold modify. rewrite run_bind, (run_load d v) by done. reflexivity. Qed.

Lemma run_GetExternalName d v (s : Machine) :
  objects s !! d = Some v ->
  GetExternalName pkg d s = Some (meta_GetExternalName pkg (objectMeta v), s).
Proof. intros Hd. unfold GetExternalName. rewrite run_bind, (run_load d v) by done. reflexivity. Qed.

Lemma run_call {A} (c : Call) (f : World -> A * World) (s : Machine) a w :
  f (world s) = (a, w) ->
  call c f s = Some (a, {| world := w; objects := objects s; calls := calls s ++ [c] |}).
Proof. intros Hf. unfold call. now rewrite Hf. Qed.

(** Inverting a run that is known to have returned. *)
Ltac run_in H :=
  unfold kubeUpdate, modify, GetExternalName, Device_DeepCopy, DeviceParameters_DeepCopy,
    load, store, alloc, call, lift, panic in H;
  unfold mbind, M_bind, mret, M_ret in H;
  unfold resource_Ignore, errors.New, errors.Errorf, errors.Wrap in H;
  cbn [world objects calls] in H.

(** Case analysis on the innermost scrutinee that blocks a run. *)
Ltac inner_case :=
  match goal with
  | H : context [match ?x with _ => _ end] |- _ =>
    lazymatch x with
    | context [match _ with _ => _ end] => fail
    | _ => destruct x eqn:?
    end
  end.

Ltac run_cases H :=
  run_in H;
  repeat (first
    [ progress simplify_eq
    | progress (cbn [world objects calls] in * )
    | rewrite lookup_insert_eq in *
    | inner_case ]).

(** ** Delete *)

(** C8. Delete returns nil when the client's Delete succeeds or fails with
    an error that IsNotFound accepts; any other error comes back wrapped
    with "cannot delete Device".  In each case the Deleting condition has
    been set and exactly one Delete call was made. *)
Theorem Delete_ignores_not_found (e : external) (d : loc) (s : Machine) (v : Device)
    (err : error) (w' : World) :
  objects s !! d = Some v ->
  client_Delete (client e) (meta_GetExternalName pkg (objectMeta v)) false (world s) = (err, w') ->
  let s' := {| world := w';
               objects := <[d := setCondition pkg Deleting v]> (objects s);
               calls := calls s ++ [ClientDelete (meta_GetExternalName pkg (objectMeta v)) false] |} in
  (err = None \/ IsNotFound pkg err = true ->
     Delete pkg e (IsDevice d) s = Some (None, s')) /\
  (forall cause, err = Some cause -> IsNotFound pkg err = false ->
     Delete pkg e (IsDevice d) s = Some (Some (errors.Wrapped cause errDeleteDevice), s')).
Proof.
  intros Hd Hdel s'.
  assert (Hrun : Delete pkg e (IsDevice d) s =
                 Some (errors.Wrap (resource_Ignore (IsNotFound pkg) err) errDeleteDevice, s')).
  { unfold Delete.
    rewrite run_bind, (run_modify d v) by done.
    rewrite run_bind, (run_GetExternalName d (setCondition pkg Deleting v))
      by (simpl; apply lookup_insert_eq).
    simpl objectMeta.
    rewrite run_bind. erewrite run_call by (simpl; exact Hdel).
    reflexivity. }
  rewrite Hrun. unfold resource_Ignore. split.
  - intros [-> | ->]; [destruct (IsNotFound pkg None) |]; reflexivity.
  - intros cause -> ->. reflexivity.
Qed.

(** ** Update *)

(** C3, as the code has it.  With the device fetched: when the network
    type is out of date and the Device names one, the only further call is
    DeviceToNetworkType; in every other case it is the client's Update with
    the request that NewUpdateDeviceRequest builds from the Device.  Either
    call's error comes back wrapped with "cannot modify Device".  When Get
    fails, Update returns that error wrapped with "cannot get Device" and
    makes no further call. *)
Theorem Update_dispatch (e : external) (d : loc) (s : Machine) (v : Device)
    (device : DevicePtr) (err : error) (w1 : World) :
  objects s !! d = Some v ->
  let name := meta_GetExternalName pkg (objectMeta v) in
  client_Get (client e) name (world s) = ((device, err), w1) ->
  (err = None ->
     (forall nt r' err' w2,
        snd (IsUpToDate pkg v device) = false ->
        NetworkType (ForProvider (Spec v)) = Some nt ->
        client_DeviceToNetworkType (client e) name nt w1 = ((r', err'), w2) ->
        Update pkg e (IsDevice d) s =
          Some ((noUpdate, errors.Wrap err' errUpdateDevice),
                {| world := w2; objects := objects s;
                   calls := calls s ++ [ClientGet name; ClientDeviceToNetworkType name nt] |})) /\
     (forall r' err' w2,
        snd (IsUpToDate pkg v device) = true \/ NetworkType (ForProvider (Spec v)) = None ->
        client_Update (client e) name (NewUpdateDeviceRequest pkg v) w1 = ((r', err'), w2) ->
        Update pkg e (IsDevice d) s =
          Some ((noUpdate, errors.Wrap err' errUpdateDevice),
                {| world := w2; objects := objects s;
                   calls := calls s ++ [ClientGet name;
                                        ClientUpdate name (NewUpdateDeviceRequest pkg v)] |}))) /\
  (err <> None ->
     Update pkg e (IsDevice d) s =
       Some ((noUpdate, errors.Wrap err errGetDevice),
             {| world := w1; objects := objects s; calls := calls s ++ [ClientGet name] |})).
Proof.
  intros Hd name Hget.
  set (s1 := {| world := w1; objects := objects s; calls := calls s ++ [ClientGet name] |}).
  assert (Hd1 : objects s1 !! d = Some v) by exact Hd.
  unfold Update.
  rewrite run_bind, (run_GetExternalName d v s Hd). fold name.
  rewrite run_bind, (run_call _ _ s _ _ Hget). fold s1.
  split.
  - intros ->. cbv beta iota.
    destruct (IsUpToDate pkg v device) as [u n] eqn:Hup. simpl snd. split.
    + intros nt r' err' w2 -> Hnt Hnw.
      rewrite run_bind, (run_load d v s1 Hd1). rewrite Hup, Hnt. cbv beta iota delta [negb].
      rewrite run_bind, (run_GetExternalName d v s1 Hd1). fold name.
      rewrite run_bind, (run_call _ _ s1 _ _ Hnw).
      cbv beta iota. rewrite run_ret. unfold s1. cbn [calls objects world].
        now rewrite <- app_assoc.
    + intros r' err' w2 Hcase Hup'.
      assert (Hrest : (name0 ← GetExternalName pkg d;
                       v1 ← load d;
                       '(_, err) ← call (ClientUpdate name0 (NewUpdateDeviceRequest pkg v1))
                                        (client_Update (client e) name0 (NewUpdateDeviceRequest pkg v1));
                       mret (noUpdate, errors.Wrap err errUpdateDevice)) s1 =
                      Some ((noUpdate, errors.Wrap err' errUpdateDevice),
                            {| world := w2; objects := objects s;
                               calls := calls s ++ [ClientGet name;
                                                    ClientUpdate name (NewUpdateDeviceRequest pkg v)] |})).
      { rewrite run_bind, (run_GetExternalName d v s1 Hd1). fold name.
        rewrite run_bind, (run_load d v s1 Hd1).
        rewrite run_bind, (run_call _ _ s1 _ _ Hup').
        cbv beta iota. rewrite run_ret. unfold s1. cbn [calls objects world].
        now rewrite <- app_assoc. }
      rewrite run_bind, (run_load d v s1 Hd1). rewrite Hup.
      destruct Hcase as [-> | ->]; cbv beta iota delta [negb]; [| destruct n]; exact Hrest.
  - intros Herr. destruct err as [cause |]; [| done]. reflexivity.
Qed.

(** ** Observe *)

Lemma existsb_eqb_In (st : string) (l : list string) :
  existsb (String.eqb st) l = true <-> In st l.
Proof.
  rewrite existsb_exists. split.
  - intros (x & Hin & Heq). apply String.eqb_eq in Heq. now subst.
  - intros Hin. exists st. split; [exact Hin | apply String.eqb_refl].
Qed.

(** Observe on a Device that the provider returns, by the answers of the
    API client's Update (asked only when late initialization changed the
    parameters) and of GenerateObservation. *)
Lemma run_Observe_fetched (e : external) (d : loc) (s : Machine) (v0 : Device)
    (device : DevicePtr) (w1 : World) (x' : Device) (uerr0 : error) (w2' : World)
    (obs : DeviceObservation) (gerr : error) :
  objects s !! d = Some v0 ->
  let name := meta_GetExternalName pkg (objectMeta v0) in
  client_Get (client e) name (world s) = ((device, None), w1) ->
  IsNotFound pkg None = false ->
  let initialized := setForProvider (LateInitialize pkg (ForProvider (Spec v0)) device) v0 in
  let changed := negb (bool_decide (ForProvider (Spec v0) = ForProvider (Spec initialized))) in
  kube_Update (kube e) initialized w1 = ((x', uerr0), w2') ->
  GenerateObservation pkg device = (obs, gerr) ->
  let written := if changed then x' else initialized in
  let reached (v : Device) :=
    {| world := if changed then w2' else w1;
       objects := <[d := v]> (objects s);
       calls := calls s ++ ClientGet name :: (if changed then [KubeUpdate initialized] else []) |} in
  Observe pkg e (IsDevice d) s =
    match (if changed then uerr0 else None), gerr with
    | Some cause, _ =>
      Some ((noObservation, Some (errors.Wrapped cause errManagedUpdateFailed)), reached written)
    | None, Some cause =>
      Some ((noObservation, Some (errors.Wrapped cause errGenObservation)),
            reached (setAtProvider obs written))
    | None, None =>
      let final := withConditionOfState pkg (setAtProvider obs written) in
      Some (({| ResourceExists := true;
                ResourceUpToDate := (IsUpToDate pkg final device).1 && (IsUpToDate pkg final device).2;
                observationDetails := GetConnectionDetails pkg device |}, None),
            reached final)
    end.
Proof.
  intros Hd name Hget Hnf initialized changed Hupd Hgen written reached.
  set (s1 := {| world := w1; objects := objects s; calls := calls s ++ [ClientGet name] |}).
  assert (Hd1 : objects s1 !! d = Some v0) by exact Hd.
  set (s2 := {| world := w1; objects := <[d := initialized]> (objects s);
                calls := calls s ++ [ClientGet name] |}).
  assert (Hd2 : objects s2 !! d = Some initialized) by apply lookup_insert_eq.
  (* the run from the generation of the observation on *)
  assert (Htail : forall (s3 : Machine) (v3 : Device),
            objects s3 !! d = Some v3 ->
            (let '(o, err) := GenerateObservation pkg device in
             modify d (setAtProvider o);;
             match err with
             | Some _ => mret (noObservation, errors.Wrap err errGenObservation)
             | None =>
               v ← load d;
               let st := State (AtProvider (Status v)) in
               (if String.eqb st (StateActive pkg) then
                  modify d (setCondition pkg Available)
                else if String.eqb st (StateProvisioning pkg) then
                  modify d (setCondition pkg Creating)
                else if existsb (String.eqb st)
                          [StateQueued pkg; StateDeprovisioning pkg; StateFailed pkg;
                           StateInactive pkg; StatePoweringOff pkg; StateReinstalling pkg] then
                  modify d (setCondition pkg Unavailable)
                else mret tt);;
               v ← load d;
               let '(upToDate, networkTypeUpToDate) := IsUpToDate pkg v device in
               mret ({| ResourceExists := true;
                        ResourceUpToDate := upToDate && networkTypeUpToDate;
                        observationDetails := GetConnectionDetails pkg device |}, None)
             end) s3 =
            let at_ (v : Device) :=
              {| world := world s3; objects := <[d := v]> (objects s3); calls := calls s3 |} in
            match gerr with
            | Some cause =>
              Some ((noObservation, Some (errors.Wrapped cause errGenObservation)),
                    at_ (setAtProvider obs v3))
            | None =>
              let final := withConditionOfState pkg (setAtProvider obs v3) in
              Some (({| ResourceExists := true;
                        ResourceUpToDate :=
                          (IsUpToDate pkg final device).1 && (IsUpToDate pkg final device).2;
                        observationDetails := GetConnectionDetails pkg device |}, None),
                    at_ final)
            end).
  { intros s3 v3 Hd3. rewrite Hgen. cbv zeta.
    rewrite run_bind, (run_modify d v3 _ s3 Hd3).
    destruct gerr as [cause |]; [reflexivity |].
    rewrite run_bind. erewrite run_load by (cbn [objects]; apply lookup_insert_eq).
    cbv zeta. unfold withConditionOfState.
    set (observed := setAtProvider obs v3).
    assert (Hkeep : forall (c : Condition),
              (modify d (setCondition pkg c);;
               v ← load d;
               let '(upToDate, networkTypeUpToDate) := IsUpToDate pkg v device in
               mret ({| ResourceExists := true;
                        ResourceUpToDate := upToDate && networkTypeUpToDate;
                        observationDetails := GetConnectionDetails pkg device |}, (None : error)))
                {| world := world s3; objects := <[d := observed]> (objects s3); calls := calls s3 |} =
              Some (({| ResourceExists := true;
                        ResourceUpToDate :=
                          (IsUpToDate pkg (setCondition pkg c observed) device).1 &&
                          (IsUpToDate pkg (setCondition pkg c observed) device).2;
                        observationDetails := GetConnectionDetails pkg device |}, None),
                    {| world := world s3;
                       objects := <[d := setCondition pkg c observed]> (objects s3);
                       calls := calls s3 |})).
    { intros c. rewrite run_bind.
      erewrite run_modify by (cbn [objects]; apply lookup_insert_eq).
      cbn [world objects calls]. rewrite run_bind.
      erewrite run_load by (cbn [objects]; apply lookup_insert_eq).
      rewrite insert_insert_eq.
      destruct (IsUpToDate pkg (setCondition pkg c observed) device); reflexivity. }
    destruct (String.eqb (State (AtProvider (Status observed))) (StateActive pkg));
      [apply Hkeep |].
    destruct (String.eqb (State (AtProvider (Status observed))) (StateProvisioning pkg));
      [apply Hkeep |].
    destruct (existsb _ _); [apply Hkeep |].
    rewrite run_bind, run_ret, run_bind.
    erewrite run_load by (cbn [objects]; apply lookup_insert_eq).
    destruct (IsUpToDate pkg observed device); reflexivity. }
  unfold Observe.
  rewrite run_bind, (run_GetExternalName d v0 s Hd). fold name.
  rewrite run_bind, (run_call _ _ s _ _ Hget). fold s1.
  cbv beta iota. rewrite Hnf.
  rewrite run_bind, (run_load d v0 s1 Hd1).
  rewrite run_bind, (run_modify d v0 _ s1 Hd1). fold initialized.
  change {| world := world s1; objects := <[d := initialized]> (objects s1); calls := calls s1 |}
    with s2.
  rewrite run_bind, (run_load d initialized s2 Hd2).
  unfold DeviceParameters_DeepCopy. fold changed. rewrite run_bind.
  unfold reached, written. destruct changed.
  - unfold kubeUpdate at 1.
    rewrite run_bind, (run_load d initialized s2 Hd2). cbv beta iota.
    rewrite run_bind, (run_call _ _ s2 _ _ Hupd). cbv beta iota.
    rewrite run_bind. unfold store at 1. cbv beta iota. rewrite run_ret.
    cbn [world objects calls].
    destruct uerr0 as [cause |].
    + unfold s2. cbn [objects calls]. rewrite insert_insert_eq, <- app_assoc. reflexivity.
    + etransitivity; [apply (Htail _ x'); cbn [objects]; apply lookup_insert_eq |].
      cbn [world objects calls]. unfold s2. cbn [objects calls].
      rewrite !insert_insert_eq, <- app_assoc. reflexivity.
  - rewrite run_ret. etransitivity; [exact (Htail s2 initialized Hd2) |].
    cbn [world objects calls]. unfold s2. cbn [objects calls world].
    rewrite !insert_insert_eq. reflexivity.
Qed.

(** C1, as the code has it.  Take a Device that the provider's Get
    returns.  Observe writes the late-initialized parameters back when
    late initialization changed them, and generates the observation.  When
    both succeed, Observe returns no error, Status.AtProvider is the
    generated observation, and the conditions of the Device are those it
    held then with the condition of the observed state set by SetConditions:
    Available for StateActive, Creating for StateProvisioning, Unavailable
    for each of the six other named states; for a state that is not named
    they are left as they were.  When the write or the generation fails,
    Observe returns that error, wrapped, and the conditions are left as they
    were: no condition is set, whatever the state of the device.  The state
    names are pairwise distinct, as the Go compiler demands of the cases of
    one switch. *)
Theorem Observe_sets_condition_of_state (e : external) (d : loc) (s : Machine) (v0 : Device)
    (device : DevicePtr) (w1 : World) (x' : Device) (uerr0 : error) (w2' : World)
    (obs : DeviceObservation) (gerr : error) :
  NoDup (StateActive pkg :: StateProvisioning pkg :: unavailableStates pkg) ->
  objects s !! d = Some v0 ->
  client_Get (client e) (meta_GetExternalName pkg (objectMeta v0)) (world s) =
    ((device, None), w1) ->
  IsNotFound pkg None = false ->
  let initialized := setForProvider (LateInitialize pkg (ForProvider (Spec v0)) device) v0 in
  let changed := negb (bool_decide (ForProvider (Spec v0) = ForProvider (Spec initialized))) in
  kube_Update (kube e) initialized w1 = ((x', uerr0), w2') ->
  GenerateObservation pkg device = (obs, gerr) ->
  let written := if changed then x' else initialized in
  let failure :=
    match (if changed then uerr0 else None), gerr with
    | Some cause, _ => Some (errors.Wrapped cause errManagedUpdateFailed)
    | None, Some cause => Some (errors.Wrapped cause errGenObservation)
    | None, None => None
    end in
  exists o s' v',
    Observe pkg e (IsDevice d) s = Some ((o, failure), s') /\
    objects s' !! d = Some v' /\
    let before := statusResourceStatus (Status written) in
    let after := statusResourceStatus (Status v') in
    match failure with
    | Some _ => after = before
    | None =>
      AtProvider (Status v') = obs /\
      (State obs = StateActive pkg -> after = SetConditions pkg before Available) /\
      (State obs = StateProvisioning pkg -> after = SetConditions pkg before Creating) /\
      (In (State obs) (unavailableStates pkg) -> after = SetConditions pkg before Unavailable) /\
      (~ In (State obs) (StateActive pkg :: StateProvisioning pkg :: unavailableStates pkg) ->
       after = before)
    end.
Proof.
  intros Hnodup Hd Hget Hnf initialized changed Hupd Hgen written failure.
  apply NoDup_cons in Hnodup as [Hactive Hnodup].
  apply NoDup_cons in Hnodup as [Hprov _].
  rewrite list_elem_of_In in Hactive, Hprov.
  assert (Hap : StateActive pkg <> StateProvisioning pkg).
  { intros Heq. apply Hactive. left. now symmetry. }
  assert (Hau : ~ In (StateActive pkg) (unavailableStates pkg)).
  { intros Hin. apply Hactive. now right. }
  pose proof (run_Observe_fetched e d s v0 device w1 x' uerr0 w2' obs gerr
                Hd Hget Hnf Hupd Hgen) as Hrun.
  cbv zeta in Hrun. fold initialized changed written in Hrun.
  unfold failure.
  destruct (if changed then uerr0 else None) as [cause |].
  { eexists _, _, _. split; [exact Hrun |].
    split; [apply lookup_insert_eq | reflexivity]. }
  destruct gerr as [cause |].
  { eexists _, _, _. split; [exact Hrun |].
    split; [apply lookup_insert_eq | reflexivity]. }
  eexists _, _, _. split; [exact Hrun |]. split; [apply lookup_insert_eq |].
  cbv zeta. unfold withConditionOfState.
  cbn [AtProvider Status setAtProvider State].
  fold (unavailableStates pkg).
  destruct (String.eqb (State obs) (StateActive pkg)) eqn:Ha;
    [| destruct (String.eqb (State obs) (StateProvisioning pkg)) eqn:Hp;
       [| destruct (existsb (String.eqb (State obs)) (unavailableStates pkg)) eqn:Hu]];
    repeat match goal with
           | Heq : String.eqb _ _ = true |- _ => apply String.eqb_eq in Heq
           | Heq : String.eqb _ _ = false |- _ => apply String.eqb_neq in Heq
           | Heq : existsb (String.eqb _) _ = true |- _ => apply existsb_eqb_In in Heq
           | Heq : existsb (String.eqb _) _ = false |- _ =>
             apply not_true_iff_false in Heq; rewrite existsb_eqb_In in Heq
           end;
    (split; [reflexivity |]);
    (repeat split; intros Hst; try reflexivity; exfalso;
     try match goal with
         | Heq : State _ = _ |- _ => rewrite Heq in *
         end;
     first [ congruence
           | contradiction
           | solve [apply Hst; cbn [In]; auto] ]).
Qed.

(** C2, as the code has it.  When Get reports not-found, Observe returns
    ResourceExists false and a nil error.  When Get succeeds, Observe
    writes the late-initialized parameters back when late initialization
    changed them, and generates the observation.  A failure of the write
    comes back wrapped with "cannot update Device custom resource", a
    failure of the generation wrapped with "cannot generate observation",
    each with the empty observation.  When neither fails, Observe returns a
    nil error with ResourceExists true, ResourceUpToDate the conjunction of
    the two flags that IsUpToDate computes for the Device as Observe leaves
    it, and the connection details of the device. *)
Theorem Observe_reports_existence (e : external) (d : loc) (s : Machine) (v : Device)
    (device : DevicePtr) (err : error) (w1 : World) (x' : Device) (uerr0 : error) (w2' : World)
    (obs : DeviceObservation) (gerr : error) :
  objects s !! d = Some v ->
  client_Get (client e) (meta_GetExternalName pkg (objectMeta v)) (world s) = ((device, err), w1) ->
  let initialized := setForProvider (LateInitialize pkg (ForProvider (Spec v)) device) v in
  let changed := negb (bool_decide (ForProvider (Spec v) = ForProvider (Spec initialized))) in
  kube_Update (kube e) initialized w1 = ((x', uerr0), w2') ->
  GenerateObservation pkg device = (obs, gerr) ->
  (IsNotFound pkg err = true ->
     Observe pkg e (IsDevice d) s =
       Some (({| ResourceExists := false; ResourceUpToDate := false; observationDetails := None |},
              None),
             {| world := w1; objects := objects s;
                calls := calls s ++ [ClientGet (meta_GetExternalName pkg (objectMeta v))] |})) /\
  (IsNotFound pkg err = false -> err = None ->
     exists s' v',
       objects s' !! d = Some v' /\
       Observe pkg e (IsDevice d) s =
         Some (match (if changed then uerr0 else None), gerr with
               | Some cause, _ =>
                 (noObservation, Some (errors.Wrapped cause errManagedUpdateFailed))
               | None, Some cause =>
                 (noObservation, Some (errors.Wrapped cause errGenObservation))
               | None, None =>
                 ({| ResourceExists := true;
                     ResourceUpToDate :=
                       (IsUpToDate pkg v' device).1 && (IsUpToDate pkg v' device).2;
                     observationDetails := GetConnectionDetails pkg device |}, None)
               end, s')).
Proof.
  intros Hd Hget initialized changed Hupd Hgen. split.
  - intros Hnf. unfold Observe.
    rewrite run_bind, (run_GetExternalName d v s Hd).
    rewrite run_bind, (run_call _ _ s _ _ Hget).
    cbv beta iota. rewrite Hnf. reflexivity.
  - intros Hnf ->.
    pose proof (run_Observe_fetched e d s v device w1 x' uerr0 w2' obs gerr
                  Hd Hget Hnf Hupd Hgen) as Hrun.
    cbv zeta in Hrun. fold initialized changed in Hrun.
    destruct (if changed then uerr0 else None) as [cause |];
      [| destruct gerr as [cause |]];
      eexists _, _; (split; [| exact Hrun]); apply lookup_insert_eq.
Qed.

(** ** Create *)

(** The location of the deep copy that Create makes of [v1] held at [d]. *)
Lemma copy_is_new (d : loc) (v1 : Device) (m : gmap loc Device) :
  fresh (dom (<[d := v1]> m)) <> d.
Proof.
  intros Heq. apply (is_fresh (dom (<[d := v1]> m))).
  rewrite Heq, dom_insert. set_solver.
Qed.

(** The first two statements of Create: the Creating condition is set on
    the Device and a copy of it is stored at a new location. *)
Lemma copy_in_store (d : loc) (v : Device) (s : Machine) :
  objects s !! d = Some v ->
  let v1 := setCondition pkg Creating v in
  let l := fresh (dom (<[d := v1]> (objects s))) in
  let s1 := {| world := world s; objects := <[l := v1]> (<[d := v1]> (objects s)); calls := calls s |} in
  objects s1 !! d = Some v1 /\ objects s1 !! l = Some v1 /\ l <> d.
Proof.
  intros Hd v1 l s1.
  assert (Hne : l <> d) by apply copy_is_new.
  repeat split; [| | exact Hne].
  - simpl. rewrite lookup_insert_ne by done. apply lookup_insert_eq.
  - simpl. apply lookup_insert_eq.
Qed.

Lemma run_prologue {A} (d : loc) (v : Device) (s : Machine) (k : loc -> M A) :
  objects s !! d = Some v ->
  (modify d (setCondition pkg Creating);; createDev ← Device_DeepCopy d; k createDev) s =
  k (fresh (dom (<[d := setCondition pkg Creating v]> (objects s))))
    {| world := world s;
       objects := <[fresh (dom (<[d := setCondition pkg Creating v]> (objects s))) :=
                      setCondition pkg Creating v]>
                    (<[d := setCondition pkg Creating v]> (objects s));
       calls := calls s |}.
Proof.
  intros Hd.
  rewrite run_bind, (run_modify d v _ s Hd).
  rewrite run_bind. unfold Device_DeepCopy.
  rewrite run_bind. erewrite run_load by (simpl; apply lookup_insert_eq).
  reflexivity.
Qed.

(** C4. A UserDataRef whose Kind is neither ConfigMap nor Secret makes
    resolveUserDataRefs return the error "invalid resource kind", whatever
    Optional says, and Create hands that error back before it makes any
    call. *)
Theorem Create_rejects_unknown_kind (e : external) (d : loc) (s : Machine) (v : Device)
    (ref : UserDataReference) :
  objects s !! d = Some v ->
  UserDataRef (ForProvider (Spec v)) = Some ref ->
  Kind ref <> "ConfigMap" ->
  Kind ref <> "Secret" ->
  let err := Some (errors.Wrapped (errors.Fresh errGetUserDataRef) errInvalidRefKind) in
  resolveUserDataRefs pkg e d s = Some (("", err), s) /\
  exists s', Create pkg e (IsDevice d) s = Some ((noCreation, err), s') /\
    calls s' = calls s /\ world s' = world s.
Proof.
  intros Hd Href Hcm Hsec err.
  assert (Hres : forall s0 v0, objects s0 !! d = Some v0 ->
            UserDataRef (ForProvider (Spec v0)) = Some ref ->
            resolveUserDataRefs pkg e d s0 = Some (("", err), s0)).
  { intros s0 v0 Hd0 Href0. unfold resolveUserDataRefs.
    rewrite run_bind, (run_load d v0 s0 Hd0), Href0.
    apply String.eqb_neq in Hcm, Hsec. rewrite Hcm, Hsec. reflexivity. }
  split; [now apply (Hres s v) |].
  destruct (copy_in_store d v s Hd) as (Hd1 & Hl & Hne).
  set (v1 := setCondition pkg Creating v) in *.
  set (l := fresh (dom (<[d := v1]> (objects s)))) in *.
  set (s1 := {| world := world s; objects := <[l := v1]> (<[d := v1]> (objects s));
                calls := calls s |}) in *.
  exists s1. split; [| split; reflexivity].
  unfold Create. rewrite (run_prologue d v s _ Hd). fold v1 l s1. cbv zeta.
  rewrite run_bind, (run_load d v1 s1 Hd1).
  replace (UserDataRef (ForProvider (Spec v1))) with (Some ref) by (symmetry; exact Href).
  rewrite run_bind, (Hres s1 v1 Hd1 Href). reflexivity.
Qed.

(** resolveUserDataRefs reads the Device and asks the API server at most
    once: it leaves the store alone and logs nothing but that read. *)
Lemma resolveUserDataRefs_frame (e : external) (d : loc) (s : Machine) r s' :
  resolveUserDataRefs pkg e d s = Some (r, s') ->
  objects s' = objects s /\
  exists delta, calls s' = calls s ++ delta /\
    forall c, In c delta -> exists kind nsn, c = KubeGet kind nsn.
Proof.
  intros Hrun. unfold resolveUserDataRefs in Hrun.
  run_cases Hrun; (split; [reflexivity |]);
    first [ exists []; split; [now rewrite app_nil_r | intros c []]
          | eexists [_]; split; [reflexivity |];
            intros c [<- | []]; eauto ].
Qed.

(** C10. When resolveUserDataRefs fails, Create returns that very error.
    All it has logged by then is the read of the referenced resource: the
    client's Create is not called, and the Device has the Creating condition
    and nothing else changed, so neither its external name nor
    Status.AtProvider.ID is set. *)
Theorem Create_stops_when_resolve_fails (e : external) (d : loc) (s : Machine) (v : Device)
    (ref : UserDataReference) (u : string) (err : errors.Err ForeignError) (s2 : Machine) :
  objects s !! d = Some v ->
  UserDataRef (ForProvider (Spec v)) = Some ref ->
  (modify d (setCondition pkg Creating);; _ ← Device_DeepCopy d;
   resolveUserDataRefs pkg e d) s = Some ((u, Some err), s2) ->
  Create pkg e (IsDevice d) s = Some ((noCreation, Some err), s2) /\
  (exists delta, calls s2 = calls s ++ delta /\
     (forall c, In c delta -> exists kind nsn, c = KubeGet kind nsn) /\
     (forall req, ~ In (ClientCreate req) delta)) /\
  (exists v', objects s2 !! d = Some v' /\ v' = setCondition pkg Creating v /\
     objectMeta v' = objectMeta v /\ AtProvider (Status v') = AtProvider (Status v)).
Proof.
  intros Hd Href Hrun.
  destruct (copy_in_store d v s Hd) as (Hd1 & Hl & Hne).
  rewrite (run_prologue d v s _ Hd) in Hrun.
  set (v1 := setCondition pkg Creating v) in *.
  set (l := fresh (dom (<[d := v1]> (objects s)))) in *.
  set (s1 := {| world := world s; objects := <[l := v1]> (<[d := v1]> (objects s));
                calls := calls s |}) in *.
  destruct (resolveUserDataRefs_frame e d s1 _ s2 Hrun) as (Hobj & delta & Hcalls & Hdelta).
  split; [| split].
  - unfold Create. rewrite (run_prologue d v s _ Hd). fold v1 l s1. cbv zeta.
    rewrite run_bind, (run_load d v1 s1 Hd1).
    replace (UserDataRef (ForProvider (Spec v1))) with (Some ref) by (symmetry; exact Href).
    rewrite run_bind, Hrun. reflexivity.
  - exists delta. split; [exact Hcalls | split; [exact Hdelta |]].
    intros req Hin. destruct (Hdelta _ Hin) as (kind & nsn & Heq). discriminate Heq.
  - exists v1. rewrite Hobj. repeat split. exact Hd1.
Qed.

(** ** Every error that comes back *)

Lemma Delete_errors (e : external) mg s err s' :
  Delete pkg e mg s = Some (Some err, s') -> returnedBy pkg e err.
Proof.
  intros Hrun. unfold Delete in Hrun. destruct mg as [d | o].
  - run_cases Hrun. eapply deleteFailed; eauto.
  - run_cases Hrun. apply notDevice.
Qed.

Lemma Update_errors (e : external) mg s r err s' :
  Update pkg e mg s = Some ((r, Some err), s') -> returnedBy pkg e err.
Proof.
  intros Hrun. unfold Update in Hrun. destruct mg as [d | o].
  - run_cases Hrun;
      first [ eapply getFailed; eassumption
            | eapply networkTypeFailed; eassumption
            | eapply updateFailed; eassumption ].
  - run_cases Hrun. apply notDevice.
Qed.

Lemma Observe_errors (e : external) mg s r err s' :
  Observe pkg e mg s = Some ((r, Some err), s') -> returnedBy pkg e err.
Proof.
  intros Hrun. unfold Observe in Hrun. destruct mg as [d | o].
  - run_cases Hrun;
      first [ eapply getFailed; eassumption
            | eapply kubeUpdateFailed; eassumption
            | eapply observationFailed; eassumption ].
  - run_cases Hrun. apply notDevice.
Qed.

Lemma resolveUserDataRefs_errors (e : external) d s u err s' :
  resolveUserDataRefs pkg e d s = Some ((u, Some err), s') -> returnedBy pkg e err.
Proof.
  intros Hrun. unfold resolveUserDataRefs in Hrun.
  run_cases Hrun;
    first [ eapply configMapFailed; eassumption
          | eapply secretFailed; eassumption
          | apply invalidKind
          | apply keyNotFound ].
Qed.

Lemma Create_errors (e : external) mg s r err s' :
  Create pkg e mg s = Some ((r, Some err), s') -> returnedBy pkg e err.
Proof.
  intros Hrun. unfold Create in Hrun. destruct mg as [d | o].
  - run_in Hrun.
    repeat (first
      [ progress simplify_eq
      | progress (cbn [world objects calls] in * )
      | match goal with
        | H : resolveUserDataRefs _ _ _ _ = Some ((_, Some _), _) |- _ =>
          apply resolveUserDataRefs_errors in H
        | H : context [match resolveUserDataRefs ?p ?x ?l ?m with _ => _ end] |- _ =>
          destruct (resolveUserDataRefs p x l m) as [[[? [?|]] ?]|] eqn:?
        end
      | inner_case ]);
      first [ assumption
            | eapply createFailed; eassumption
            | eapply kubeUpdateFailed; eassumption ].
  - run_cases Hrun. apply notDevice.
Qed.

Lemma Connect_errors (c : connecter) mg s r err s' :
  Connect pkg c mg s = Some ((r, Some err), s') -> returnedByConnect pkg c err.
Proof.
  intros Hrun. unfold Connect in Hrun. destruct mg as [d | o].
  - run_cases Hrun;
      first [ eapply trackFailed; eassumption
            | eapply authInfoFailed; eassumption
            | eapply newClientFailed; [eassumption | auto] ].
  - run_cases Hrun. apply connectNotDevice.
Qed.

(** C6, as the code has it.  Every non-nil error that Connect, Observe,
    Create, Update or Delete returns is one of: the fixed error "managed
    resource is not a Device"; the error of the call that failed, wrapped
    with the package constant that belongs to that call; or, out of
    resolveUserDataRefs through Create, the error of the failed read wrapped
    with "cannot get required resource for UserDataRef", or a new error
    with that text wrapped with "invalid resource kind" or with the message
    formatted from the missing key. *)
Theorem returned_errors_inventory :
  (forall c mg s r err s',
     Connect pkg c mg s = Some ((r, Some err), s') -> returnedByConnect pkg c err) /\
  (forall e mg s r err s',
     Observe pkg e mg s = Some ((r, Some err), s') -> returnedBy pkg e err) /\
  (forall e mg s r err s',
     Create pkg e mg s = Some ((r, Some err), s') -> returnedBy pkg e err) /\
  (forall e mg s r err s',
     Update pkg e mg s = Some ((r, Some err), s') -> returnedBy pkg e err) /\
  (forall e mg s err s',
     Delete pkg e mg s = Some (Some err, s') -> returnedBy pkg e err) /\
  (forall c err, returnedByConnect pkg c err ->
     err = errors.Fresh errNotDevice \/ staticallyWrapped err) /\
  (forall e err, returnedBy pkg e err ->
     err = errors.Fresh errNotDevice \/ staticallyWrapped err \/
     (exists cause, err = errors.Wrapped cause errGetUserDataRef) \/
     err = errors.Wrapped (errors.Fresh errGetUserDataRef) errInvalidRefKind \/
     (exists key, err = errors.Wrapped (errors.Formatted errGetUserDataRef)
                          (errRefKeyNotFound pkg key))).
Proof.
  assert (Hstatic : forall (cause : errors.Err ForeignError) msg,
            In msg packageConstants -> staticallyWrapped (errors.Wrapped cause msg)).
  { intros cause msg Hin. exists cause, msg. split; [reflexivity | exact Hin]. }
  repeat split.
  - intros c mg s r err s'. apply Connect_errors.
  - intros e mg s r err s'. apply Observe_errors.
  - intros e mg s r err s'. apply Create_errors.
  - intros e mg s r err s'. apply Update_errors.
  - intros e mg s err s'. apply Delete_errors.
  - intros c err Hret.
    destruct Hret; [left; reflexivity | right; apply Hstatic; cbn; tauto ..].
  - intros e err Hret.
    destruct Hret;
      first [ left; reflexivity
            | right; left; apply Hstatic; cbn; tauto
            | right; right; left; eexists; reflexivity
            | right; right; right; left; reflexivity
            | right; right; right; right; eexists; reflexivity ].
Qed.

(** * Further properties of the Device controller *)

(** ** Connect *)

(** X1. Connect on a Device goes through three stages in this order: it
    tracks the usage of the provider configuration, reads the credentials,
    and builds the client.  A failed stage ends it: the error comes back
    wrapped with the message of that stage, without an external client, and
    the later stages are not run.  The client is built by the constructor
    that the connecter carries, and by devicesclient.NewClient only when it
    carries none.  When the constructor fails, Connect still returns an
    external client, made of the connecter's kube client and of whatever
    the constructor returned, next to the wrapped error. *)
Theorem Connect_stops_at_first_failure (c : connecter) (d : loc) (s : Machine) (v : Device)
    (terr : error) (w1 : World) :
  objects s !! d = Some v ->
  usage_Track c v (world s) = (terr, w1) ->
  let reached (w : World) := {| world := w; objects := objects s; calls := calls s |} in
  (forall cause, terr = Some cause ->
     Connect pkg c (IsDevice d) s =
       Some ((None, Some (errors.Wrapped cause errTrackPCUsage)), reached w1)) /\
  (terr = None ->
   forall cfg aerr w2,
     GetAuthInfo pkg (connecter_kube c) v w1 = ((cfg, aerr), w2) ->
     (forall cause, aerr = Some cause ->
        Connect pkg c (IsDevice d) s =
          Some ((None, Some (errors.Wrapped cause errGetProviderConfigSecret)), reached w2)) /\
     (aerr = None ->
      forall cl nerr w3,
        default (NewClient pkg) (newClientFn c) cfg w2 = ((cl, nerr), w3) ->
        Connect pkg c (IsDevice d) s =
          Some ((Some {| kube := connecter_kube c; client := cl |},
                 errors.Wrap nerr errNewClient), reached w3))).
Proof.
  intros Hd Htrack reached.
  assert (Hstart : Connect pkg c (IsDevice d) s =
            match terr with
            | Some _ => Some ((None, errors.Wrap terr errTrackPCUsage), reached w1)
            | None =>
              let '(cfg, aerr, w2) := GetAuthInfo pkg (connecter_kube c) v w1 in
              match aerr with
              | Some _ => Some ((None, errors.Wrap aerr errGetProviderConfigSecret), reached w2)
              | None =>
                let '(cl, nerr, w3) := default (NewClient pkg) (newClientFn c) cfg w2 in
                Some ((Some {| kube := connecter_kube c; client := cl |},
                       errors.Wrap nerr errNewClient), reached w3)
              end
            end).
  { unfold Connect. rewrite run_bind, (run_load d v s Hd).
    rewrite run_bind. unfold lift at 1. rewrite Htrack.
    destruct terr as [cause |]; [reflexivity |].
    rewrite run_bind. unfold lift at 1. cbn [world objects calls].
    destruct (GetAuthInfo pkg (connecter_kube c) v w1) as [[cfg aerr] w2].
    destruct aerr as [cause |]; [reflexivity |].
    rewrite run_bind. unfold lift. cbn [world objects calls].
    destruct (newClientFn c) as [f |]; unfold default, from_option, id;
      [destruct (f cfg w2) as [[cl nerr] w3] | destruct (NewClient pkg cfg w2) as [[cl nerr] w3]];
      reflexivity. }
  rewrite Hstart. split.
  - intros cause ->. reflexivity.
  - intros -> cfg aerr w2 ->. split.
    + intros cause ->. reflexivity.
    + intros -> cl nerr w3 ->. reflexivity.
Qed.

(** X2. Whatever Connect returns, an external client that is nil comes
    with an error: "managed resource is not a Device", or the error of the
    usage tracker or of GetAuthInfo, wrapped.  One that is not nil carries
    the connecter's kube client, next to no error or to an error wrapped
    with "cannot create new Device client".  So a caller that looks at the
    error first never uses a nil client. *)
Theorem Connect_nil_external_has_error (c : connecter) (mg : Managed) (s s' : Machine)
    (r : option external) (err : error) :
  Connect pkg c mg s = Some ((r, err), s') ->
  (r = None ->
     err = Some (errors.Fresh errNotDevice) \/
     exists cause, err = Some (errors.Wrapped cause errTrackPCUsage) \/
                   err = Some (errors.Wrapped cause errGetProviderConfigSecret)) /\
  (forall ex, r = Some ex ->
     kube ex = connecter_kube c /\
     (err = None \/ exists cause, err = Some (errors.Wrapped cause errNewClient))).
Proof.
  intros Hrun. unfold Connect in Hrun. destruct mg as [d | o].
  - run_cases Hrun;
      (split;
       [ intros Hr; first [discriminate Hr | right; eauto]
       | intros ex Hex; first [discriminate Hex | injection Hex as <-];
         (split; [reflexivity |]);
         match goal with
         | |- context [match ?x with _ => _ end] => destruct x
         end; eauto ]).
  - run_cases Hrun. split; [intros _; left; reflexivity | intros ex Hex; discriminate Hex].
Qed.

(** ** Errors and results *)

(** Case analysis on a run of Create that has returned, with the run of
    resolveUserDataRefs inside it taken as a whole. *)
Ltac create_cases H :=
  run_in H;
  repeat (first
    [ progress simplify_eq
    | progress (cbn [world objects calls] in * )
    | match goal with
      | H' : context [match resolveUserDataRefs ?p ?x ?l ?m with _ => _ end] |- _ =>
        destruct (resolveUserDataRefs p x l m) as [[[? [?|]] ?]|] eqn:?
      end
    | inner_case ]).

(** resolveUserDataRefs hands back the empty string with every error, and
    every error is one it has wrapped. *)
Lemma resolveUserDataRefs_wraps (e : external) d s u err s' :
  resolveUserDataRefs pkg e d s = Some ((u, Some err), s') ->
  u = "" /\ exists cause msg, err = errors.Wrapped cause msg.
Proof.
  intros Hrun. unfold resolveUserDataRefs in Hrun.
  run_cases Hrun; (split; [reflexivity | eauto]).
Qed.

(** X3. The error "managed resource is not a Device" tells the two kinds of
    resources apart.  For a resource that is not a Device, each of Connect,
    Observe, Create, Update and Delete returns that error with the zero
    value of its result, and has changed nothing: no object, no condition,
    no call.  For a Device, every error that one of them returns is the
    error of a failed step wrapped with a message, so it is never that
    error. *)
Theorem errNotDevice_only_for_other_kinds :
  (forall (c : connecter) (e : external) (o : OtherManaged) (s : Machine),
     Connect pkg c (IsOther o) s = Some ((None, Some (errors.Fresh errNotDevice)), s) /\
     Observe pkg e (IsOther o) s =
       Some (({| ResourceExists := false; ResourceUpToDate := false; observationDetails := None |},
              Some (errors.Fresh errNotDevice)), s) /\
     Create pkg e (IsOther o) s =
       Some (({| creationDetails := None |}, Some (errors.Fresh errNotDevice)), s) /\
     Update pkg e (IsOther o) s =
       Some (({| updateDetails := None |}, Some (errors.Fresh errNotDevice)), s) /\
     Delete pkg e (IsOther o) s = Some (Some (errors.Fresh errNotDevice), s)) /\
  (forall (d : loc) (err : errors.Err ForeignError) (s s' : Machine),
     (exists c r, Connect pkg c (IsDevice d) s = Some ((r, Some err), s')) \/
     (exists e r, Observe pkg e (IsDevice d) s = Some ((r, Some err), s')) \/
     (exists e r, Create pkg e (IsDevice d) s = Some ((r, Some err), s')) \/
     (exists e r, Update pkg e (IsDevice d) s = Some ((r, Some err), s')) \/
     (exists e, Delete pkg e (IsDevice d) s = Some (Some err, s')) ->
     exists cause msg, err = errors.Wrapped cause msg).
Proof.
  split.
  - intros c e o s. unfold Connect, Observe, Create, Update, Delete, errors.New.
    rewrite !run_ret. repeat split.
  - intros d err s s'
      [(c & r & Hrun) | [(e & r & Hrun) | [(e & r & Hrun) | [(e & r & Hrun) | (e & Hrun)]]]].
    + unfold Connect in Hrun. run_cases Hrun; eauto.
    + unfold Observe in Hrun. run_cases Hrun; eauto.
    + unfold Create in Hrun. create_cases Hrun; eauto.
      match goal with
      | Hres : resolveUserDataRefs _ _ _ _ = Some ((_, Some _), _) |- _ =>
        apply resolveUserDataRefs_wraps in Hres as [_ Hres]; exact Hres
      end.
    + unfold Update in Hrun. run_cases Hrun; eauto.
    + unfold Delete in Hrun. run_cases Hrun; eauto.
Qed.

(** X4. Observe and Create return the zero value of their result with
    every error, and Update returns it always: a caller never receives a
    partly filled observation, or connection details, next to an error. *)
Theorem errors_come_with_zero_results (mg : Managed) (s s' : Machine) :
  (forall e r err, Observe pkg e mg s = Some ((r, Some err), s') -> r = noObservation) /\
  (forall e r err, Create pkg e mg s = Some ((r, Some err), s') -> r = noCreation) /\
  (forall e r err, Update pkg e mg s = Some ((r, err), s') -> r = noUpdate).
Proof.
  split; [| split]; intros e r err Hrun; destruct mg as [d | o].
  - unfold Observe in Hrun. run_cases Hrun; reflexivity.
  - unfold Observe in Hrun. run_cases Hrun. reflexivity.
  - unfold Create in Hrun. create_cases Hrun; reflexivity.
  - unfold Create in Hrun. run_cases Hrun. reflexivity.
  - unfold Update in Hrun. run_cases Hrun; reflexivity.
  - unfold Update in Hrun. run_cases Hrun. reflexivity.
Qed.

(** ** Observe *)

(** X5. Observe reads the device once from the provider and calls nothing
    else there.  It writes to the API server at most once, right after the
    read: only when the read succeeded and late initialization changed the
    parameters, and then it sends the Device with the late-initialized
    parameters.  When the read failed or reported not-found, the Device is
    as it was. *)
Theorem Observe_reads_once_writes_at_most_once (e : external) (d : loc) (s s' : Machine)
    (v : Device) (r : ExternalObservation * error) :
  objects s !! d = Some v ->
  Observe pkg e (IsDevice d) s = Some (r, s') ->
  let name := meta_GetExternalName pkg (objectMeta v) in
  exists device err w1,
    client_Get (client e) name (world s) = ((device, err), w1) /\
    let initialized := LateInitialize pkg (ForProvider (Spec v)) device in
    (calls s' = calls s ++ [ClientGet name] \/
     err = None /\ IsNotFound pkg err = false /\
     initialized <> ForProvider (Spec v) /\
     calls s' = calls s ++ [ClientGet name; KubeUpdate (setForProvider initialized v)]) /\
    (err <> None \/ IsNotFound pkg err = true -> objects s' = objects s /\ world s' = w1).
Proof.
  intros Hd Hrun name. unfold Observe in Hrun.
  run_cases Hrun; eexists _, _, _; (split; [eassumption |]); cbv zeta;
    cbn [calls objects world];
    (split;
     [ first [ left; reflexivity
             | right;
               match goal with
               | Hneq : negb (bool_decide _) = true |- _ =>
                 apply negb_true_iff, bool_decide_eq_false in Hneq;
                 cbn [setForProvider Spec ForProvider DeviceParameters_DeepCopy] in Hneq
               end;
               rewrite <- app_assoc;
               repeat split; solve [assumption | reflexivity | congruence] ]
     | intros [Herr | Hnf];
       first [ split; reflexivity | congruence ] ]).
Qed.

(** X6. When the read succeeded and late initialization changed the
    parameters, a failure of the write to the API server ends Observe: the
    error comes back wrapped with "cannot update Device custom resource",
    the Device holds what the API client left in the object it was handed,
    and neither GenerateObservation's result nor a condition has been
    stored. *)
Theorem Observe_stops_when_write_back_fails (e : external) (d : loc) (s : Machine) (v : Device)
    (device : DevicePtr) (w1 w2 : World) (x' : Device) (cause : errors.Err ForeignError) :
  objects s !! d = Some v ->
  let name := meta_GetExternalName pkg (objectMeta v) in
  client_Get (client e) name (world s) = ((device, None), w1) ->
  IsNotFound pkg None = false ->
  let initialized := LateInitialize pkg (ForProvider (Spec v)) device in
  initialized <> ForProvider (Spec v) ->
  kube_Update (kube e) (setForProvider initialized v) w1 = ((x', Some cause), w2) ->
  Observe pkg e (IsDevice d) s =
    Some ((noObservation, Some (errors.Wrapped cause errManagedUpdateFailed)),
          {| world := w2;
             objects := <[d := x']> (objects s);
             calls := calls s ++ [ClientGet name; KubeUpdate (setForProvider initialized v)] |}).
Proof.
  intros Hd name Hget Hnf initialized Hchanged Hupd.
  set (s1 := {| world := w1; objects := objects s; calls := calls s ++ [ClientGet name] |}).
  assert (Hd1 : objects s1 !! d = Some v) by exact Hd.
  set (x := setForProvider initialized v) in *.
  set (s2 := {| world := w1; objects := <[d := x]> (objects s);
                calls := calls s ++ [ClientGet name] |}).
  assert (Hd2 : objects s2 !! d = Some x) by apply lookup_insert_eq.
  unfold Observe.
  rewrite run_bind, (run_GetExternalName d v s Hd). fold name.
  rewrite run_bind, (run_call _ _ s _ _ Hget). fold s1.
  cbv beta iota. rewrite Hnf.
  rewrite run_bind, (run_load d v s1 Hd1).
  rewrite run_bind, (run_modify d v _ s1 Hd1). fold initialized x.
  change {| world := world s1; objects := <[d := x]> (objects s1); calls := calls s1 |} with s2.
  rewrite run_bind, (run_load d x s2 Hd2).
  unfold DeviceParameters_DeepCopy.
  rewrite bool_decide_false by (intros Heq; apply Hchanged; symmetry; exact Heq).
  cbv beta iota delta [negb].
  rewrite run_bind. unfold kubeUpdate.
  rewrite run_bind, (run_load d x s2 Hd2).
  rewrite run_bind, (run_call _ _ s2 _ _ Hupd).
  cbv beta iota. unfold store, mbind, M_bind, mret, M_ret. cbn [world objects calls].
  unfold s2. cbn [world objects calls].
  rewrite insert_insert_eq, <- app_assoc. reflexivity.
Qed.

(** X7. When Observe returns an error wrapped with "cannot generate
    observation", the cause is the error of GenerateObservation on the
    device that the read returned, and Status.AtProvider has already been
    overwritten with the observation that came with that error; no
    condition has been set. *)
Theorem Observe_stores_the_failed_observation (e : external) (d : loc) (s s' : Machine)
    (o : ExternalObservation) (cause : errors.Err ForeignError) :
  Observe pkg e (IsDevice d) s =
    Some ((o, Some (errors.Wrapped cause errGenObservation)), s') ->
  exists v0 device w1 obs v',
    objects s !! d = Some v0 /\
    client_Get (client e) (meta_GetExternalName pkg (objectMeta v0)) (world s) =
      ((device, None), w1) /\
    GenerateObservation pkg device = (obs, Some cause) /\
    objects s' !! d = Some v' /\
    AtProvider (Status v') = obs /\
    (let initialized :=
       setForProvider (LateInitialize pkg (ForProvider (Spec v0)) device) v0 in
     v' = setAtProvider obs initialized \/
     exists w w' written,
       kube_Update (kube e) initialized w = ((written, None), w') /\
       v' = setAtProvider obs written).
Proof.
  intros Hrun. unfold Observe in Hrun.
  unfold errManagedUpdateFailed, errGenObservation, errGetDevice in Hrun.
  run_cases Hrun;
    eexists _, _, _, _, _;
    (split; [reflexivity |]); (split; [eassumption |]); (split; [eassumption |]);
    (split; [reflexivity |]); (split; [reflexivity |]);
    first [ left; reflexivity
          | right; eexists _, _, _; split; [eassumption | reflexivity] ].
Qed.

(** ** resolveUserDataRefs *)

(** Running resolveUserDataRefs up to the read of the referenced resource. *)
Lemma run_resolve_ConfigMap (e : external) (d : loc) (s : Machine) (v : Device)
    (ref : UserDataReference) data gerr w' :
  objects s !! d = Some v ->
  UserDataRef (ForProvider (Spec v)) = Some ref ->
  Kind ref = "ConfigMap" ->
  let nsn := {| nsnName := Name ref; nsnNamespace := Namespace ref |} in
  let key := if String.eqb (Key ref) "" then userdataMapKey else Key ref in
  kube_GetConfigMap (kube e) nsn (world s) = ((data, gerr), w') ->
  resolveUserDataRefs pkg e d s =
    Some (if notNil gerr && negb (Optional ref) then ("", errors.Wrap gerr errGetUserDataRef)
          else match data !! key with
               | Some userdata => (userdata, None)
               | None =>
                 if negb (Optional ref)
                 then ("", errors.Wrap (errors.Errorf errGetUserDataRef) (errRefKeyNotFound pkg key))
                 else ("", None)
               end,
          {| world := w'; objects := objects s; calls := calls s ++ [KubeGet "ConfigMap" nsn] |}).
Proof.
  intros Hd Href Hkind nsn key Hget. unfold resolveUserDataRefs.
  rewrite run_bind, (run_load d v s Hd), Href. fold nsn key.
  rewrite Hkind. cbn [String.eqb Ascii.eqb Bool.eqb andb].
  rewrite run_bind, (run_call _ _ s _ _ Hget). cbv beta iota.
  destruct (notNil gerr && negb (Optional ref)); [reflexivity |].
  destruct (data !! key); cbn [negb andb]; [reflexivity |].
  destruct (Optional ref); reflexivity.
Qed.

Lemma run_resolve_Secret (e : external) (d : loc) (s : Machine) (v : Device)
    (ref : UserDataReference) data gerr w' :
  objects s !! d = Some v ->
  UserDataRef (ForProvider (Spec v)) = Some ref ->
  Kind ref = "Secret" ->
  let nsn := {| nsnName := Name ref; nsnNamespace := Namespace ref |} in
  let key := if String.eqb (Key ref) "" then userdataMapKey else Key ref in
  kube_GetSecret (kube e) nsn (world s) = ((data, gerr), w') ->
  resolveUserDataRefs pkg e d s =
    Some (if notNil gerr && negb (Optional ref) then ("", errors.Wrap gerr errGetUserDataRef)
          else match data !! key with
               | Some bytes => (string_of_list_byte bytes, None)
               | None =>
                 if negb (Optional ref)
                 then ("", errors.Wrap (errors.Errorf errGetUserDataRef) (errRefKeyNotFound pkg key))
                 else ("", None)
               end,
          {| world := w'; objects := objects s; calls := calls s ++ [KubeGet "Secret" nsn] |}).
Proof.
  intros Hd Href Hkind nsn key Hget. unfold resolveUserDataRefs.
  rewrite run_bind, (run_load d v s Hd), Href. fold nsn key.
  rewrite Hkind. cbn [String.eqb Ascii.eqb Bool.eqb andb].
  rewrite run_bind, (run_call _ _ s _ _ Hget). cbv beta iota.
  destruct (notNil gerr && negb (Optional ref)); [reflexivity |].
  destruct (data !! key); cbn [negb andb]; [reflexivity |].
  destruct (Optional ref); reflexivity.
Qed.

(** X8. A reference that is optional and names a ConfigMap or a Secret
    never makes resolveUserDataRefs fail.  It reads the resource of that
    kind with the reference's name in the reference's namespace, once, and
    returns what the Data of the object it read into holds under the key,
    whether the read failed or not; that is the empty string when the key is
    missing. *)
Theorem resolveUserDataRefs_optional_never_fails (e : external) (d : loc) (s : Machine)
    (v : Device) (ref : UserDataReference) :
  objects s !! d = Some v ->
  UserDataRef (ForProvider (Spec v)) = Some ref ->
  Optional ref = true ->
  let nsn := {| nsnName := Name ref; nsnNamespace := Namespace ref |} in
  let key := if String.eqb (Key ref) "" then userdataMapKey else Key ref in
  (Kind ref = "ConfigMap" ->
   forall data gerr w',
     kube_GetConfigMap (kube e) nsn (world s) = ((data, gerr), w') ->
     resolveUserDataRefs pkg e d s =
       Some ((default "" (data !! key), None),
             {| world := w'; objects := objects s;
                calls := calls s ++ [KubeGet "ConfigMap" nsn] |})) /\
  (Kind ref = "Secret" ->
   forall data gerr w',
     kube_GetSecret (kube e) nsn (world s) = ((data, gerr), w') ->
     resolveUserDataRefs pkg e d s =
       Some ((string_of_list_byte (default [] (data !! key)), None),
             {| world := w'; objects := objects s;
                calls := calls s ++ [KubeGet "Secret" nsn] |})).
Proof.
  intros Hd Href Hopt nsn key. split; intros Hkind data gerr w' Hget.
  - rewrite (run_resolve_ConfigMap e d s v ref data gerr w' Hd Href Hkind Hget).
    fold nsn key. rewrite Hopt, andb_false_r. cbn [negb].
    destruct (data !! key); reflexivity.
  - rewrite (run_resolve_Secret e d s v ref data gerr w' Hd Href Hkind Hget).
    fold nsn key. rewrite Hopt, andb_false_r. cbn [negb].
    destruct (data !! key); reflexivity.
Qed.

(** X9. A reference that is required resolves in exactly one case: the read
    of the ConfigMap or Secret succeeds and its Data holds the key.  Then
    the user data is that entry, for a Secret its bytes as a string.  A
    failed read gives the error of the read wrapped with "cannot get
    required resource for UserDataRef"; a missing key gives a new error
    wrapped with the message that quotes the key.  The user data is empty
    with both errors. *)
Theorem resolveUserDataRefs_required (e : external) (d : loc) (s : Machine)
    (v : Device) (ref : UserDataReference) :
  objects s !! d = Some v ->
  UserDataRef (ForProvider (Spec v)) = Some ref ->
  Optional ref = false ->
  let nsn := {| nsnName := Name ref; nsnNamespace := Namespace ref |} in
  let key := if String.eqb (Key ref) "" then userdataMapKey else Key ref in
  let missing := Some (errors.Wrapped (errors.Formatted errGetUserDataRef)
                                      (errRefKeyNotFound pkg key)) in
  (Kind ref = "ConfigMap" ->
   forall data gerr w',
     kube_GetConfigMap (kube e) nsn (world s) = ((data, gerr), w') ->
     resolveUserDataRefs pkg e d s =
       Some (match gerr, data !! key with
             | Some cause, _ => ("", Some (errors.Wrapped cause errGetUserDataRef))
             | None, None => ("", missing)
             | None, Some userdata => (userdata, None)
             end,
             {| world := w'; objects := objects s;
                calls := calls s ++ [KubeGet "ConfigMap" nsn] |})) /\
  (Kind ref = "Secret" ->
   forall data gerr w',
     kube_GetSecret (kube e) nsn (world s) = ((data, gerr), w') ->
     resolveUserDataRefs pkg e d s =
       Some (match gerr, data !! key with
             | Some cause, _ => ("", Some (errors.Wrapped cause errGetUserDataRef))
             | None, None => ("", missing)
             | None, Some bytes => (string_of_list_byte bytes, None)
             end,
             {| world := w'; objects := objects s;
                calls := calls s ++ [KubeGet "Secret" nsn] |})).
Proof.
  intros Hd Href Hopt nsn key missing. split; intros Hkind data gerr w' Hget.
  - rewrite (run_resolve_ConfigMap e d s v ref data gerr w' Hd Href Hkind Hget).
    fold nsn key. rewrite Hopt.
    destruct gerr as [cause |]; [reflexivity |].
    destruct (data !! key); reflexivity.
  - rewrite (run_resolve_Secret e d s v ref data gerr w' Hd Href Hkind Hget).
    fold nsn key. rewrite Hopt.
    destruct gerr as [cause |]; [reflexivity |].
    destruct (data !! key); reflexivity.
Qed.

(** X10. An empty Key stands for "cloud-init": resolveUserDataRefs on a
    Device whose reference has no Key returns the same user data and error,
    after the same calls, as on a Device whose reference differs in naming
    the key "cloud-init". *)
Theorem resolveUserDataRefs_default_key (e : external) (d : loc) (s1 s2 : Machine)
    (v1 v2 : Device) (ref : UserDataReference) :
  objects s1 !! d = Some v1 ->
  objects s2 !! d = Some v2 ->
  world s1 = world s2 ->
  calls s1 = calls s2 ->
  UserDataRef (ForProvider (Spec v1)) = Some ref ->
  Key ref = "" ->
  UserDataRef (ForProvider (Spec v2)) =
    Some {| Name := Name ref; Namespace := Namespace ref; Key := "cloud-init";
            Kind := Kind ref; Optional := Optional ref |} ->
  outcome (resolveUserDataRefs pkg e d s1) = outcome (resolveUserDataRefs pkg e d s2).
Proof.
  intros Hd1 Hd2 Hworld Hcalls Href1 Hkey Href2. unfold resolveUserDataRefs.
  rewrite !run_bind, (run_load d v1 s1 Hd1), (run_load d v2 s2 Hd2), Href1, Href2.
  cbn [Name Namespace Key Kind Optional]. rewrite Hkey.
  change (String.eqb "" "") with true. change (String.eqb "cloud-init" "") with false.
  cbv iota. unfold userdataMapKey.
  destruct (String.eqb (Kind ref) "ConfigMap");
    [| destruct (String.eqb (Kind ref) "Secret");
       [| rewrite !run_ret; cbn [outcome]; now rewrite Hworld, Hcalls]].
  - rewrite !run_bind. unfold call. rewrite Hworld, Hcalls.
    destruct (kube_GetConfigMap (kube e) _ (world s2)) as [[data gerr] w'].
    destruct (notNil gerr && negb (Optional ref)); [reflexivity |].
    destruct (data !! "cloud-init"); destruct (Optional ref); reflexivity.
  - rewrite !run_bind. unfold call. rewrite Hworld, Hcalls.
    destruct (kube_GetSecret (kube e) _ (world s2)) as [[data gerr] w'].
    destruct (notNil gerr && negb (Optional ref)); [reflexivity |].
    destruct (data !! "cloud-init"); destruct (Optional ref); reflexivity.
Qed.

(** ** Create *)

(** Create is its prologue, the resolution of the user data when the Device
    has a reference, and [createFromCopy]. *)
Lemma Create_unfold (e : external) (d : loc) :
  Create pkg e (IsDevice d) =
  (modify d (setCondition pkg Creating);;
   createDev ← Device_DeepCopy d;
   v ← load d;
   match UserDataRef (ForProvider (Spec v)) with
   | Some _ =>
     '(userdata, err) ← resolveUserDataRefs pkg e d;
     match err with
     | Some _ => mret (noCreation, err)
     | None =>
       modify createDev (setUserData (Some userdata));;
       createFromCopy pkg e d createDev
     end
   | None => createFromCopy pkg e d createDev
   end).
Proof. reflexivity. Qed.

(** What [createFromCopy] does, by the answers of the two clients. *)
Lemma run_createFromCopy (e : external) (d l : loc) (s2 : Machine) (v1 cv : Device)
    (device : DevicePtr) (cerr : error) (w3 : World) :
  objects s2 !! d = Some v1 ->
  objects s2 !! l = Some cv ->
  let pid := client_GetProjectID (client e) (CredentialProjectID pkg) in
  let req := CreateFromDevice pkg cv pid in
  client_Create (client e) req (world s2) = ((device, cerr), w3) ->
  createFromCopy pkg e d l s2 =
    match cerr, device with
    | Some cause, _ =>
      Some ((noCreation, Some (errors.Wrapped cause errCreateDevice)),
            {| world := w3; objects := objects s2;
               calls := calls s2 ++ [ClientGetProjectID (CredentialProjectID pkg);
                                     ClientCreate req] |})
    | None, None => None
    | None, Some dev =>
      let x := setExternalName pkg (packngo_ID pkg dev)
                 (setAtProviderID (packngo_ID pkg dev) v1) in
      let '(x', uerr, w4) := kube_Update (kube e) x w3 in
      Some ((match uerr with
             | Some _ => noCreation
             | None => {| creationDetails := GetConnectionDetails pkg (Some dev) |}
             end, errors.Wrap uerr errManagedUpdateFailed),
            {| world := w4; objects := <[d := x']> (objects s2);
               calls := calls s2 ++ [ClientGetProjectID (CredentialProjectID pkg);
                                     ClientCreate req; KubeUpdate x] |})
    end.
Proof.
  intros Hd Hl pid req Hcreate. unfold createFromCopy.
  rewrite run_bind, (run_load l cv s2 Hl).
  rewrite run_bind. unfold call at 1. cbn [world objects calls]. fold pid req.
  rewrite run_bind. unfold call at 1. cbn [world objects calls]. rewrite Hcreate.
  destruct cerr as [cause |]; [now rewrite <- app_assoc |].
  destruct device as [dev |]; [| reflexivity].
  rewrite run_bind. erewrite run_modify by (cbn [objects]; exact Hd).
  rewrite run_bind. erewrite run_modify by (cbn [objects]; apply lookup_insert_eq).
  cbn [world objects calls].
  rewrite run_bind. unfold kubeUpdate.
  rewrite run_bind. erewrite run_load by (cbn [objects]; apply lookup_insert_eq).
  rewrite run_bind. unfold call. cbn [world objects calls].
  destruct (kube_Update (kube e) _ w3) as [[x' uerr] w4].
  unfold store, mbind, M_bind, mret, M_ret. cbn [world objects calls].
  rewrite !insert_insert_eq, <- !app_assoc.
  destruct uerr; reflexivity.
Qed.

(** With a reference to resolve, resolveUserDataRefs returns. *)
Lemma resolveUserDataRefs_returns (e : external) (d : loc) (s : Machine) (v : Device)
    (ref : UserDataReference) :
  objects s !! d = Some v ->
  UserDataRef (ForProvider (Spec v)) = Some ref ->
  is_Some (resolveUserDataRefs pkg e d s).
Proof.
  intros Hd Href. unfold resolveUserDataRefs.
  rewrite run_bind, (run_load d v s Hd), Href.
  destruct (String.eqb (Kind ref) "ConfigMap");
    [| destruct (String.eqb (Kind ref) "Secret"); [| eexists; reflexivity]].
  - rewrite run_bind. unfold call.
    destruct (kube_GetConfigMap (kube e) _ (world s)) as [[data gerr] w'].
    destruct (notNil gerr && negb (Optional ref)); [eexists; reflexivity |].
    destruct (data !! _); destruct (negb _ && negb _); eexists; reflexivity.
  - rewrite run_bind. unfold call.
    destruct (kube_GetSecret (kube e) _ (world s)) as [[data gerr] w'].
    destruct (notNil gerr && negb (Optional ref)); [eexists; reflexivity |].
    destruct (data !! _); destruct (negb _ && negb _); eexists; reflexivity.
Qed.

(** A run of Create on a Device either ends with the error of
    resolveUserDataRefs, or reaches [createFromCopy]: the Device then holds
    the Creating condition, its copy holds the same and, when there is a
    reference, the resolved user data, and nothing but reads of the API
    server has happened. *)
Lemma Create_reaches_copy (e : external) (d : loc) (s : Machine) (v : Device) :
  objects s !! d = Some v ->
  let v1 := setCondition pkg Creating v in
  (exists u cause s2,
     is_Some (UserDataRef (ForProvider (Spec v))) /\
     Create pkg e (IsDevice d) s = Some ((noCreation, Some cause), s2) /\
     (modify d (setCondition pkg Creating);; _ ← Device_DeepCopy d;
      resolveUserDataRefs pkg e d) s = Some ((u, Some cause), s2)) \/
  (exists l s2 cv reads,
     Create pkg e (IsDevice d) s = createFromCopy pkg e d l s2 /\
     l <> d /\
     objects s2 !! d = Some v1 /\
     objects s2 !! l = Some cv /\
     calls s2 = calls s ++ reads /\
     (forall c, In c reads -> exists kind nsn, c = KubeGet kind nsn) /\
     match UserDataRef (ForProvider (Spec v)) with
     | None => cv = v1 /\ reads = [] /\ world s2 = world s
     | Some _ => exists u, cv = setUserData (Some u) v1
     end).
Proof.
  intros Hd v1.
  destruct (copy_in_store d v s Hd) as (Hd1 & Hl & Hne).
  pose proof (run_prologue d v s (fun _ => resolveUserDataRefs pkg e d) Hd) as Hpre.
  cbv beta in Hpre.
  rewrite Create_unfold, (run_prologue d v s _ Hd).
  fold v1 in Hd1, Hl, Hne, Hpre |- *.
  set (l := fresh (dom (<[d := v1]> (objects s)))) in *.
  set (s1 := {| world := world s; objects := <[l := v1]> (<[d := v1]> (objects s));
                calls := calls s |}) in *.
  rewrite run_bind, (run_load d v1 s1 Hd1).
  change (UserDataRef (ForProvider (Spec v1))) with (UserDataRef (ForProvider (Spec v))).
  destruct (UserDataRef (ForProvider (Spec v))) as [ref |] eqn:Href.
  - destruct (resolveUserDataRefs_returns e d s1 v1 ref Hd1 Href) as [[[u err] s2] Hres].
    destruct (resolveUserDataRefs_frame e d s1 _ s2 Hres) as (Hobj & reads & Hcalls & Hreads).
    rewrite run_bind, Hres. rewrite Hres in Hpre.
    destruct err as [cause |].
    + left. exists u, cause, s2. split; [eexists; reflexivity |]. split; [reflexivity | exact Hpre].
    + right. cbv beta iota.
      rewrite run_bind.
      erewrite run_modify by (rewrite Hobj; exact Hl).
      exists l, {| world := world s2;
                   objects := <[l := setUserData (Some u) v1]> (objects s2);
                   calls := calls s2 |},
             (setUserData (Some u) v1), reads.
      cbn [world objects calls].
      split; [reflexivity |]. split; [exact Hne |].
      split; [rewrite lookup_insert_ne by done; rewrite Hobj; exact Hd1 |].
      split; [apply lookup_insert_eq |].
      split; [exact Hcalls |]. split; [exact Hreads |]. now exists u.
  - right. exists l, s1, v1, []. cbn [world objects calls].
    split; [reflexivity |]. split; [exact Hne |]. split; [exact Hd1 |]. split; [exact Hl |].
    split; [now rewrite app_nil_r |]. split; [intros c [] |]. repeat split.
Qed.

(** The messages that resolveUserDataRefs wraps its errors with. *)
Lemma resolveUserDataRefs_contexts (e : external) d s u err s' :
  resolveUserDataRefs pkg e d s = Some ((u, Some err), s') ->
  errors.context err = Some errGetUserDataRef \/
  errors.context err = Some errInvalidRefKind \/
  exists key, errors.context err = Some (errRefKeyNotFound pkg key).
Proof.
  intros Hrun. unfold resolveUserDataRefs in Hrun.
  run_cases Hrun; cbn [errors.context]; eauto.
Qed.

(** X11. When Create succeeds, the provider has created a device, and the
    Device was sent to the API server with the Creating condition and with
    the ID of that device both as its external name and in
    Status.AtProvider.ID.  What the API client left in the object is what
    the Device holds; the connection details are those of the created
    device.  The calls were, in this order: the reads of the user data (if
    any), GetProjectID, the client's Create, and that one Update. *)
Theorem Create_records_the_provider_ID (e : external) (d : loc) (s s' : Machine) (v : Device)
    (r : ExternalCreation) :
  objects s !! d = Some v ->
  Create pkg e (IsDevice d) s = Some ((r, None), s') ->
  exists req dev w w' x' reads,
    client_Create (client e) req w = ((Some dev, None), w') /\
    let id := packngo_ID pkg dev in
    let x := setExternalName pkg id (setAtProviderID id (setCondition pkg Creating v)) in
    kube_Update (kube e) x w' = ((x', None), world s') /\
    objects s' !! d = Some x' /\
    r = {| creationDetails := GetConnectionDetails pkg (Some dev) |} /\
    calls s' = calls s ++ reads ++ [ClientGetProjectID (CredentialProjectID pkg);
                                    ClientCreate req; KubeUpdate x] /\
    (forall c, In c reads -> exists kind nsn, c = KubeGet kind nsn).
Proof.
  intros Hd Hrun.
  destruct (Create_reaches_copy e d s v Hd)
    as [(u & cause & s2 & _ & Hc & _)
       | (l & s2 & cv & reads & Hc & Hne & Hd2 & Hl2 & Hcalls & Hreads & _)];
    rewrite Hc in Hrun; [discriminate Hrun |].
  destruct (client_Create (client e)
              (CreateFromDevice pkg cv (client_GetProjectID (client e) (CredentialProjectID pkg)))
              (world s2)) as [[device cerr] w3] eqn:Hcreate.
  rewrite (run_createFromCopy e d l s2 _ cv device cerr w3 Hd2 Hl2 Hcreate) in Hrun.
  destruct cerr as [cause |]; [discriminate Hrun |].
  destruct device as [dev |]; [| discriminate Hrun].
  cbv zeta in Hrun.
  destruct (kube_Update (kube e) _ w3) as [[x' uerr] w4] eqn:Hupd.
  destruct uerr as [cause |]; [discriminate Hrun |].
  injection Hrun as <- <-.
  eexists _, dev, (world s2), w3, x', reads. cbn [world objects calls].
  split; [exact Hcreate |]. split; [exact Hupd |].
  split; [apply lookup_insert_eq |]. split; [reflexivity |].
  split; [now rewrite Hcalls, <- app_assoc | exact Hreads].
Qed.

(** X12. When Create returns an error wrapped with "cannot create Device",
    the cause is the error of the client's Create, which was the last call
    made.  The API client's Update has not been called, and the Device has
    gained the Creating condition and nothing else: neither an external
    name nor Status.AtProvider.ID has been recorded. *)
Theorem Create_failure_records_nothing (e : external) (d : loc) (s s' : Machine) (v : Device)
    (r : ExternalCreation) (cause : errors.Err ForeignError) :
  objects s !! d = Some v ->
  Create pkg e (IsDevice d) s = Some ((r, Some (errors.Wrapped cause errCreateDevice)), s') ->
  objects s' !! d = Some (setCondition pkg Creating v) /\
  exists req w device reads,
    client_Create (client e) req w = ((device, Some cause), world s') /\
    calls s' = calls s ++ reads ++ [ClientGetProjectID (CredentialProjectID pkg);
                                    ClientCreate req] /\
    (forall c, In c reads -> exists kind nsn, c = KubeGet kind nsn).
Proof.
  intros Hd Hrun.
  destruct (Create_reaches_copy e d s v Hd)
    as [(u & cause0 & s2 & _ & Hc & Hres)
       | (l & s2 & cv & reads & Hc & Hne & Hd2 & Hl2 & Hcalls & Hreads & _)];
    rewrite Hc in Hrun.
  - (* the error of resolveUserDataRefs carries another message *)
    exfalso. injection Hrun as _ -> _.
    rewrite (run_prologue d v s _ Hd) in Hres.
    apply resolveUserDataRefs_contexts in Hres. cbn [errors.context] in Hres.
    unfold errCreateDevice, errGetUserDataRef, errInvalidRefKind, errRefKeyNotFound in Hres.
    destruct Hres as [Hres | [Hres | [key Hres]]]; cbn in Hres; discriminate Hres.
  - destruct (client_Create (client e)
                (CreateFromDevice pkg cv (client_GetProjectID (client e) (CredentialProjectID pkg)))
                (world s2)) as [[device cerr] w3] eqn:Hcreate.
    rewrite (run_createFromCopy e d l s2 _ cv device cerr w3 Hd2 Hl2 Hcreate) in Hrun.
    destruct cerr as [cause0 |].
    + injection Hrun as _ <- <-. cbn [world objects calls].
      split; [exact Hd2 |].
      eexists _, (world s2), device, reads.
      split; [exact Hcreate |]. split; [now rewrite Hcalls, <- app_assoc | exact Hreads].
    + exfalso. destruct device as [dev |]; [| discriminate Hrun].
      cbv zeta in Hrun.
      destruct (kube_Update (kube e) _ w3) as [[x' uerr] w4].
      destruct uerr as [cause0 |]; [| discriminate Hrun].
      unfold errors.Wrap, errManagedUpdateFailed, errCreateDevice in Hrun.
      injection Hrun as _ _ Hmsg _. discriminate Hmsg.
Qed.

(** X13. Create on a Device that the store holds panics only when the
    client's Create returns neither a device nor an error: the ID of the
    device is read without a check for nil.  For a Device without a
    UserDataRef, whose request is built from the Device as it is, it does
    panic then. *)
Theorem Create_panics_without_device (e : external) (d : loc) (s : Machine) (v : Device) :
  objects s !! d = Some v ->
  (Create pkg e (IsDevice d) s = None ->
   exists req w w', client_Create (client e) req w = ((None, None), w')) /\
  (UserDataRef (ForProvider (Spec v)) = None ->
   forall w',
     client_Create (client e)
       (CreateFromDevice pkg (setCondition pkg Creating v)
          (client_GetProjectID (client e) (CredentialProjectID pkg))) (world s) =
       ((None, None), w') ->
     Create pkg e (IsDevice d) s = None).
Proof.
  intros Hd.
  destruct (Create_reaches_copy e d s v Hd)
    as [(u & cause & s2 & Hsome & Hc & _)
       | (l & s2 & cv & reads & Hc & Hne & Hd2 & Hl2 & Hcalls & Hreads & Hcv)];
    rewrite Hc.
  - split; [discriminate |]. intros Href. rewrite Href in Hsome.
    destruct Hsome as [? Hsome]. discriminate Hsome.
  - split.
    + intros Hrun.
      destruct (client_Create (client e)
                  (CreateFromDevice pkg cv (client_GetProjectID (client e) (CredentialProjectID pkg)))
                  (world s2)) as [[device cerr] w3] eqn:Hcreate.
      rewrite (run_createFromCopy e d l s2 _ cv device cerr w3 Hd2 Hl2 Hcreate) in Hrun.
      destruct cerr as [cause |]; [discriminate Hrun |].
      destruct device as [dev |]; [| eauto].
      cbv zeta in Hrun.
      destruct (kube_Update (kube e) _ w3) as [[x' uerr] w4]. discriminate Hrun.
    + intros Href w' Hcreate. rewrite Href in Hcv. destruct Hcv as (-> & _ & Hw).
      rewrite <- Hw in Hcreate.
      now rewrite (run_createFromCopy e d l s2 _ _ None None w' Hd2 Hl2 Hcreate).
Qed.

(** X14. For a Device without a UserDataRef, Create reads nothing from the
    API server: its first calls are GetProjectID and the client's Create,
    with the request that CreateFromDevice builds from the Device as it is,
    Creating condition included; all that may follow is the one Update of
    the Device. *)
Theorem Create_without_reference (e : external) (d : loc) (s s' : Machine) (v : Device)
    (r : ExternalCreation * error) :
  objects s !! d = Some v ->
  UserDataRef (ForProvider (Spec v)) = None ->
  Create pkg e (IsDevice d) s = Some (r, s') ->
  let req := CreateFromDevice pkg (setCondition pkg Creating v)
               (client_GetProjectID (client e) (CredentialProjectID pkg)) in
  exists rest,
    calls s' = calls s ++ [ClientGetProjectID (CredentialProjectID pkg); ClientCreate req] ++ rest /\
    (rest = [] \/ exists x, rest = [KubeUpdate x]).
Proof.
  intros Hd Href Hrun req.
  destruct (Create_reaches_copy e d s v Hd)
    as [(u & cause & s2 & Hsome & _)
       | (l & s2 & cv & reads & Hc & Hne & Hd2 & Hl2 & Hcalls & Hreads & Hcv)].
  - rewrite Href in Hsome. destruct Hsome as [? Hsome]. discriminate Hsome.
  - rewrite Href in Hcv. destruct Hcv as (-> & -> & Hw).
    rewrite app_nil_r in Hcalls. rewrite Hc in Hrun.
    destruct (client_Create (client e) req (world s2)) as [[device cerr] w3] eqn:Hcreate.
    rewrite (run_createFromCopy e d l s2 _ _ device cerr w3 Hd2 Hl2 Hcreate) in Hrun.
    fold req in Hrun.
    destruct cerr as [cause |].
    + injection Hrun as _ <-. cbn [calls]. exists []. rewrite Hcalls. split; [reflexivity | now left].
    + destruct device as [dev |]; [| discriminate Hrun].
      cbv zeta in Hrun.
      destruct (kube_Update (kube e) _ w3) as [[x' uerr] w4].
      injection Hrun as _ <-. cbn [calls]. eexists [_]. rewrite Hcalls.
      split; [reflexivity | right; eexists; reflexivity].
Qed.


End DeviceFacts.

(** * The statements at concrete scenarios *)

Import scenario.

Lemma state_names_distinct :
  NoDup (StateActive (pkg quiet) :: StateProvisioning (pkg quiet) :: unavailableStates (pkg quiet)).
Proof. apply (bool_decide_unpack _). vm_compute. exact I. Defined.

(** An active device: Observe sets Available. *)
Lemma Observe_sets_condition_of_state_witness :
  exists o s' v',
    Observe (pkg quiet) (scripted quiet) (IsDevice here) (holding plain) = Some ((o, None), s') /\
    objects s' !! here = Some v' /\
    State (AtProvider (Status v')) = "active" /\
    statusResourceStatus (Status v') = [Available].
Proof.
  destruct (Observe_sets_condition_of_state (pkg quiet) (scripted quiet) here (holding plain) plain
              (Some ("dev-1", "active")) 1 _ None 2 _ None
              state_names_distinct eq_refl eq_refl eq_refl eq_refl eq_refl)
    as (o & s' & v' & Hrun & Hv' & Hobs & Hactive & _).
  exists o, s', v'. split; [exact Hrun |]. split; [exact Hv' |].
  split; [now rewrite Hobs | exact (Hactive eq_refl)].
Defined.

(** The provider returns an active device, yet the Device receives no
    condition: the API server refuses the write of the late-initialized
    parameters, and Observe returns before it reaches the switch. *)
Lemma Observe_fetches_and_sets_no_condition :
  client_Get (client (scripted conflict)) "dev-1" 0 = ((Some ("dev-1", "active"), None), 1) /\
  StateActive (pkg conflict) = "active" /\
  exists s' v',
    Observe (pkg conflict) (scripted conflict) (IsDevice here) (holding plain) =
      Some (({| ResourceExists := false; ResourceUpToDate := false; observationDetails := None |},
             Some (errors.Wrapped (errors.Foreign 409) errManagedUpdateFailed)), s') /\
    objects s' !! here = Some v' /\
    statusResourceStatus (Status v') = [] /\
    ~ In Available (statusResourceStatus (Status v')).
Proof.
  split; [reflexivity |]. split; [reflexivity |].
  eexists _, _. split; [vm_compute; reflexivity |].
  split; [vm_compute; reflexivity |]. split; [reflexivity | intros []].
Qed.

(** Get succeeds, yet Observe reports no resource: the API server refuses
    the write of the late-initialized parameters. *)
Lemma Observe_fails_after_successful_Get :
  client_Get (client (scripted conflict)) "dev-1" 0 = ((Some ("dev-1", "active"), None), 1) /\
  IsNotFound (pkg conflict) None = false /\
  exists s',
    Observe (pkg conflict) (scripted conflict) (IsDevice here) (holding plain) =
      Some (({| ResourceExists := false; ResourceUpToDate := false; observationDetails := None |},
             Some (errors.Wrapped (errors.Foreign 409) errManagedUpdateFailed)), s').
Proof.
  split; [reflexivity |]. split; [reflexivity |].
  eexists. vm_compute. reflexivity.
Qed.

(** Every call succeeds: Observe reports an existing, up-to-date resource. *)
Lemma Observe_reports_existence_witness :
  objects (holding plain) !! here = Some plain /\
  client_Get (client (scripted quiet)) "dev-1" 0 = ((Some ("dev-1", "active"), None), 1) /\
  exists o s',
    Observe (pkg quiet) (scripted quiet) (IsDevice here) (holding plain) = Some ((o, None), s') /\
    ResourceExists o = true /\ ResourceUpToDate o = true.
Proof.
  split; [reflexivity |]. split; [reflexivity |].
  destruct (Observe_reports_existence (pkg quiet) (scripted quiet) here (holding plain) plain
              (Some ("dev-1", "active")) None 1 _ None 2 _ None
              eq_refl eq_refl eq_refl eq_refl) as [_ Hfound].
  destruct (Hfound eq_refl eq_refl) as (s' & v' & Hv' & Hrun).
  pose proof Hrun as Hval. vm_compute in Hval. injection Hval as Ho Hs.
  rewrite <- Hs in Hv'. vm_compute in Hv'. injection Hv' as Hv'.
  eexists _, s'. split; [exact Hrun |]. split; [reflexivity |].
  rewrite <- Hv'. reflexivity.
Defined.

(** Get fails: Update stops there, although the Device names no network
    type, and the client's Update is never called. *)
Lemma Update_stops_when_Get_fails :
  NetworkType (ForProvider (Spec plain)) = None /\
  exists r s',
    Update (pkg quiet) (scripted (withGet (None, status 500) quiet)) (IsDevice here) (holding plain) =
      Some ((r, Some (errors.Wrapped (errors.Foreign 500) errGetDevice)), s') /\
    calls s' = [ClientGet "dev-1"] /\
    forall n req, ~ In (ClientUpdate n req) (calls s').
Proof.
  split; [reflexivity |].
  eexists _, _. split; [vm_compute; reflexivity |].
  split; [reflexivity |].
  intros n req [Hin | []]. discriminate Hin.
Qed.

(** The Device asks for a network type that the provider does not report:
    Update switches the network type and leaves it at that. *)
Lemma Update_dispatch_witness :
  let v := aDevice None (Some "layer2-bonded") in
  objects (holding v) !! here = Some v /\
  client_Get (client (scripted quiet)) "dev-1" 0 = ((Some ("dev-1", "active"), None), 1) /\
  exists r s',
    Update (pkg quiet) (scripted quiet) (IsDevice here) (holding v) = Some (r, s') /\
    calls s' = [ClientGet "dev-1"; ClientDeviceToNetworkType "dev-1" "layer2-bonded"].
Proof.
  intros v. split; [reflexivity |]. split; [reflexivity |].
  destruct (Update_dispatch (pkg quiet) (scripted quiet) here (holding v) v
              (Some ("dev-1", "active")) None 1 eq_refl eq_refl) as [Hfetched _].
  destruct (Hfetched eq_refl) as [Hnt _].
  eexists _, _. split.
  - exact (Hnt "layer2-bonded" _ _ _ eq_refl eq_refl eq_refl).
  - reflexivity.
Defined.

(** A reference to a Pod, optional or not. *)
Lemma Create_rejects_unknown_kind_witness :
  let v := aDevice (Some (userDataRef "Pod" "" true)) None in
  objects (holding v) !! here = Some v /\
  exists s',
    Create (pkg quiet) (scripted quiet) (IsDevice here) (holding v) =
      Some ((noCreation,
             Some (errors.Wrapped (errors.Fresh "cannot get required resource for UserDataRef")
                                  "invalid resource kind")), s') /\
    calls s' = [] /\ world s' = 0.
Proof.
  intros v. split; [reflexivity |].
  refine (proj2 (Create_rejects_unknown_kind (pkg quiet) (scripted quiet) here (holding v) v
                   (userDataRef "Pod" "" true) eq_refl eq_refl _ _));
    discriminate.
Defined.

(** The ConfigMap lacks the key: the context of the error that Create
    returns is none of the package's constants, and it changes with the
    key. *)
Lemma Create_error_context_is_formatted :
  let noKey := withConfigMap (∅, None) quiet in
  (exists r err s',
     Create (pkg noKey) (scripted noKey) (IsDevice here)
       (holding (aDevice (Some (userDataRef "ConfigMap" "" false)) None)) = Some ((r, Some err), s') /\
     errors.context err = Some ("could not find UserDataRef key " +:+ quote "cloud-init") /\
     ~ staticallyWrapped err) /\
  (exists r err s',
     Create (pkg noKey) (scripted noKey) (IsDevice here)
       (holding (aDevice (Some (userDataRef "ConfigMap" "user-data" false)) None)) = Some ((r, Some err), s') /\
     errors.context err = Some ("could not find UserDataRef key " +:+ quote "user-data")).
Proof.
  intros noKey. split.
  - eexists _, _, _. split; [vm_compute; reflexivity |]. split; [reflexivity |].
    intros (cause & msg & Heq & Hin). injection Heq as _ <-.
    vm_compute in Hin. decompose [or] Hin; discriminate || contradiction.
  - eexists _, _, _. split; [vm_compute; reflexivity |]. reflexivity.
Qed.

(** The provider no longer knows the device. *)
Lemma Delete_ignores_not_found_witness :
  let gone := withDelete (status 404) quiet in
  objects (holding plain) !! here = Some plain /\
  client_Delete (client (scripted gone)) "dev-1" false 0 = (status 404, 1) /\
  IsNotFound (pkg gone) (status 404) = true /\
  exists s', Delete (pkg gone) (scripted gone) (IsDevice here) (holding plain) = Some (None, s').
Proof.
  intros gone. split; [reflexivity |]. split; [reflexivity |]. split; [reflexivity |].
  eexists.
  refine (proj1 (Delete_ignores_not_found (pkg gone) (scripted gone) here (holding plain) plain
                   (status 404) 1 eq_refl eq_refl) _).
  right. reflexivity.
Defined.



(** The ConfigMap lacks the key: Create stops before it calls the client. *)
Lemma Create_stops_when_resolve_fails_witness :
  let noKey := withConfigMap (∅, None) quiet in
  let v := aDevice (Some (userDataRef "ConfigMap" "" false)) None in
  exists err s2,
    Create (pkg noKey) (scripted noKey) (IsDevice here) (holding v) =
      Some ((noCreation, Some err), s2) /\
    calls s2 = [KubeGet "ConfigMap" {| nsnName := "boot"; nsnNamespace := "default" |}] /\
    exists v', objects s2 !! here = Some v' /\
      objectMeta v' = objectMeta v /\ AtProvider (Status v') = AtProvider (Status v).
Proof.
  intros noKey v.
  destruct ((modify here (setCondition (pkg noKey) Creating);; _ ← Device_DeepCopy here;
             resolveUserDataRefs (pkg noKey) (scripted noKey) here) (holding v))
    as [[[u [err |]] s2] |] eqn:Hrun; try (vm_compute in Hrun; discriminate Hrun).
  destruct (Create_stops_when_resolve_fails (pkg noKey) (scripted noKey) here (holding v) v
              (userDataRef "ConfigMap" "" false) u err s2 eq_refl eq_refl Hrun)
    as (Hcreate & _ & v' & Hv' & _ & Hmeta & Hat).
  exists err, s2. split; [exact Hcreate |]. split.
  - vm_compute in Hrun. injection Hrun as _ _ <-. reflexivity.
  - exists v'. auto.
Defined.
(** * The further statements at concrete scenarios *)

(** Tracking the usage is refused: Connect stops there.  The connecter's
    own constructor fails: Connect returns an external client all the
    same. *)
Lemma Connect_stops_at_first_failure_witness :
  let refused := aConnecter quiet (status 403) None in
  let broken := aConnecter quiet None (Some (status 401)) in
  Connect (pkg quiet) refused (IsDevice here) (holding plain) =
    Some ((None, Some (errors.Wrapped (errors.Foreign 403) errTrackPCUsage)),
          {| world := 1; objects := {[ here := plain ]}; calls := [] |}) /\
  Connect (pkg quiet) broken (IsDevice here) (holding plain) =
    Some ((Some (scripted quiet), Some (errors.Wrapped (errors.Foreign 401) errNewClient)),
          {| world := 3; objects := {[ here := plain ]}; calls := [] |}).
Proof.
  intros refused broken. split.
  - exact (proj1 (Connect_stops_at_first_failure (pkg quiet) refused here (holding plain) plain
                    (status 403) 1 eq_refl eq_refl) _ eq_refl).
  - exact (proj2 (proj2 (Connect_stops_at_first_failure (pkg quiet) broken here (holding plain)
                           plain None 1 eq_refl eq_refl) eq_refl (Some tt) None 2 eq_refl)
             eq_refl (client (scripted quiet)) (status 401) 3 eq_refl).
Defined.

(** The connecter's own constructor fails, and tracking the usage is
    refused. *)
Lemma Connect_nil_external_has_error_witness :
  let broken := aConnecter quiet None (Some (status 401)) in
  let refused := aConnecter quiet (status 403) None in
  (exists ex err s',
     Connect (pkg quiet) broken (IsDevice here) (holding plain) = Some ((Some ex, err), s') /\
     kube ex = connecter_kube broken) /\
  (exists err s',
     Connect (pkg quiet) refused (IsDevice here) (holding plain) = Some ((None, err), s') /\
     err <> None).
Proof.
  intros broken refused. split.
  - destruct (Connect (pkg quiet) broken (IsDevice here) (holding plain))
      as [[[[ex |] err] s'] |] eqn:Hrun; try (vm_compute in Hrun; discriminate Hrun).
    destruct (Connect_nil_external_has_error (pkg quiet) broken (IsDevice here) (holding plain) s'
                (Some ex) err Hrun) as (_ & Hex).
    exists ex, err, s'. split; [reflexivity | exact (proj1 (Hex ex eq_refl))].
  - destruct (Connect (pkg quiet) refused (IsDevice here) (holding plain))
      as [[[[ex |] err] s'] |] eqn:Hrun; try (vm_compute in Hrun; discriminate Hrun).
    destruct (Connect_nil_external_has_error (pkg quiet) refused (IsDevice here) (holding plain) s'
                None err Hrun) as (Hnil & _).
    exists err, s'. split; [reflexivity |].
    destruct (Hnil eq_refl) as [-> | (cause & [-> | ->])]; discriminate.
Defined.

(** Delete of a resource of another kind, and Update of a Device that the
    provider fails to return. *)
Lemma errNotDevice_only_for_other_kinds_witness :
  Delete (pkg quiet) (scripted quiet) (@IsOther types tt) (holding plain) =
    Some (Some (errors.Fresh errNotDevice), holding plain) /\
  exists r cause msg s',
    Update (pkg quiet) (scripted (withGet (None, status 500) quiet)) (IsDevice here) (holding plain) =
      Some ((r, Some (errors.Wrapped cause msg)), s').
Proof.
  destruct (errNotDevice_only_for_other_kinds (pkg quiet)) as [Hother Hdevice].
  split.
  - exact (proj2 (proj2 (proj2 (proj2
             (Hother (aConnecter quiet None None) (scripted quiet) tt (holding plain)))))).
  - destruct (Update (pkg quiet) (scripted (withGet (None, status 500) quiet)) (IsDevice here)
                (holding plain)) as [[[r [err |]] s'] |] eqn:Hrun;
      try (vm_compute in Hrun; discriminate Hrun).
    destruct (Hdevice here err (holding plain) s'
                (or_intror (or_intror (or_intror (or_introl
                   (ex_intro _ (scripted (withGet (None, status 500) quiet))
                      (ex_intro _ r Hrun))))))) as (cause & msg & ->).
    exists r, cause, msg, s'. reflexivity.
Defined.

(** The API server refuses the write of the late-initialized parameters:
    the observation that comes with the error is empty. *)
Lemma errors_come_with_zero_results_witness :
  exists r err s',
    Observe (pkg conflict) (scripted conflict) (IsDevice here) (holding plain) =
      Some ((r, Some err), s') /\
    r = {| ResourceExists := false; ResourceUpToDate := false; observationDetails := None |}.
Proof.
  destruct (Observe (pkg conflict) (scripted conflict) (IsDevice here) (holding plain))
    as [[[r [err |]] s'] |] eqn:Hrun; try (vm_compute in Hrun; discriminate Hrun).
  exists r, err, s'. split; [reflexivity |].
  exact (proj1 (errors_come_with_zero_results (pkg conflict) (IsDevice here) (holding plain) s')
           (scripted conflict) r err Hrun).
Defined.

(** The provider knows a setting that the Device lacks, and the API server
    accepts it: one read, one write. *)
Lemma Observe_reads_once_writes_at_most_once_witness :
  let learning := withLateInitialized 7 quiet in
  exists r s' x,
    Observe (pkg learning) (scripted learning) (IsDevice here) (holding plain) = Some (r, s') /\
    calls s' = [ClientGet "dev-1"; KubeUpdate x] /\
    parametersRest (ForProvider (Spec x)) = 7.
Proof.
  intros learning.
  destruct (Observe (pkg learning) (scripted learning) (IsDevice here) (holding plain))
    as [[r s'] |] eqn:Hrun; [| vm_compute in Hrun; discriminate Hrun].
  destruct (Observe_reads_once_writes_at_most_once (pkg learning) (scripted learning) here
              (holding plain) s' plain r eq_refl Hrun)
    as (device & err & w1 & Hget & [Hcalls | (_ & _ & _ & Hcalls)] & _).
  - exfalso. vm_compute in Hrun. injection Hrun as _ <-. discriminate Hcalls.
  - eexists r, s', _. split; [reflexivity |]. split; [exact Hcalls | reflexivity].
Defined.

(** The API server refuses the write. *)
Lemma Observe_stops_when_write_back_fails_witness :
  exists x,
    parametersRest (ForProvider (Spec x)) = 1 /\
    Observe (pkg conflict) (scripted conflict) (IsDevice here) (holding plain) =
      Some (({| ResourceExists := false; ResourceUpToDate := false; observationDetails := None |},
             Some (errors.Wrapped (errors.Foreign 409) errManagedUpdateFailed)),
            {| world := 2; objects := <[here := x]> {[ here := plain ]};
               calls := [ClientGet "dev-1"; KubeUpdate x] |}).
Proof.
  eexists. split; [| refine (Observe_stops_when_write_back_fails (pkg conflict) (scripted conflict)
                              here (holding plain) plain (Some ("dev-1", "active")) 1 2 _
                              (errors.Foreign 409) eq_refl eq_refl eq_refl _ eq_refl);
                     discriminate].
  reflexivity.
Defined.

(** The provider returns no device and no error: GenerateObservation fails,
    and the Device holds the empty observation that came with the error. *)
Lemma Observe_stores_the_failed_observation_witness :
  let vanished := withGet (None, None) quiet in
  let started := setAtProvider {| ID := "dev-1"; State := "active"; observationRest := tt |} plain in
  exists o s' v',
    Observe (pkg vanished) (scripted vanished) (IsDevice here) (holding started) =
      Some ((o, Some (errors.Wrapped (errors.Foreign 0) errGenObservation)), s') /\
    objects s' !! here = Some v' /\
    AtProvider (Status v') = {| ID := ""; State := ""; observationRest := tt |}.
Proof.
  intros vanished started.
  assert (Hrun : { r | Observe (pkg vanished) (scripted vanished) (IsDevice here) (holding started) =
                       Some ((r.1, Some (errors.Wrapped (errors.Foreign 0) errGenObservation)), r.2) }).
  { eexists (_, _). cbn [fst snd]. vm_compute. reflexivity. }
  destruct Hrun as [[o s'] Hrun]. cbn [fst snd] in Hrun.
  destruct (Observe_stores_the_failed_observation (pkg vanished) (scripted vanished) here
              (holding started) s' o (errors.Foreign 0) Hrun)
    as (v0 & device & w1 & obs & v' & Hv0 & Hget & Hgen & Hv' & Hat & _).
  injection Hget as <- _. injection Hgen as <-.
  exists o, s', v'. split; [exact Hrun |]. split; [exact Hv' | exact Hat].
Defined.

(** An optional reference to a ConfigMap that cannot be read. *)
Lemma resolveUserDataRefs_optional_never_fails_witness :
  let unreadable := withConfigMap (∅, status 404) quiet in
  let v := aDevice (Some (userDataRef "ConfigMap" "" true)) None in
  resolveUserDataRefs (pkg unreadable) (scripted unreadable) here (holding v) =
    Some (("", None),
          {| world := 1; objects := {[ here := v ]};
             calls := [KubeGet "ConfigMap" {| nsnName := "boot"; nsnNamespace := "default" |}] |}).
Proof.
  intros unreadable v.
  exact (proj1 (resolveUserDataRefs_optional_never_fails (pkg unreadable) (scripted unreadable)
                  here (holding v) v (userDataRef "ConfigMap" "" true) eq_refl eq_refl eq_refl)
           eq_refl ∅ (status 404) 1 eq_refl).
Defined.

(** A required reference to a Secret that holds a script under the default
    key, and one to a Secret that cannot be read. *)
Lemma resolveUserDataRefs_required_witness :
  let script := withSecret ({[ "cloud-init" := list_byte_of_string "#!/bin/sh" ]}, None) quiet in
  let unreadable := withSecret (∅, status 403) quiet in
  let v := aDevice (Some (userDataRef "Secret" "" false)) None in
  (exists s', resolveUserDataRefs (pkg script) (scripted script) here (holding v) =
                Some (("#!/bin/sh", None), s')) /\
  (exists s', resolveUserDataRefs (pkg unreadable) (scripted unreadable) here (holding v) =
                Some (("", Some (errors.Wrapped (errors.Foreign 403) errGetUserDataRef)), s')).
Proof.
  intros script unreadable v. split; eexists.
  - exact (proj2 (resolveUserDataRefs_required (pkg script) (scripted script)
                    here (holding v) v (userDataRef "Secret" "" false) eq_refl eq_refl eq_refl)
             eq_refl {[ "cloud-init" := list_byte_of_string "#!/bin/sh" ]} None 1 eq_refl).
  - exact (proj2 (resolveUserDataRefs_required (pkg unreadable) (scripted unreadable)
                    here (holding v) v (userDataRef "Secret" "" false) eq_refl eq_refl eq_refl)
             eq_refl ∅ (status 403) 1 eq_refl).
Defined.

(** A reference without a Key and one that names "cloud-init". *)
Lemma resolveUserDataRefs_default_key_witness :
  let unnamed := aDevice (Some (userDataRef "ConfigMap" "" false)) None in
  let named := aDevice (Some (userDataRef "ConfigMap" "cloud-init" false)) None in
  outcome (resolveUserDataRefs (pkg quiet) (scripted quiet) here (holding unnamed)) =
  outcome (resolveUserDataRefs (pkg quiet) (scripted quiet) here (holding named)) /\
  outcome (resolveUserDataRefs (pkg quiet) (scripted quiet) here (holding named)) =
    Some (("#cloud-config", None), 1,
          [KubeGet "ConfigMap" {| nsnName := "boot"; nsnNamespace := "default" |}]).
Proof.
  intros unnamed named. split.
  - exact (resolveUserDataRefs_default_key (pkg quiet) (scripted quiet) here
             (holding unnamed) (holding named) unnamed named (userDataRef "ConfigMap" "" false)
             eq_refl eq_refl eq_refl eq_refl eq_refl eq_refl eq_refl).
  - vm_compute. reflexivity.
Defined.

(** The provider creates the device "dev-7". *)
Lemma Create_records_the_provider_ID_witness :
  let created := withCreate (Some ("dev-7", "queued"), None) quiet in
  exists r s' x',
    Create (pkg created) (scripted created) (IsDevice here) (holding plain) = Some ((r, None), s') /\
    objects s' !! here = Some x' /\
    objectMeta x' = "dev-7" /\
    ID (AtProvider (Status x')) = "dev-7" /\
    statusResourceStatus (Status x') = [Creating].
Proof.
  intros created.
  destruct (Create (pkg created) (scripted created) (IsDevice here) (holding plain))
    as [[[r [err |]] s'] |] eqn:Hrun; try (vm_compute in Hrun; discriminate Hrun).
  destruct (Create_records_the_provider_ID (pkg created) (scripted created) here (holding plain)
              s' plain r eq_refl Hrun)
    as (req & dev & w & w' & x' & reads & Hcreate & Hupd & Hx' & _).
  cbn in Hcreate. injection Hcreate as <- _.
  cbn in Hupd. injection Hupd as <- _.
  eexists r, s', _. split; [reflexivity |]. split; [exact Hx' |]. repeat split.
Defined.

(** The provider refuses to create the device. *)
Lemma Create_failure_records_nothing_witness :
  let refused := withCreate (None, status 422) quiet in
  exists r s',
    Create (pkg refused) (scripted refused) (IsDevice here) (holding plain) =
      Some ((r, Some (errors.Wrapped (errors.Foreign 422) errCreateDevice)), s') /\
    objects s' !! here = Some (setCondition (pkg refused) Creating plain) /\
    forall x, ~ In (KubeUpdate x) (calls s').
Proof.
  intros refused.
  assert (Hrun : { r | Create (pkg refused) (scripted refused) (IsDevice here) (holding plain) =
                       Some ((r.1, Some (errors.Wrapped (errors.Foreign 422) errCreateDevice)), r.2) }).
  { eexists (_, _). cbn [fst snd]. vm_compute. reflexivity. }
  destruct Hrun as [[r s'] Hrun]. cbn [fst snd] in Hrun.
  destruct (Create_failure_records_nothing (pkg refused) (scripted refused) here (holding plain)
              s' plain r (errors.Foreign 422) eq_refl Hrun)
    as (Hd & req & w & device & reads & _ & Hcalls & Hreads).
  exists r, s'. split; [exact Hrun |]. split; [exact Hd |].
  intros x Hin. rewrite Hcalls in Hin. cbn [calls holding app] in Hin.
  apply in_app_or in Hin as [Hin | [Hin | [Hin | []]]]; try discriminate Hin.
  destruct (Hreads _ Hin) as (kind & nsn & Heq). discriminate Heq.
Defined.

(** The client returns neither a device nor an error. *)
Lemma Create_panics_without_device_witness :
  let silent := withCreate (None, None) quiet in
  Create (pkg silent) (scripted silent) (IsDevice here) (holding plain) = None.
Proof.
  intros silent.
  exact (proj2 (Create_panics_without_device (pkg silent) (scripted silent) here (holding plain)
                  plain eq_refl) eq_refl 1 eq_refl).
Defined.

(** A Device without a reference, in the quiet script. *)
Lemma Create_without_reference_witness :
  exists r s' rest,
    Create (pkg quiet) (scripted quiet) (IsDevice here) (holding plain) = Some (r, s') /\
    calls s' = [ClientGetProjectID "projectID"; ClientCreate (None, "projectID")] ++ rest /\
    (rest = [] \/ exists x, rest = [KubeUpdate x]).
Proof.
  destruct (Create (pkg quiet) (scripted quiet) (IsDevice here) (holding plain))
    as [[r s'] |] eqn:Hrun; [| vm_compute in Hrun; discriminate Hrun].
  destruct (Create_without_reference (pkg quiet) (scripted quiet) here (holding plain) s' plain r
              eq_refl eq_refl Hrun) as (rest & Hcalls & Hrest).
  exists r, s', rest. split; [reflexivity |]. split; [exact Hcalls | exact Hrest].
Defined.


(** * Properties of the generated deep copies *)

Section DeepCopyFacts.
Import v1alpha1.
Context `{imports : Imports}.

Local Abbreviation Heap := (gmap loc Cell).

(** ** Running heap operations *)

Lemma op_bind {A B} (m : Op A) (f : A -> Op B) (h : Heap) :
  (m ≫= f) h = match m h with Some (a, h') => f a h' | None => None end.
Proof. reflexivity. Qed.

Lemma op_read (l : loc) (c : Cell) (h : Heap) :
  h !! l = Some c -> read l h = Some (c, h).
Proof. intros Hl. unfold read. now rewrite Hl. Qed.

Lemma fresh_unused (h : Heap) : h !! fresh (dom h) = None.
Proof. apply not_elem_of_dom_1, is_fresh. Qed.

Lemma used_not_fresh (h : Heap) (l : loc) (c : Cell) :
  h !! l = Some c -> fresh (dom h) <> l.
Proof. intros Hl Heq. rewrite <- Heq, fresh_unused in Hl. discriminate Hl. Qed.

(** ** Snapshots and the heap *)

Lemma stringAt_weaken (h h' : Heap) (p : option loc) t :
  stringAt h p = Some t -> h ⊆ h' -> stringAt h' p = Some t.
Proof.
  intros Hat Hsub. destruct p as [l |]; [| exact Hat]. cbn in *.
  destruct (h !! l) as [c |] eqn:Hl; [| discriminate Hat].
  now rewrite (lookup_weaken h h' l c Hl Hsub).
Qed.

Lemma stringAt_agree (h h' : Heap) (p : option loc) :
  (forall l, p = Some l -> h' !! l = h !! l) -> stringAt h' p = stringAt h p.
Proof.
  intros Hsame. destruct p as [l |]; [| reflexivity]. cbn.
  now rewrite (Hsame l eq_refl).
Qed.

Lemma snapshotParameters_agree (h h' : Heap) (a : VirtualNetworkParameters) :
  (forall l, l ∈ pointersParameters a -> h' !! l = h !! l) ->
  snapshotParameters h' a = snapshotParameters h a.
Proof.
  intros Hsame. unfold snapshotParameters.
  rewrite (stringAt_agree h h'); [reflexivity |].
  intros l Hl. apply Hsame. unfold pointersParameters. rewrite Hl. set_solver.
Qed.

Lemma snapshotParameters_weaken (h h' : Heap) (a : VirtualNetworkParameters) x :
  snapshotParameters h a = Some x -> h ⊆ h' -> snapshotParameters h' a = Some x.
Proof.
  unfold snapshotParameters. intros Hsnap Hsub.
  destruct (stringAt h (Description a)) as [t |] eqn:Hat; [| discriminate Hsnap].
  now rewrite (stringAt_weaken h h' _ t Hat Hsub).
Qed.

(** ** DeepCopyInto *)

Lemma Parameters_DeepCopyInto_spec (h : Heap) (a : VirtualNetworkParameters) :
  is_Some (snapshotParameters h a) ->
  exists b h',
    VirtualNetworkParameters_DeepCopyInto a h = Some (b, h') /\
    h ⊆ h' /\
    snapshotParameters h' b = snapshotParameters h a /\
    (forall l, l ∈ pointersParameters b -> h !! l = None).
Proof.
  intros [x Hsnap]. destruct a as [rest [p |]]; unfold VirtualNetworkParameters_DeepCopyInto;
    cbn [Description parametersRest].
  - unfold snapshotParameters in Hsnap. cbn in Hsnap.
    destruct (h !! p) as [[s | | | | | | |] |] eqn:Hp; try discriminate Hsnap.
    set (q := fresh (dom h)).
    assert (Hq : h !! q = None) by apply fresh_unused.
    assert (Hne : q <> p) by (now apply (used_not_fresh h p (StringCell s))).
    exists {| parametersRest := rest; Description := Some q |}, (<[q := StringCell s]> h).
    split; [| split; [| split]].
    + rewrite op_bind. unfold new at 1. fold q.
      rewrite op_bind. unfold readString. rewrite op_bind.
      erewrite op_read by (rewrite lookup_insert_ne by done; exact Hp).
      cbn. unfold write, mbind, Op_bind, mret, Op_ret. rewrite insert_insert_eq. reflexivity.
    + now apply insert_subseteq.
    + unfold snapshotParameters. cbn. now rewrite lookup_insert_eq, Hp.
    + intros l Hl. unfold pointersParameters in Hl. cbn in Hl.
      apply list_elem_of_singleton in Hl. now subst.
  - exists {| parametersRest := rest; Description := None |}, h.
    split; [reflexivity |]. split; [reflexivity |]. split; [reflexivity |].
    intros l Hl. unfold pointersParameters in Hl. cbn in Hl. set_solver.
Qed.

Lemma snapshotSpec_weaken (h h' : Heap) (a : VirtualNetworkSpec) x :
  snapshotSpec h a = Some x -> h ⊆ h' -> snapshotSpec h' a = Some x.
Proof.
  unfold snapshotSpec. intros Hsnap Hsub.
  destruct (snapshotParameters h (ForProvider a)) as [fp |] eqn:Hfp; [| discriminate Hsnap].
  now rewrite (snapshotParameters_weaken h h' _ fp Hfp Hsub).
Qed.

Lemma snapshotNetwork_weaken (h h' : Heap) (v : VirtualNetwork) x :
  snapshotNetwork h v = Some x -> h ⊆ h' -> snapshotNetwork h' v = Some x.
Proof.
  unfold snapshotNetwork. intros Hsnap Hsub.
  destruct (snapshotSpec h (Spec v)) as [sp |] eqn:Hsp; [| discriminate Hsnap].
  now rewrite (snapshotSpec_weaken h h' _ sp Hsp Hsub).
Qed.

Lemma snapshotNetwork_agree (h h' : Heap) (v : VirtualNetwork) :
  (forall l, l ∈ pointersNetwork v -> h' !! l = h !! l) ->
  snapshotNetwork h' v = snapshotNetwork h v.
Proof.
  intros Hsame. unfold snapshotNetwork, snapshotSpec.
  now rewrite (snapshotParameters_agree h h' _ Hsame).
Qed.

Lemma mapM_agree {A B} (f g : A -> option B) (xs : list A) :
  (forall x, x ∈ xs -> f x = g x) -> mapM f xs = mapM g xs.
Proof.
  induction xs as [| x xs IH]; intros Hfg; [reflexivity |]. cbn.
  rewrite (Hfg x) by set_solver. rewrite IH; [reflexivity |].
  intros y Hy. apply Hfg. set_solver.
Qed.

Lemma elements_weaken (h h' : Heap) (sl : Slice) xs :
  elements h sl = Some xs -> h ⊆ h' -> elements h' sl = Some xs.
Proof.
  unfold elements. intros Hel Hsub.
  destruct (h !! array sl) as [c |] eqn:Ha; [| discriminate Hel].
  now rewrite (lookup_weaken h h' _ c Ha Hsub).
Qed.

Lemma snapshotList_weaken (h h' : Heap) (v : VirtualNetworkList) x :
  snapshotList h v = Some x -> h ⊆ h' -> snapshotList h' v = Some x.
Proof.
  unfold snapshotList, snapshotItems. intros Hsnap Hsub.
  destruct (Items v) as [sl |]; [| exact Hsnap].
  destruct (elements h sl) as [xs |] eqn:Hel; [| discriminate Hsnap].
  rewrite (elements_weaken h h' sl xs Hel Hsub). cbn in *.
  destruct (mapM (snapshotNetwork h) xs) as [ys |] eqn:Hys; [| discriminate Hsnap].
  assert (Hys' : mapM (snapshotNetwork h') xs = Some ys).
  { apply mapM_Some. apply mapM_Some in Hys.
    eapply Forall2_impl; [exact Hys |]. cbn. intros a b Hab.
    now apply (snapshotNetwork_weaken h h'). }
  now rewrite Hys'.
Qed.

Lemma snapshotList_agree (h h' : Heap) (v : VirtualNetworkList) :
  (forall l, l ∈ pointersList h v -> h' !! l = h !! l) ->
  snapshotList h' v = snapshotList h v /\ pointersList h' v = pointersList h v.
Proof.
  unfold snapshotList, snapshotItems, pointersList. intros Hsame.
  destruct (Items v) as [sl |]; [| split; reflexivity].
  assert (Hel : elements h' sl = elements h sl).
  { unfold elements. rewrite (Hsame (array sl)) by set_solver. reflexivity. }
  rewrite Hel. split; [| reflexivity].
  destruct (elements h sl) as [xs |]; [| reflexivity]. cbn.
  rewrite (mapM_agree (snapshotNetwork h') (snapshotNetwork h) xs); [reflexivity |].
  intros x Hx. apply snapshotNetwork_agree.
  intros l Hl. apply Hsame. cbn. apply list_elem_of_further.
  apply list_elem_of_bind. exists x. split; assumption.
Qed.

(** ** The common tail of every DeepCopy *)

Lemma deepCopy_tail {V S : Type} (cell : V -> Cell) (zero : V) (into : V -> Op V)
    (snap : Heap -> V -> option S) (ptrs : Heap -> V -> list loc) :
  (forall h h' v x, snap h v = Some x -> h ⊆ h' -> snap h' v = Some x) ->
  (forall h h' v, (forall l, l ∈ ptrs h v -> h' !! l = h !! l) ->
     snap h' v = snap h v /\ ptrs h' v = ptrs h v) ->
  (forall h v, is_Some (snap h v) ->
     exists v' h', into v h = Some (v', h') /\ h ⊆ h' /\ snap h' v' = snap h v /\
       (forall l, l ∈ ptrs h' v' -> h !! l = None)) ->
  forall h v, is_Some (snap h v) ->
  exists h' v',
    (v' ← into v; write (fresh (dom h)) (cell v');; mret (Some (fresh (dom h))))
      (<[fresh (dom h) := cell zero]> h) = Some (Some (fresh (dom h)), h') /\
    h !! fresh (dom h) = None /\
    h ⊆ h' /\
    h' !! fresh (dom h) = Some (cell v') /\
    snap h' v' = snap h v /\
    (forall l, l ∈ ptrs h' v' -> h !! l = None).
Proof.
  intros Hweaken Hagree Hinto h v [x Hsnap].
  set (q := fresh (dom h)).
  assert (Hq : h !! q = None) by apply fresh_unused.
  set (h1 := <[q := cell zero]> h).
  assert (Hsub1 : h ⊆ h1) by (now apply insert_subseteq).
  assert (Hsnap1 : snap h1 v = Some x) by (now apply (Hweaken h h1)).
  destruct (Hinto h1 v) as (v' & h2 & Hrun & Hsub2 & Hsame & Hnew); [now rewrite Hsnap1 |].
  assert (Hkeep : forall l, l ∈ ptrs h2 v' -> <[q := cell v']> h2 !! l = h2 !! l).
  { intros l Hl. apply lookup_insert_ne. intros <-.
    specialize (Hnew q Hl). unfold h1 in Hnew. rewrite lookup_insert_eq in Hnew.
    discriminate Hnew. }
  destruct (Hagree h2 (<[q := cell v']> h2) v' Hkeep) as [Hsnap3 Hptrs3].
  exists (<[q := cell v']> h2), v'. repeat split.
  - rewrite op_bind, Hrun. reflexivity.
  - exact Hq.
  - apply insert_subseteq_r; [exact Hq |]. now transitivity h1.
  - apply lookup_insert_eq.
  - now rewrite Hsnap3, Hsame, Hsnap1.
  - intros l Hl. rewrite Hptrs3 in Hl.
    apply (lookup_weaken_None h h1); [now apply Hnew | exact Hsub1].
Qed.

Section Faithful.
Hypothesis faithful : faithfulImports.

Lemma Observation_DeepCopyInto_spec (h : Heap) (a : VirtualNetworkObservation) :
  VirtualNetworkObservation_DeepCopyInto a h = Some (a, h).
Proof.
  destruct faithful as (_ & _ & _ & _ & Htime).
  destruct a as [rest [t |]]; unfold VirtualNetworkObservation_DeepCopyInto; cbn.
  - now rewrite Htime.
  - reflexivity.
Qed.

Lemma Status_DeepCopyInto_spec (h : Heap) (a : VirtualNetworkStatus) :
  VirtualNetworkStatus_DeepCopyInto a h = Some (a, h).
Proof.
  destruct faithful as (_ & _ & _ & Hstatus & _).
  destruct a as [rs ap]. unfold VirtualNetworkStatus_DeepCopyInto.
  rewrite op_bind, Observation_DeepCopyInto_spec. cbn. now rewrite Hstatus.
Qed.

Lemma Spec_DeepCopyInto_spec (h : Heap) (a : VirtualNetworkSpec) :
  is_Some (snapshotSpec h a) ->
  exists b h',
    VirtualNetworkSpec_DeepCopyInto a h = Some (b, h') /\
    h ⊆ h' /\
    snapshotSpec h' b = snapshotSpec h a /\
    (forall l, l ∈ pointersParameters (ForProvider b) -> h !! l = None).
Proof.
  destruct faithful as (_ & _ & Hspec & _ & _).
  intros [x Hsnap]. destruct a as [rs fp]. unfold snapshotSpec in Hsnap. cbn in Hsnap.
  destruct (snapshotParameters h fp) as [y |] eqn:Hfp; [| discriminate Hsnap].
  destruct (Parameters_DeepCopyInto_spec h fp) as (fp' & h' & Hrun & Hsub & Hsame & Hnew);
    [now rewrite Hfp |].
  exists {| specResourceSpec := rs; ForProvider := fp' |}, h'.
  split; [| split; [exact Hsub | split; [| exact Hnew]]].
  - unfold VirtualNetworkSpec_DeepCopyInto. rewrite op_bind. cbn [ForProvider specResourceSpec].
    rewrite Hrun, Hspec. reflexivity.
  - unfold snapshotSpec. cbn. now rewrite Hsame.
Qed.

Lemma Network_DeepCopyInto_spec (h : Heap) (v : VirtualNetwork) :
  is_Some (snapshotNetwork h v) ->
  exists v' h',
    VirtualNetwork_DeepCopyInto v h = Some (v', h') /\
    h ⊆ h' /\
    snapshotNetwork h' v' = snapshotNetwork h v /\
    (forall l, l ∈ pointersNetwork v' -> h !! l = None).
Proof.
  pose proof faithful as (Hmeta & _ & _ & _ & _).
  intros [x Hsnap]. destruct v as [tm om sp st]. unfold snapshotNetwork in Hsnap. cbn in Hsnap.
  destruct (snapshotSpec h sp) as [y |] eqn:Hsp; [| discriminate Hsnap].
  destruct (Spec_DeepCopyInto_spec h sp) as (sp' & h' & Hrun & Hsub & Hsame & Hnew);
    [now rewrite Hsp |].
  exists {| typeMeta := tm; objectMeta := om; Spec := sp'; Status := st |}, h'.
  split; [| split; [exact Hsub | split; [| exact Hnew]]].
  - unfold VirtualNetwork_DeepCopyInto. rewrite op_bind. cbn [Spec Status typeMeta objectMeta].
    rewrite Hrun. rewrite op_bind, Status_DeepCopyInto_spec, Hmeta. reflexivity.
  - unfold snapshotNetwork. cbn. now rewrite Hsame.
Qed.

(** ** The loop over the items of a list *)

Lemma op_index (h : Heap) (sl : Slice) (arr : list VirtualNetwork) (i : nat) (v : VirtualNetwork) :
  h !! array sl = Some (ArrayCell arr) ->
  (i < len sl)%nat ->
  arr !! (offset sl + i)%nat = Some v ->
  index sl i h = Some (v, h).
Proof.
  intros Ha Hi Hv. unfold index, readArray.
  rewrite !op_bind, (op_read _ _ h Ha). cbn.
  rewrite decide_True by exact Hi. now rewrite Hv.
Qed.

Lemma op_setIndex (h : Heap) (sl : Slice) (arr : list VirtualNetwork) (i : nat) (v : VirtualNetwork) :
  h !! array sl = Some (ArrayCell arr) ->
  (i < len sl)%nat ->
  (offset sl + i < length arr)%nat ->
  setIndex sl i v h =
    Some (tt, <[array sl := ArrayCell (<[(offset sl + i)%nat := v]> arr)]> h).
Proof.
  intros Ha Hi Hlen. unfold setIndex, readArray.
  rewrite !op_bind, (op_read _ _ h Ha). cbn.
  rewrite decide_True by exact Hi. rewrite decide_True by exact Hlen. reflexivity.
Qed.

Lemma copyItems_spec (h0 : Heap) (sl : Slice) (arr xs : list VirtualNetwork) (a : loc) :
  h0 !! array sl = Some (ArrayCell arr) ->
  (offset sl + len sl <= length arr)%nat ->
  xs = take (len sl) (drop (offset sl) arr) ->
  (forall u, u ∈ xs -> is_Some (snapshotNetwork h0 u)) ->
  h0 !! a = None ->
  forall k i h ys,
    (i + k = len sl)%nat ->
    h0 ⊆ h ->
    h !! a = Some (ArrayCell ys) ->
    length ys = len sl ->
    (forall j u, (j < i)%nat -> xs !! j = Some u ->
       exists v, ys !! j = Some v /\ snapshotNetwork h v = snapshotNetwork h0 u /\
         forall l, l ∈ pointersNetwork v -> h0 !! l = None /\ l <> a) ->
    exists h' ys',
      copyItems sl {| array := a; offset := 0; len := len sl |} i k h = Some (tt, h') /\
      h0 ⊆ h' /\
      h' !! a = Some (ArrayCell ys') /\
      length ys' = len sl /\
      (forall j u, xs !! j = Some u ->
         exists v, ys' !! j = Some v /\ snapshotNetwork h' v = snapshotNetwork h0 u /\
           forall l, l ∈ pointersNetwork v -> h0 !! l = None /\ l <> a).
Proof.
  intros Harr Hbound Hxs Hsnaps Ha.
  assert (Hlen : length xs = len sl).
  { rewrite Hxs, length_take, length_drop. lia. }
  induction k as [| k IH]; intros i h ys Hik Hsub Hya Hylen Hinv.
  - exists h, ys. split; [reflexivity |]. split; [exact Hsub |]. split; [exact Hya |].
    split; [exact Hylen |].
    intros j u Hj. apply (Hinv j u); [| exact Hj].
    apply lookup_lt_Some in Hj. lia.
  - assert (Hi : (i < len sl)%nat) by lia.
    destruct (lookup_lt_is_Some_2 xs i) as [u Hu]; [lia |].
    assert (Hau : arr !! (offset sl + i)%nat = Some u).
    { rewrite Hxs, lookup_take_lt, lookup_drop in Hu by exact Hi. exact Hu. }
    destruct (Hsnaps u) as [x Hx]; [now apply list_elem_of_lookup_2 with i |].
    destruct (Network_DeepCopyInto_spec h u) as (v' & h1 & Hrun & Hsub1 & Hsame & Hnew).
    { exists x. now apply (snapshotNetwork_weaken h0 h). }
    set (sl' := {| array := a; offset := 0; len := len sl |}).
    set (ys2 := <[i := v']> ys).
    set (h2 := <[a := ArrayCell ys2]> h1).
    assert (Hstep : copyItems sl sl' i (S k) h = copyItems sl sl' (S i) k h2).
    { cbn [copyItems]. rewrite op_bind.
      rewrite (op_index h sl arr i u (lookup_weaken _ _ _ _ Harr Hsub) Hi Hau).
      rewrite op_bind, Hrun. rewrite op_bind.
      rewrite (op_setIndex h1 sl' ys i v' (lookup_weaken _ _ _ _ Hya Hsub1)); cbn; [reflexivity | lia | lia]. }
    rewrite Hstep. apply (IH (S i) h2 ys2).
    + lia.
    + apply insert_subseteq_r; [exact Ha |]. now transitivity h.
    + apply lookup_insert_eq.
    + unfold ys2. now rewrite length_insert.
    + assert (Hfresh : forall l, l ∈ pointersNetwork v' -> h0 !! l = None /\ l <> a).
      { intros l Hl. specialize (Hnew l Hl). split.
        - now apply (lookup_weaken_None h0 h).
        - intros ->. rewrite Hya in Hnew. discriminate Hnew. }
      intros j w Hj Hw. destruct (decide (j = i)) as [-> | Hne].
      * exists v'. split; [apply list_lookup_insert_eq; lia |]. split; [| exact Hfresh].
        assert (w = u) by congruence. subst w.
        rewrite (snapshotNetwork_agree h1 h2).
        -- rewrite Hsame, Hx. now apply (snapshotNetwork_weaken h0 h).
        -- intros l Hl. apply lookup_insert_ne. intros <-. now destruct (Hfresh a Hl).
      * destruct (Hinv j w) as (v & Hv & Hvsnap & Hvnew); [lia | exact Hw |].
        exists v. split; [unfold ys2; now rewrite list_lookup_insert_ne |].
        split; [| exact Hvnew].
        destruct (Hsnaps w) as [y Hy]; [now apply list_elem_of_lookup_2 with j |].
        rewrite Hy in Hvsnap |- *.
        rewrite (snapshotNetwork_agree h1 h2).
        -- now apply (snapshotNetwork_weaken h h1).
        -- intros l Hl. apply lookup_insert_ne. intros <-. now destruct (Hvnew a Hl).
Qed.

Lemma List_DeepCopyInto_spec (h : Heap) (v : VirtualNetworkList) :
  is_Some (snapshotList h v) ->
  exists v' h',
    VirtualNetworkList_DeepCopyInto v h = Some (v', h') /\
    h ⊆ h' /\
    snapshotList h' v' = snapshotList h v /\
    (forall l, l ∈ pointersList h' v' -> h !! l = None).
Proof.
  pose proof faithful as (_ & Hlm & _ & _ & _).
  intros [x Hsnap]. destruct v as [tm lm [sl |]]; unfold VirtualNetworkList_DeepCopyInto;
    cbn [Items listTypeMeta listMeta]; rewrite Hlm.
  - unfold snapshotList, snapshotItems in Hsnap. cbn [Items] in Hsnap.
    destruct (elements h sl) as [xs |] eqn:Hel; [| discriminate Hsnap]. cbn in Hsnap.
    destruct (mapM (snapshotNetwork h) xs) as [snaps |] eqn:Hsnaps; [| discriminate Hsnap].
    apply mapM_Some in Hsnaps.
    unfold elements in Hel.
    destruct (h !! array sl) as [[| arr | | | | | |] |] eqn:Harr; try discriminate Hel.
    destruct (decide (offset sl + len sl <= length arr)%nat) as [Hbound |]; [| discriminate Hel].
    injection Hel as Hxs. symmetry in Hxs.
    assert (Hlen : length xs = len sl).
    { rewrite Hxs, length_take, length_drop. lia. }
    set (a := fresh (dom h)).
    assert (Ha : h !! a = None) by apply fresh_unused.
    set (sl' := {| array := a; offset := 0; len := len sl |}).
    set (h1 := <[a := ArrayCell (replicate (len sl) zeroNetwork)]> h).
    destruct (copyItems_spec h sl arr xs a Harr Hbound Hxs) with
      (k := len sl) (i := 0%nat) (h := h1) (ys := replicate (len sl) zeroNetwork)
      as (h' & ys' & Hrun & Hsub & Hya & Hylen & Hcopies).
    { intros u Hu. apply list_elem_of_lookup in Hu as [j Hj].
      destruct (Forall2_lookup_l _ _ _ j u Hsnaps Hj) as (y & _ & Hy). now exists y. }
    { exact Ha. }
    { reflexivity. }
    { now apply insert_subseteq. }
    { apply lookup_insert_eq. }
    { apply length_replicate. }
    { intros j u Hj. lia. }
    assert (Hel' : elements h' sl' = Some ys').
    { unfold elements, sl'. cbn [array offset len]. rewrite Hya.
      rewrite decide_True by lia. rewrite drop_0, take_ge by lia. reflexivity. }
    exists {| listTypeMeta := tm; listMeta := lm; Items := Some sl' |}, h'.
    split; [| split; [exact Hsub | split]].
    + rewrite op_bind. unfold new at 1. fold a h1. cbv zeta. fold sl'. fold sl' in Hrun.
      rewrite op_bind, Hrun. reflexivity.
    + unfold snapshotList, snapshotItems. cbn [Items listTypeMeta listMeta].
      rewrite Hel'. unfold elements. rewrite Harr, decide_True by exact Hbound.
      rewrite <- Hxs. cbn.
      assert (Hsnaps' : mapM (snapshotNetwork h') ys' = Some snaps).
      { apply mapM_Some. apply Forall2_same_length_lookup. split.
        - rewrite Hylen, <- Hlen. now apply Forall2_length in Hsnaps.
        - intros j w y Hw Hy.
          destruct (lookup_lt_is_Some_2 xs j) as [u Hu].
          { apply lookup_lt_Some in Hw. lia. }
          destruct (Hcopies j u Hu) as (w' & Hw' & Hsame & _).
          assert (w' = w) by congruence. subst w'.
          rewrite Hsame.
          destruct (Forall2_lookup_l _ _ _ j u Hsnaps Hu) as (y' & Hy' & Hsnapu).
          congruence. }
      rewrite Hsnaps'. apply mapM_Some in Hsnaps. now rewrite Hsnaps.
    + intros l Hl. unfold pointersList in Hl. cbn [Items] in Hl. rewrite Hel' in Hl. cbn in Hl.
      apply elem_of_cons in Hl as [-> | Hl]; [exact Ha |].
      apply list_elem_of_bind in Hl as (w & Hl & Hw).
      apply list_elem_of_lookup in Hw as [j Hw].
      destruct (lookup_lt_is_Some_2 xs j) as [u Hu].
      { apply lookup_lt_Some in Hw. lia. }
      destruct (Hcopies j u Hu) as (w' & Hw' & _ & Hnew).
      assert (w' = w) by congruence. subst w'.
      now destruct (Hnew l Hl).
  - exists {| listTypeMeta := tm; listMeta := lm; Items := None |}, h.
    split; [reflexivity |]. split; [reflexivity |]. split; [reflexivity |].
    intros l Hl. unfold pointersList in Hl. cbn in Hl. set_solver.
Qed.

End Faithful.

(** ** DeepCopy *)

Ltac deep_copy_of cell zero into snap ptrs Hweaken Hagree Hinto :=
  split; [reflexivity |];
  let h := fresh "h" in let p := fresh "p" in let v := fresh "v" in
  let Hp := fresh "Hp" in let Hsnap := fresh "Hsnap" in
  intros h p v Hp Hsnap;
  rewrite op_bind; unfold new at 1; rewrite op_bind;
  erewrite op_read
    by (rewrite lookup_insert_ne by (eapply used_not_fresh; exact Hp); exact Hp);
  cbv beta iota;
  destruct (deepCopy_tail cell zero into snap ptrs Hweaken Hagree Hinto h v Hsnap)
    as (h' & v' & Hrun & Hq & Hsub & Hcell & Hsame & Hnew);
  exists (fresh (dom h)), h', v'; repeat split; assumption.

(** C7. With imported deep copies that return values equal to their
    receivers, each of the six DeepCopy methods gives nil for nil, and for a
    receiver whose pointers resolve a pointer that was not in use, to a value
    with the same snapshot as the receiver and with pointers that were not
    in use either; no cell of the heap it started from is changed. *)
Theorem DeepCopy_is_a_deep_copy :
  faithfulImports ->
  deepCopies NetworkCell snapshotNetwork (fun _ => pointersNetwork) VirtualNetwork_DeepCopy /\
  deepCopies ListCell snapshotList pointersList VirtualNetworkList_DeepCopy /\
  deepCopies ObservationCell (fun _ v => Some v) (fun _ _ => []) VirtualNetworkObservation_DeepCopy /\
  deepCopies ParametersCell snapshotParameters (fun _ => pointersParameters)
    VirtualNetworkParameters_DeepCopy /\
  deepCopies SpecCell snapshotSpec (fun _ a => pointersParameters (ForProvider a))
    VirtualNetworkSpec_DeepCopy /\
  deepCopies StatusCell (fun _ v => Some v) (fun _ _ => []) VirtualNetworkStatus_DeepCopy.
Proof.
  intros faithful.
  assert (Hnetwork : forall (h h' : Heap) v,
            (forall l, l ∈ pointersNetwork v -> h' !! l = h !! l) ->
            snapshotNetwork h' v = snapshotNetwork h v /\ pointersNetwork v = pointersNetwork v).
  { intros h h' v Hl. split; [now apply snapshotNetwork_agree | reflexivity]. }
  assert (Hparameters : forall (h h' : Heap) a,
            (forall l, l ∈ pointersParameters a -> h' !! l = h !! l) ->
            snapshotParameters h' a = snapshotParameters h a /\
            pointersParameters a = pointersParameters a).
  { intros h h' a Hl. split; [now apply snapshotParameters_agree | reflexivity]. }
  assert (Hspec : forall (h h' : Heap) a,
            (forall l, l ∈ pointersParameters (ForProvider a) -> h' !! l = h !! l) ->
            snapshotSpec h' a = snapshotSpec h a /\
            pointersParameters (ForProvider a) = pointersParameters (ForProvider a)).
  { intros h h' a Hl. split; [| reflexivity]. unfold snapshotSpec.
    now rewrite (snapshotParameters_agree h h' _ Hl). }
  assert (Hplain : forall V (h h' : Heap) (v : V),
            (forall l, l ∈ @nil loc -> h' !! l = h !! l) ->
            Some v = Some v /\ @nil loc = @nil loc) by (intros; split; reflexivity).
  assert (Hkeep : forall V (h h' : Heap) (v x : V), Some v = Some x -> h ⊆ h' -> Some v = Some x)
    by (intros; assumption).
  assert (Hobservation : forall (h : Heap) (v : VirtualNetworkObservation), is_Some (Some v) ->
            exists v' h', VirtualNetworkObservation_DeepCopyInto v h = Some (v', h') /\ h ⊆ h' /\
              Some v' = Some v /\ (forall l, l ∈ @nil loc -> h !! l = None)).
  { intros h v _. exists v, h. split; [now apply Observation_DeepCopyInto_spec |].
    split; [reflexivity |]. split; [reflexivity |]. intros l Hl. set_solver. }
  assert (Hstatus : forall (h : Heap) (v : VirtualNetworkStatus), is_Some (Some v) ->
            exists v' h', VirtualNetworkStatus_DeepCopyInto v h = Some (v', h') /\ h ⊆ h' /\
              Some v' = Some v /\ (forall l, l ∈ @nil loc -> h !! l = None)).
  { intros h v _. exists v, h. split; [now apply Status_DeepCopyInto_spec |].
    split; [reflexivity |]. split; [reflexivity |]. intros l Hl. set_solver. }
  split; [| split; [| split; [| split; [| split]]]].
  - unfold VirtualNetwork_DeepCopy.
    deep_copy_of NetworkCell zeroNetwork VirtualNetwork_DeepCopyInto snapshotNetwork
      (fun _ : Heap => pointersNetwork)
      snapshotNetwork_weaken Hnetwork (Network_DeepCopyInto_spec faithful).
  - unfold VirtualNetworkList_DeepCopy.
    deep_copy_of ListCell zeroList VirtualNetworkList_DeepCopyInto snapshotList pointersList
      snapshotList_weaken snapshotList_agree (List_DeepCopyInto_spec faithful).
  - unfold VirtualNetworkObservation_DeepCopy.
    deep_copy_of ObservationCell zeroObservation VirtualNetworkObservation_DeepCopyInto
      (fun (_ : Heap) (v : VirtualNetworkObservation) => Some v)
      (fun (_ : Heap) (_ : VirtualNetworkObservation) => @nil loc)
      (Hkeep VirtualNetworkObservation) (Hplain VirtualNetworkObservation) Hobservation.
  - unfold VirtualNetworkParameters_DeepCopy.
    deep_copy_of ParametersCell zeroParameters VirtualNetworkParameters_DeepCopyInto
      snapshotParameters (fun _ : Heap => pointersParameters)
      snapshotParameters_weaken Hparameters Parameters_DeepCopyInto_spec.
  - unfold VirtualNetworkSpec_DeepCopy.
    deep_copy_of SpecCell zeroSpec VirtualNetworkSpec_DeepCopyInto snapshotSpec
      (fun (_ : Heap) (a : VirtualNetworkSpec) => pointersParameters (ForProvider a))
      snapshotSpec_weaken Hspec (Spec_DeepCopyInto_spec faithful).
  - unfold VirtualNetworkStatus_DeepCopy.
    deep_copy_of StatusCell zeroStatus VirtualNetworkStatus_DeepCopyInto
      (fun (_ : Heap) (v : VirtualNetworkStatus) => Some v)
      (fun (_ : Heap) (_ : VirtualNetworkStatus) => @nil loc)
      (Hkeep VirtualNetworkStatus) (Hplain VirtualNetworkStatus) Hstatus.
Qed.

(** * Further properties of the generated deep copies *)

(** ** DeepCopyObject *)

(** X15. A DeepCopyObject that returns gives the nil interface for a nil
    receiver, leaving the heap alone, and otherwise an interface that holds
    the pointer that DeepCopy returns, which points to a new object.  It
    never gives an interface that holds a nil pointer, which would not
    compare equal to nil. *)
Theorem DeepCopyObject_never_holds_nil (in_ : option loc) (h h' : Heap) (o : Object) :
  VirtualNetwork_DeepCopyObject in_ h = Some (o, h') \/
  VirtualNetworkList_DeepCopyObject in_ h = Some (o, h') ->
  match in_ with
  | None => o = nilObject /\ h' = h
  | Some _ =>
    exists q, h !! q = None /\
      (o = NetworkObject (Some q) /\ VirtualNetwork_DeepCopy in_ h = Some (Some q, h') \/
       o = ListObject (Some q) /\ VirtualNetworkList_DeepCopy in_ h = Some (Some q, h'))
  end.
Proof.
  intros [Hrun | Hrun]; destruct in_ as [p |].
  - unfold VirtualNetwork_DeepCopyObject in Hrun. rewrite op_bind in Hrun.
    destruct (VirtualNetwork_DeepCopy (Some p) h) as [[c h1] |] eqn:Hcopy; [| discriminate Hrun].
    assert (Hc : c = Some (fresh (dom h))).
    { unfold VirtualNetwork_DeepCopy in Hcopy. rewrite op_bind in Hcopy. unfold new at 1 in Hcopy.
      rewrite op_bind in Hcopy.
      destruct (read p _) as [[[] h2] |]; try discriminate Hcopy.
      rewrite op_bind in Hcopy.
      destruct (VirtualNetwork_DeepCopyInto v h2) as [[v' h3] |]; [| discriminate Hcopy].
      now injection Hcopy as <- _. }
    subst c. injection Hrun as <- <-.
    exists (fresh (dom h)). split; [apply fresh_unused | left; split; reflexivity].
  - injection Hrun as <- <-. split; reflexivity.
  - unfold VirtualNetworkList_DeepCopyObject in Hrun. rewrite op_bind in Hrun.
    destruct (VirtualNetworkList_DeepCopy (Some p) h) as [[c h1] |] eqn:Hcopy; [| discriminate Hrun].
    assert (Hc : c = Some (fresh (dom h))).
    { unfold VirtualNetworkList_DeepCopy in Hcopy. rewrite op_bind in Hcopy. unfold new at 1 in Hcopy.
      rewrite op_bind in Hcopy.
      destruct (read p _) as [[[] h2] |]; try discriminate Hcopy.
      rewrite op_bind in Hcopy.
      destruct (VirtualNetworkList_DeepCopyInto v h2) as [[v' h3] |]; [| discriminate Hcopy].
      now injection Hcopy as <- _. }
    subst c. injection Hrun as <- <-.
    exists (fresh (dom h)). split; [apply fresh_unused | right; split; reflexivity].
  - injection Hrun as <- <-. split; reflexivity.
Qed.

(** ** The Items of a list *)

(** X16. Nil Items are copied as nil, without a change of the heap.  Items
    that are empty but not nil are copied as a new slice that is empty and
    not nil either, whatever array the original is a window of: that array
    is not read. *)
Theorem List_DeepCopyInto_nil_and_empty (h : Heap) (v : VirtualNetworkList) :
  (Items v = None ->
   VirtualNetworkList_DeepCopyInto v h =
     Some ({| listTypeMeta := listTypeMeta v;
              listMeta := ListMeta_DeepCopyInto (listMeta v);
              Items := None |}, h)) /\
  (forall sl, Items v = Some sl -> len sl = 0%nat ->
   h !! fresh (dom h) = None /\
   VirtualNetworkList_DeepCopyInto v h =
     Some ({| listTypeMeta := listTypeMeta v;
              listMeta := ListMeta_DeepCopyInto (listMeta v);
              Items := Some {| array := fresh (dom h); offset := 0; len := 0 |} |},
           <[fresh (dom h) := ArrayCell []]> h)).
Proof.
  split.
  - intros Hnil. unfold VirtualNetworkList_DeepCopyInto. now rewrite Hnil.
  - intros sl Hsl Hlen. split; [apply fresh_unused |].
    unfold VirtualNetworkList_DeepCopyInto. rewrite Hsl, Hlen. reflexivity.
Qed.

(** X17. The copy of Items that are not nil is a slice of its own: it
    starts at index 0 of a new array that has exactly as many elements as
    the original slice, wherever the original starts in its array and
    however long that array is. *)
Theorem List_DeepCopyInto_slice_is_its_own (h : Heap) (v : VirtualNetworkList) (sl : Slice) :
  faithfulImports ->
  Items v = Some sl ->
  is_Some (snapshotList h v) ->
  exists v' h' a ys,
    VirtualNetworkList_DeepCopyInto v h = Some (v', h') /\
    Items v' = Some {| array := a; offset := 0; len := len sl |} /\
    h !! a = None /\
    h' !! a = Some (ArrayCell ys) /\
    length ys = len sl /\
    h' !! array sl = h !! array sl.
Proof.
  intros faithful Hitems [x Hsnap].
  unfold snapshotList, snapshotItems in Hsnap. rewrite Hitems in Hsnap.
  destruct (elements h sl) as [xs |] eqn:Hel; [| discriminate Hsnap]. cbn in Hsnap.
  destruct (mapM (snapshotNetwork h) xs) as [snaps |] eqn:Hsnaps; [| discriminate Hsnap].
  apply mapM_Some in Hsnaps.
  unfold elements in Hel.
  destruct (h !! array sl) as [[| arr | | | | | |] |] eqn:Harr; try discriminate Hel.
  destruct (decide (offset sl + len sl <= length arr)%nat) as [Hbound |]; [| discriminate Hel].
  injection Hel as Hxs. symmetry in Hxs.
  set (a := fresh (dom h)).
  assert (Ha : h !! a = None) by apply fresh_unused.
  set (h1 := <[a := ArrayCell (replicate (len sl) zeroNetwork)]> h).
  destruct (copyItems_spec faithful h sl arr xs a Harr Hbound Hxs) with
    (k := len sl) (i := 0%nat) (h := h1) (ys := replicate (len sl) zeroNetwork)
    as (h' & ys' & Hrun & Hsub & Hya & Hylen & _).
  { intros u Hu. apply list_elem_of_lookup in Hu as [j Hj].
    destruct (Forall2_lookup_l _ _ _ j u Hsnaps Hj) as (y & _ & Hy). now exists y. }
  { exact Ha. }
  { reflexivity. }
  { now apply insert_subseteq. }
  { apply lookup_insert_eq. }
  { apply length_replicate. }
  { intros j u Hj. lia. }
  exists {| listTypeMeta := listTypeMeta v; listMeta := ListMeta_DeepCopyInto (listMeta v);
            Items := Some {| array := a; offset := 0; len := len sl |} |}, h', a, ys'.
  split; [| split; [reflexivity |]].
  - unfold VirtualNetworkList_DeepCopyInto. rewrite Hitems.
    rewrite op_bind. unfold new at 1. fold a h1. cbv zeta.
    rewrite op_bind, Hrun. reflexivity.
  - split; [exact Ha |]. split; [exact Hya |]. split; [exact Hylen |].
    now apply (lookup_weaken h h').
Qed.

(** ** A copy and its original *)

(** What makes a copy independent of its original, from what the deep copy
    guarantees. *)
Lemma independent_of_the_original {V S : Type} (snap : Heap -> V -> option S)
    (ptrs : Heap -> V -> list loc) (h h' : Heap) (v v' : V) :
  (forall h h' v x, snap h v = Some x -> h ⊆ h' -> snap h' v = Some x) ->
  (forall h h' v, (forall l, l ∈ ptrs h v -> h' !! l = h !! l) ->
     snap h' v = snap h v /\ ptrs h' v = ptrs h v) ->
  is_Some (snap h v) ->
  h ⊆ h' ->
  snap h' v' = snap h v ->
  (forall l, l ∈ ptrs h' v' -> h !! l = None) ->
  (forall l c, is_Some (h !! l) -> snap (<[l := c]> h') v' = snap h v) /\
  (forall l c, h !! l = None -> snap (<[l := c]> h') v = snap h v).
Proof.
  intros Hweaken Hagree [x Hsnap] Hsub Hsame Hnew. split.
  - intros l c [c0 Hl]. rewrite <- Hsame.
    apply (Hagree h' (<[l := c]> h') v').
    intros l' Hl'. apply lookup_insert_ne. intros <-.
    rewrite (Hnew l Hl') in Hl. discriminate Hl.
  - intros l c Hl. rewrite Hsnap. apply (Hweaken h (<[l := c]> h')); [exact Hsnap |].
    now apply insert_subseteq_r.
Qed.

(** The Spec that a snapshot of a VirtualNetwork holds is the snapshot of
    its Spec, and likewise for the Items of a list. *)
Lemma snapshotNetwork_Spec (h : Heap) (v : VirtualNetwork) (x : NetworkSnapshot) :
  snapshotNetwork h v = Some x -> snapshotSpec h (Spec v) = Some (specOf x).
Proof.
  unfold snapshotNetwork. intros Hsnap.
  destruct (snapshotSpec h (Spec v)) as [sp |]; [| discriminate Hsnap].
  cbn in Hsnap. injection Hsnap as <-. reflexivity.
Qed.

Lemma snapshotList_Specs (h : Heap) (v : VirtualNetworkList)
    (x : TypeMeta * ListMeta * option (list NetworkSnapshot)) :
  snapshotList h v = Some x -> snapshotSpecs h v = Some (option_map (map specOf) x.2).
Proof.
  unfold snapshotList, snapshotItems, snapshotSpecs. intros Hsnap.
  destruct (Items v) as [sl |]; [| cbn in Hsnap; injection Hsnap as <-; reflexivity].
  destruct (elements h sl) as [xs |]; [| discriminate Hsnap]. cbn in Hsnap |- *.
  destruct (mapM (snapshotNetwork h) xs) as [ys |] eqn:Hys; [| discriminate Hsnap].
  cbn in Hsnap. injection Hsnap as <-. cbn.
  assert (Hspecs : mapM (fun u => snapshotSpec h (Spec u)) xs = Some (map specOf ys)).
  { apply mapM_Some. apply mapM_Some in Hys. apply Forall2_fmap_r.
    eapply Forall2_impl; [exact Hys |]. cbn. intros u y Hu.
    now apply snapshotNetwork_Spec. }
  now rewrite Hspecs.
Qed.

(** X18. After a DeepCopy of a VirtualNetwork or of a VirtualNetworkList,
    the Description strings and the Items array of the copy are cells of
    its own.  Overwriting any cell that was in use before the copy was made
    (the original object, its strings, its array) leaves the Specs of the
    copy as those of the original were; and overwriting any cell that was
    not (the cells of the copy) leaves the Specs of the original as they
    were.  This says nothing of the Status and of the metadata, whose
    pointers are not cells of the heap here. *)
Theorem DeepCopy_owns_its_strings_and_array (h : Heap) (p : loc) :
  faithfulImports ->
  (forall v, h !! p = Some (NetworkCell v) -> is_Some (snapshotNetwork h v) ->
   exists q h' v',
     VirtualNetwork_DeepCopy (Some p) h = Some (Some q, h') /\
     h' !! q = Some (NetworkCell v') /\
     (forall l c, is_Some (h !! l) ->
        <[l := c]> h' !! q = Some (NetworkCell v') /\
        snapshotSpec (<[l := c]> h') (Spec v') = snapshotSpec h (Spec v)) /\
     (forall l c, h !! l = None ->
        snapshotSpec (<[l := c]> h') (Spec v) = snapshotSpec h (Spec v))) /\
  (forall v, h !! p = Some (ListCell v) -> is_Some (snapshotList h v) ->
   exists q h' v',
     VirtualNetworkList_DeepCopy (Some p) h = Some (Some q, h') /\
     h' !! q = Some (ListCell v') /\
     (forall l c, is_Some (h !! l) ->
        <[l := c]> h' !! q = Some (ListCell v') /\
        snapshotSpecs (<[l := c]> h') v' = snapshotSpecs h v) /\
     (forall l c, h !! l = None -> snapshotSpecs (<[l := c]> h') v = snapshotSpecs h v)).
Proof.
  intros faithful.
  assert (Hnetwork : forall (h h' : Heap) v,
            (forall l, l ∈ pointersNetwork v -> h' !! l = h !! l) ->
            snapshotNetwork h' v = snapshotNetwork h v /\ pointersNetwork v = pointersNetwork v).
  { intros h0 h' v Hl. split; [now apply snapshotNetwork_agree | reflexivity]. }
  split; intros v Hp Hsnap.
  - unfold VirtualNetwork_DeepCopy.
    rewrite op_bind; unfold new at 1; rewrite op_bind.
    erewrite op_read
      by (rewrite lookup_insert_ne by (eapply used_not_fresh; exact Hp); exact Hp).
    cbv beta iota.
    destruct (deepCopy_tail NetworkCell zeroNetwork VirtualNetwork_DeepCopyInto snapshotNetwork
                (fun _ : Heap => pointersNetwork) snapshotNetwork_weaken Hnetwork
                (Network_DeepCopyInto_spec faithful) h v Hsnap)
      as (h' & v' & Hrun & Hq & Hsub & Hcell & Hsame & Hnew).
    destruct (independent_of_the_original snapshotNetwork (fun _ : Heap => pointersNetwork)
                h h' v v' snapshotNetwork_weaken Hnetwork Hsnap Hsub Hsame Hnew)
      as [Hcopy Horiginal].
    destruct Hsnap as [x Hsnap].
    exists (fresh (dom h)), h', v'.
    split; [exact Hrun |]. split; [exact Hcell |]. split.
    + intros l c Hl. split.
      * rewrite lookup_insert_ne; [exact Hcell |].
        intros ->. rewrite Hq in Hl. destruct Hl as [? Hl]. discriminate Hl.
      * specialize (Hcopy l c Hl). rewrite Hsnap in Hcopy.
        now rewrite (snapshotNetwork_Spec _ _ _ Hcopy), (snapshotNetwork_Spec _ _ _ Hsnap).
    + intros l c Hl. specialize (Horiginal l c Hl). rewrite Hsnap in Horiginal.
      now rewrite (snapshotNetwork_Spec _ _ _ Horiginal), (snapshotNetwork_Spec _ _ _ Hsnap).
  - unfold VirtualNetworkList_DeepCopy.
    rewrite op_bind; unfold new at 1; rewrite op_bind.
    erewrite op_read
      by (rewrite lookup_insert_ne by (eapply used_not_fresh; exact Hp); exact Hp).
    cbv beta iota.
    destruct (deepCopy_tail ListCell zeroList VirtualNetworkList_DeepCopyInto snapshotList
                pointersList snapshotList_weaken snapshotList_agree
                (List_DeepCopyInto_spec faithful) h v Hsnap)
      as (h' & v' & Hrun & Hq & Hsub & Hcell & Hsame & Hnew).
    destruct (independent_of_the_original snapshotList pointersList
                h h' v v' snapshotList_weaken snapshotList_agree Hsnap Hsub Hsame Hnew)
      as [Hcopy Horiginal].
    destruct Hsnap as [x Hsnap].
    exists (fresh (dom h)), h', v'.
    split; [exact Hrun |]. split; [exact Hcell |]. split.
    + intros l c Hl. split.
      * rewrite lookup_insert_ne; [exact Hcell |].
        intros ->. rewrite Hq in Hl. destruct Hl as [? Hl]. discriminate Hl.
      * specialize (Hcopy l c Hl). rewrite Hsnap in Hcopy.
        now rewrite (snapshotList_Specs _ _ _ Hcopy), (snapshotList_Specs _ _ _ Hsnap).
    + intros l c Hl. specialize (Horiginal l c Hl). rewrite Hsnap in Horiginal.
      now rewrite (snapshotList_Specs _ _ _ Horiginal), (snapshotList_Specs _ _ _ Hsnap).
Qed.

End DeepCopyFacts.

(** The list of two networks: the copy is new and has the snapshot of the
    original. *)
Lemma DeepCopy_is_a_deep_copy_witness :
  @faithfulImports vlan_scenario.types /\
  exists q h' v',
    v1alpha1.VirtualNetworkList_DeepCopy (Some 3%positive) vlan_scenario.heap = Some (Some q, h') /\
    vlan_scenario.heap !! q = None /\
    h' !! q = Some (v1alpha1.ListCell v') /\
    snapshotList h' v' = snapshotList vlan_scenario.heap vlan_scenario.networks /\
    is_Some (snapshotList h' v').
Proof.
  assert (Hfaithful : @faithfulImports vlan_scenario.types)
    by (repeat split; reflexivity).
  split; [exact Hfaithful |].
  destruct (DeepCopy_is_a_deep_copy Hfaithful) as (_ & [_ Hlist] & _).
  assert (Hsnap : is_Some (snapshotList vlan_scenario.heap vlan_scenario.networks)).
  { eexists. vm_compute. reflexivity. }
  destruct (Hlist vlan_scenario.heap 3%positive vlan_scenario.networks eq_refl Hsnap)
    as (q & h' & v' & Hrun & Hq & _ & Hcell & Hsame & _).
  exists q, h', v'. repeat split; try assumption. now rewrite Hsame.
Defined.

(** The list of two networks, and no list at all. *)
Lemma DeepCopyObject_never_holds_nil_witness :
  (exists o h' q,
     v1alpha1.VirtualNetworkList_DeepCopyObject (Some 3%positive) vlan_scenario.heap = Some (o, h') /\
     o = v1alpha1.ListObject (Some q) /\
     vlan_scenario.heap !! q = None) /\
  @v1alpha1.VirtualNetworkList_DeepCopyObject vlan_scenario.types None vlan_scenario.heap =
    Some (v1alpha1.nilObject, vlan_scenario.heap).
Proof.
  split.
  - destruct (v1alpha1.VirtualNetworkList_DeepCopyObject (Some 3%positive) vlan_scenario.heap)
      as [[o h'] |] eqn:Hrun; [| vm_compute in Hrun; discriminate Hrun].
    destruct (DeepCopyObject_never_holds_nil (Some 3%positive) vlan_scenario.heap h' o
                (or_intror Hrun)) as (q & Hq & [[Ho Hcopy] | [Ho _]]).
    + exfalso. vm_compute in Hcopy. discriminate Hcopy.
    + exists o, h', q. split; [reflexivity |]. split; [exact Ho | exact Hq].
  - destruct (@v1alpha1.VirtualNetworkList_DeepCopyObject vlan_scenario.types None vlan_scenario.heap)
      as [[o h'] |] eqn:Hrun; [| discriminate Hrun].
    destruct (DeepCopyObject_never_holds_nil None vlan_scenario.heap h' o (or_intror Hrun))
      as [-> ->].
    reflexivity.
Defined.

(** A list over no element of the array of two. *)
Lemma List_DeepCopyInto_nil_and_empty_witness :
  exists a v',
    vlan_scenario.heap !! a = None /\
    v1alpha1.VirtualNetworkList_DeepCopyInto vlan_scenario.noNetworks vlan_scenario.heap =
      Some (v', <[a := v1alpha1.ArrayCell []]> vlan_scenario.heap) /\
    v1alpha1.Items v' =
      Some {| v1alpha1.array := a; v1alpha1.offset := 0; v1alpha1.len := 0 |}.
Proof.
  destruct (proj2 (List_DeepCopyInto_nil_and_empty vlan_scenario.heap vlan_scenario.noNetworks)
              _ eq_refl eq_refl) as [Hnew Hrun].
  eexists _, _. split; [exact Hnew |]. split; [exact Hrun | reflexivity].
Defined.

(** The second network alone, out of the array of two: the array of the
    copy has one element. *)
Lemma List_DeepCopyInto_slice_is_its_own_witness :
  exists v' h' a ys,
    v1alpha1.VirtualNetworkList_DeepCopyInto vlan_scenario.window vlan_scenario.heap =
      Some (v', h') /\
    v1alpha1.Items v' = Some {| v1alpha1.array := a; v1alpha1.offset := 0; v1alpha1.len := 1 |} /\
    h' !! a = Some (v1alpha1.ArrayCell ys) /\
    length ys = 1%nat.
Proof.
  assert (Hfaithful : @faithfulImports vlan_scenario.types)
    by (repeat split; reflexivity).
  assert (Hsnap : is_Some (snapshotList vlan_scenario.heap vlan_scenario.window)).
  { eexists. vm_compute. reflexivity. }
  destruct (List_DeepCopyInto_slice_is_its_own vlan_scenario.heap vlan_scenario.window _
              Hfaithful eq_refl Hsnap)
    as (v' & h' & a & ys & Hrun & Hitems & _ & Hcell & Hlen & _).
  exists v', h', a, ys. repeat split; assumption.
Defined.

(** The list of two networks: whatever is written over the original list
    or over its array, the Specs of the copy stay those that the original
    had. *)
Lemma DeepCopy_owns_its_strings_and_array_witness :
  exists q h' v',
    v1alpha1.VirtualNetworkList_DeepCopy (Some 3%positive) vlan_scenario.heap = Some (Some q, h') /\
    h' !! q = Some (v1alpha1.ListCell v') /\
    forall c,
      snapshotSpecs (<[2%positive := c]> h') v' =
      Some (Some [("default", ("ewr1", Some "uplink")); ("default", ("sjc1", None))]).
Proof.
  assert (Hfaithful : @faithfulImports vlan_scenario.types)
    by (repeat split; reflexivity).
  assert (Hsnap : is_Some (snapshotList vlan_scenario.heap vlan_scenario.networks)).
  { eexists. vm_compute. reflexivity. }
  destruct (proj2 (DeepCopy_owns_its_strings_and_array vlan_scenario.heap 3%positive Hfaithful)
              vlan_scenario.networks eq_refl Hsnap)
    as (q & h' & v' & Hrun & Hcell & Hcopy & _).
  exists q, h', v'. split; [exact Hrun |]. split; [exact Hcell |].
  intros c. etransitivity; [| vm_compute; reflexivity].
  apply (Hcopy 2%positive c). eexists. reflexivity.
Defined.

(** * Properties of the mock client *)

Section MockClientFacts.
Import fake.
Context {CreateRequest SpotMarketRequest Response GetOptions GoError World : Type}.

Local Abbreviation Mock :=
  (@MockClient CreateRequest SpotMarketRequest Response GetOptions GoError World).

(** Delete, Get, GetFacilityID and GetProjectID hand their arguments to the
    stored function and return what it returns; a nil function panics in
    the method as it would when called directly. *)
Lemma MockClient_delegates (c : Mock) :
  (forall requestID w, Delete c requestID w = invoke (MockDelete c) requestID w) /\
  (forall requestID options w g,
     MockGet c = Some g -> Get c requestID options w = Some (g requestID options w)) /\
  (MockGet c = None -> forall requestID options w, Get c requestID options w = None) /\
  (forall id w, GetFacilityID c id w = invoke (MockGetFacilityID c) id w) /\
  (forall id w, GetProjectID c id w = invoke (MockGetProjectID c) id w).
Proof.
  repeat split; try reflexivity.
  - intros requestID options w g Hg. unfold Get. now rewrite Hg.
  - intros Hnil requestID options w. unfold Get. now rewrite Hnil.
Qed.

(** Create hands MockCreate the create request and nothing else. *)
Lemma MockClient_Create_applies_one_argument (c : Mock) (createRequest : CreateRequest) g :
  MockCreate c = Some g -> Create c createRequest = Some (g createRequest).
Proof. intros Hg. unfold Create. now rewrite Hg. Qed.

(** X19. Each of Delete, Get, GetFacilityID and GetProjectID calls the
    function stored in the field of its name with the arguments it was
    given, and returns what that function returns; with a nil function in
    that field, the method panics. *)
Theorem MockClient_methods_forward (c : Mock) :
  (forall g, MockDelete c = Some g ->
     forall requestID w, Delete c requestID w = Some (g requestID w)) /\
  (forall g, MockGet c = Some g ->
     forall requestID options w, Get c requestID options w = Some (g requestID options w)) /\
  (forall g, MockGetFacilityID c = Some g ->
     forall id w, GetFacilityID c id w = Some (g id w)) /\
  (forall g, MockGetProjectID c = Some g ->
     forall id w, GetProjectID c id w = Some (g id w)) /\
  (MockDelete c = None -> forall requestID w, Delete c requestID w = None) /\
  (MockGet c = None -> forall requestID options w, Get c requestID options w = None) /\
  (MockGetFacilityID c = None -> forall id w, GetFacilityID c id w = None) /\
  (MockGetProjectID c = None -> forall id w, GetProjectID c id w = None).
Proof.
  unfold Delete, Get, GetFacilityID, GetProjectID, invoke.
  repeat split; intros; match goal with Hf : _ = _ |- _ => rewrite Hf end; reflexivity.
Qed.

End MockClientFacts.

(** C5 at a mock whose MockCreate answers with the project it is asked for:
    Create, given the request, yields a function that still waits for the
    project ID, and no single result is the result of the stored function. *)
Theorem MockClient_Create_lacks_projectID :
  exists g,
    fake.Create fake_scenario.mock "request" = Some g /\
    g "project-a" 0 = (("project-a", 201, None), 1) /\
    g "project-b" 0 = (("project-b", 201, None), 1) /\
    forall result, ~ (forall projectID, g projectID 0 = result).
Proof.
  eexists. split; [reflexivity |]. split; [reflexivity |]. split; [reflexivity |].
  intros result Hall.
  pose proof (Hall "project-a") as Ha. pose proof (Hall "project-b") as Hb.
  cbn in Ha, Hb. rewrite <- Hb in Ha. discriminate Ha.
Qed.

(** The mock of the scenario: it answers a Delete and has no function for
    GetFacilityID. *)
Lemma MockClient_methods_forward_witness :
  fake.Delete fake_scenario.mock "request-1" 0 = Some ((204, None), 1) /\
  fake.GetFacilityID fake_scenario.mock "ewr1" 0 = None.
Proof.
  split.
  - exact (proj1 (MockClient_methods_forward fake_scenario.mock) _ eq_refl "request-1" 0).
  - exact (proj1 (proj2 (proj2 (proj2 (proj2 (proj2 (proj2
             (MockClient_methods_forward fake_scenario.mock)))))))
             eq_refl "ewr1" 0).
Defined.
